(** * Personal diet tracker: nutrition aggregation and goal progress

    A shallow embedding of the calculation layer of the diet tracker
    (dashboard components, goal form, meal logger) together with the
    properties its specification states about it.

    Source files embedded here:
    - [src/components/dashboard/DailyOverview.tsx]
    - [src/components/dashboard/ProgressTracker.tsx]
    - [src/components/dashboard/RecommendationCard.tsx]
    - [src/components/dashboard/Dashboard.tsx]
    - [src/components/dashboard/ProfileCompletionCheck.tsx]
    - [src/components/profile/GoalSetting.tsx], [src/utils/validation.ts]
    - [src/components/auth/OnboardingFlow.tsx]
    - [src/components/meal-logging/MealLogger.tsx],
      [src/components/meal-logging/QuickAdd.tsx],
      [src/components/meal-logging/FoodSearch.tsx],
      [src/hooks/useMealLogging.ts], [src/services/n8nWebhooks.ts]
    - the API route that starts a chat session *)

From Stdlib Require Import ZArith QArith Qcanon Bool List Lia Lqa.
From Stdlib Require Import Ascii String DecimalString.
Import ListNotations.

Open Scope string_scope.

(* ================================================================== *)
(** * JavaScript numbers *)
(* ================================================================== *)

(** The source computes with JavaScript numbers.  The model keeps the three
    special values of the number type and takes every finite value as an
    exact rational in canonical form ([Qc]), so that Leibniz equality is
    numeric equality.  What the model leaves out: the rounding and overflow
    of finite binary64 arithmetic, and the sign of zero (every zero behaves
    as [+0]). *)
Module JsNum.

Inductive num : Type :=
| Fin (q : Qc)
| PInf
| NInf
| NaN.

Definition ofQ (q : Q) : num := Fin (Q2Qc q).
Definition ofZ (z : Z) : num := Fin (Q2Qc (inject_Z z)).

(** Sign of a finite value: [Lt] negative, [Eq] zero, [Gt] positive. *)
Definition Qcsgn (q : Qc) : comparison := (q ?= 0)%Qc.

Definition Qceqb (x y : Qc) : bool :=
  match (x ?= y)%Qc with Eq => true | _ => false end.

Definition Qcltb (x y : Qc) : bool :=
  match (x ?= y)%Qc with Lt => true | _ => false end.

Definition Qcleb (x y : Qc) : bool :=
  match (x ?= y)%Qc with Gt => false | _ => true end.

(** [a + b] *)
Definition add (a b : num) : num :=
  match a, b with
  | NaN, _ | _, NaN => NaN
  | PInf, NInf | NInf, PInf => NaN
  | PInf, _ | _, PInf => PInf
  | NInf, _ | _, NInf => NInf
  | Fin x, Fin y => Fin (x + y)%Qc
  end.

(** [- a] *)
Definition neg (a : num) : num :=
  match a with
  | NaN => NaN
  | PInf => NInf
  | NInf => PInf
  | Fin x => Fin (- x)%Qc
  end.

(** [a - b] *)
Definition sub (a b : num) : num := add a (neg b).

(** An infinity of the sign of [s], or [NaN] for a zero factor. *)
Definition inf_of_sign (s : comparison) : num :=
  match s with Gt => PInf | Lt => NInf | Eq => NaN end.

(** [a * b] *)
Definition mul (a b : num) : num :=
  match a, b with
  | NaN, _ | _, NaN => NaN
  | Fin x, Fin y => Fin (x * y)%Qc
  | PInf, PInf | NInf, NInf => PInf
  | PInf, NInf | NInf, PInf => NInf
  | PInf, Fin y | Fin y, PInf => inf_of_sign (Qcsgn y)
  | NInf, Fin y | Fin y, NInf => inf_of_sign (CompOpp (Qcsgn y))
  end.

(** [a / b]: division by zero gives an infinity of the sign of the
    dividend, and [0 / 0] gives [NaN]. *)
Definition div (a b : num) : num :=
  match a, b with
  | NaN, _ | _, NaN => NaN
  | Fin x, Fin y =>
      match Qcsgn y with
      | Eq => inf_of_sign (Qcsgn x)
      | _ => Fin (x / y)%Qc
      end
  | Fin _, PInf | Fin _, NInf => Fin 0%Qc
  | PInf, Fin y => match Qcsgn y with Lt => NInf | _ => PInf end
  | NInf, Fin y => match Qcsgn y with Lt => PInf | _ => NInf end
  | _, _ => NaN
  end.

(** [a < b] *)
Definition ltb (a b : num) : bool :=
  match a, b with
  | NaN, _ | _, NaN => false
  | Fin x, Fin y => Qcltb x y
  | NInf, NInf | PInf, _ => false
  | NInf, _ => true
  | Fin _, PInf => true
  | Fin _, NInf => false
  end.

(** [a > b] *)
Definition gtb (a b : num) : bool := ltb b a.

(** [a <= b] *)
Definition leb (a b : num) : bool :=
  match a, b with
  | NaN, _ | _, NaN => false
  | Fin x, Fin y => Qcleb x y
  | NInf, _ | _, PInf => true
  | _, _ => false
  end.

(** [a >= b] *)
Definition geb (a b : num) : bool := leb b a.

(** [a === b] on numbers: [NaN] is equal to nothing. *)
Definition strict_eq (a b : num) : bool :=
  match a, b with
  | Fin x, Fin y => Qceqb x y
  | PInf, PInf | NInf, NInf => true
  | _, _ => false
  end.

(** [a !== b] *)
Definition strict_ne (a b : num) : bool := negb (strict_eq a b).

(** ToBoolean on a number: [0] and [NaN] are falsy. *)
Definition truthy (a : num) : bool :=
  match a with
  | NaN => false
  | Fin x => negb (Qceqb x 0)
  | _ => true
  end.

(** [Math.max(a, b)] and [Math.min(a, b)]: [NaN] when either is [NaN]. *)
Definition Math_max (a b : num) : num :=
  match a, b with
  | NaN, _ | _, NaN => NaN
  | _, _ => if ltb a b then b else a
  end.

Definition Math_min (a b : num) : num :=
  match a, b with
  | NaN, _ | _, NaN => NaN
  | _, _ => if ltb b a then b else a
  end.

(** [Math.abs(a)] *)
Definition Math_abs (a : num) : num :=
  match a with
  | NaN => NaN
  | PInf | NInf => PInf
  | Fin x => if Qcltb x 0 then Fin (- x)%Qc else Fin x
  end.

(** Structural (Leibniz) equality test, [NaN] equal to itself: used to
    compare values of the model, not by the source. *)
Definition num_eqb (a b : num) : bool :=
  match a, b with
  | Fin x, Fin y => Qceqb x y
  | PInf, PInf | NInf, NInf | NaN, NaN => true
  | _, _ => false
  end.

Definition is_finite (a : num) : bool :=
  match a with Fin _ => true | _ => false end.

Definition is_NaN (a : num) : bool :=
  match a with NaN => true | _ => false end.

(** ** A property that is optional in the TypeScript interface:
       [None] is [undefined]. *)

Definition truthy_opt (a : option num) : bool :=
  match a with Some x => truthy x | None => false end.

(** [a || d] for an optional number [a] and a number [d]. *)
Definition or_default (a : option num) (d : num) : num :=
  match a with
  | Some x => if truthy x then x else d
  | None => d
  end.

(** [a || b] for two optional numbers. *)
Definition or_else (a b : option num) : option num :=
  if truthy_opt a then a else b.

(** ** [Number.prototype.toFixed] *)

Definition digits_of_Z (n : Z) : string :=
  NilZero.string_of_uint (N.to_uint (Z.to_N n)).

Fixpoint zeros (k : nat) : string :=
  match k with O => "" | S k' => String "0" (zeros k') end.

(** The digits of [n], padded on the left to at least [f + 1] characters,
    with a point before the last [f] of them. *)
Definition place_point (f : nat) (m : string) : string :=
  match f with
  | O => m
  | S _ =>
      let padded := zeros (S f - String.length m) ++ m in
      let k := String.length padded in
      substring 0 (k - f) padded ++ "." ++ substring (k - f) f padded
  end.

(** [x.toFixed(f)] for a non-negative rational [x]: the integer [n] with
    [n / 10^f] nearest to [x], the larger one on a tie. *)
Definition round_scaled (f : nat) (x : Q) : Z :=
  let p := (Qnum x * 10 ^ Z.of_nat f)%Z in
  let q := Z.pos (Qden x) in
  ((2 * p + q) / (2 * q))%Z.

(** [a.toFixed(f)].  Above [10^21] JavaScript switches to exponent
    notation, whose digits depend on the binary representation; the model
    keeps positional notation there. *)
Definition toFixed (f : nat) (a : num) : string :=
  match a with
  | NaN => "NaN"
  | PInf => "Infinity"
  | NInf => "-Infinity"
  | Fin x =>
      if Qcltb x 0
      then "-" ++ place_point f (digits_of_Z (round_scaled f (Qopp (this x))))
      else place_point f (digits_of_Z (round_scaled f (this x)))
  end.

End JsNum.

Import JsNum.

Declare Scope num_scope.
Delimit Scope num_scope with num.
Bind Scope num_scope with num.
Infix "+" := add : num_scope.
Infix "-" := sub : num_scope.
Infix "*" := mul : num_scope.
Infix "/" := div : num_scope.

(** Integer literals of the source are written as such in [num_scope]. *)
Definition num_of_Z (z : Z) : num := ofZ z.
Definition num_to_Z (a : num) : option Z :=
  match a with
  | Fin x => if Pos.eqb (Qden (this x)) 1 then Some (Qnum (this x)) else None
  | _ => None
  end.
Number Notation num num_of_Z num_to_Z : num_scope.

(* ================================================================== *)
(** * Exceptions *)
(* ================================================================== *)

(** What a piece of the source can throw. *)
Inductive exn : Type :=
| RangeError (msg : string)   (* [toISOString] of an invalid date *)
| Error (msg : string)        (* [throw new Error(msg)] *)
| ZodError (path : string).   (* a schema's [parse] failing at [path] *)

Inductive result (A : Type) : Type :=
| Ok (a : A)
| Throw (e : exn).

Arguments Ok {A} a.
Arguments Throw {A} e.

Definition bind {A B : Type} (r : result A) (k : A -> result B) : result B :=
  match r with
  | Ok a => k a
  | Throw e => Throw e
  end.

Notation "x <- r ;; k" := (bind r (fun x => k))
  (at level 61, r at next level, right associativity).

(** [Array.prototype.filter] with a predicate that can throw. *)
Fixpoint filterM {A : Type} (p : A -> result bool) (l : list A) : result (list A) :=
  match l with
  | [] => Ok []
  | x :: rest =>
      b <- p x ;;
      kept <- filterM p rest ;;
      Ok (if b then x :: kept else kept)
  end.

(* ================================================================== *)
(** * Dates *)
(* ================================================================== *)

(** [Date] values carry a time value: milliseconds since the epoch, UTC.
    [new Date(s)] of a string that does not parse is an invalid date, whose
    [toISOString()] throws a [RangeError]. *)
Module JsDate.

Local Open Scope Z_scope.

Definition msPerDay : Z := 86400000.

(** Days since the epoch of the civil date [y]-[m]-[d] (proleptic
    Gregorian calendar). *)
Definition days_from_civil (y m d : Z) : Z :=
  let y' := if m <=? 2 then y - 1 else y in
  let era := y' / 400 in
  let yoe := y' - era * 400 in
  let mp := (m + 9) mod 12 in
  let doy := (153 * mp + 2) / 5 + d - 1 in
  let doe := yoe * 365 + yoe / 4 - yoe / 100 + doy in
  era * 146097 + doe - 719468.

(** Year, month and day of a day-of-era (a day within a 400-year cycle
    that starts on 1 March). *)
Definition civil_of_doe (era doe : Z) : Z * Z * Z :=
  let yoe := (doe - doe / 1460 + doe / 36524 - doe / 146096) / 365 in
  let y := yoe + era * 400 in
  let doy := doe - (365 * yoe + yoe / 4 - yoe / 100) in
  let mp := (5 * doy + 2) / 153 in
  let d := doy - (153 * mp + 2) / 5 + 1 in
  let m := if mp <? 10 then mp + 3 else mp - 9 in
  (if m <=? 2 then y + 1 else y, m, d).

(** The civil date of a day number: the inverse of [days_from_civil]. *)
Definition civil_from_days (z : Z) : Z * Z * Z :=
  let z' := z + 719468 in
  civil_of_doe (z' / 146097) (z' mod 146097).

Definition is_leap (y : Z) : bool :=
  (y mod 4 =? 0) && (negb (y mod 100 =? 0) || (y mod 400 =? 0)).

Definition days_in_month (y m : Z) : Z :=
  if m =? 2 then (if is_leap y then 29 else 28)
  else if (m =? 4) || (m =? 6) || (m =? 9) || (m =? 11) then 30
  else 31.

(** The UTC calendar date of a time value. *)
Definition utc_date (t : Z) : Z * Z * Z := civil_from_days (t / msPerDay).

(** Time values reach 100 000 000 days to either side of the epoch. *)
Definition maxTime : Z := 8640000000000000.

Definition valid_time (t : Z) : bool := Z.abs t <=? maxTime.

(** [TimeClip]: a time value out of range makes an invalid date. *)
Definition TimeClip (t : Z) : option Z :=
  if valid_time t then Some t else None.

(** ** Parsing: the date-time string format

    [YYYY-MM-DD], or [YYYY-MM-DDTHH:mm], [YYYY-MM-DDTHH:mm:ss] and
    [YYYY-MM-DDTHH:mm:ss.s...] followed by [Z] or by an offset [+HH:mm] or
    [-HH:mm].  A date-time without offset is local time and depends on the
    host's time zone; it is left out, like the formats an engine accepts
    beyond the standard one: for those [Date_parse] answers [None]. *)

Definition digit (c : ascii) : option Z :=
  let n := Z.of_N (N_of_ascii c) in
  if (48 <=? n) && (n <=? 57) then Some (n - 48) else None.

Fixpoint read_digits (k : nat) (acc : Z) (s : string) : option (Z * string) :=
  match k with
  | O => Some (acc, s)
  | S k' =>
      match s with
      | String c r =>
          match digit c with
          | Some d => read_digits k' (10 * acc + d) r
          | None => None
          end
      | EmptyString => None
      end
  end.

Definition expect (c : ascii) (s : string) : option string :=
  match s with
  | String c' r => if Ascii.eqb c c' then Some r else None
  | EmptyString => None
  end.

(** Skips the digits at the head of [s]. *)
Fixpoint skip_digits (s : string) : string :=
  match s with
  | String c r => match digit c with Some _ => skip_digits r | None => s end
  | EmptyString => s
  end.

(** The fraction of a second, in milliseconds: the first three digits
    count, the others are dropped. *)
Definition read_fraction (s : string) : option (Z * string) :=
  match s with
  | String c1 r1 =>
      match digit c1 with
      | None => None
      | Some d1 =>
          match r1 with
          | String c2 r2 =>
              match digit c2 with
              | None => Some (100 * d1, r1)
              | Some d2 =>
                  match r2 with
                  | String c3 r3 =>
                      match digit c3 with
                      | None => Some (100 * d1 + 10 * d2, r2)
                      | Some d3 => Some (100 * d1 + 10 * d2 + d3, skip_digits r3)
                      end
                  | EmptyString => Some (100 * d1 + 10 * d2, r2)
                  end
              end
          | EmptyString => Some (100 * d1, r1)
          end
      end
  | EmptyString => None
  end.

Definition opt_bind {A B : Type} (o : option A) (k : A -> option B) : option B :=
  match o with Some a => k a | None => None end.

Notation "x <-? o ;; k" := (opt_bind o (fun x => k))
  (at level 61, o at next level, right associativity).

(** The offset from UTC in minutes, at the end of the string. *)
Definition read_offset (s : string) : option Z :=
  match s with
  | String "Z" EmptyString => Some 0
  | String sign r =>
      if Ascii.eqb sign "+" || Ascii.eqb sign "-" then
        hr <-? read_digits 2 0 r ;;
        r1 <-? expect ":" (snd hr) ;;
        mr <-? read_digits 2 0 r1 ;;
        match snd mr with
        | EmptyString =>
            if (fst hr <=? 23) && (fst mr <=? 59)
            then Some ((if Ascii.eqb sign "-" then -1 else 1) * (60 * fst hr + fst mr))
            else None
        | _ => None
        end
      else None
  | EmptyString => None
  end.

(** Seconds and milliseconds, when present, and what follows them. *)
Definition read_seconds (s : string) : option (Z * Z * string) :=
  match s with
  | String ":" r =>
      sr <-? read_digits 2 0 r ;;
      match snd sr with
      | String "." r' =>
          fr <-? read_fraction r' ;;
          Some (fst sr, fst fr, snd fr)
      | r' => Some (fst sr, 0, r')
      end
  | _ => Some (0, 0, s)
  end.

(** [Date.parse(s)]: the time value, or [None] for an invalid date. *)
Definition Date_parse (s : string) : option Z :=
  yr <-? read_digits 4 0 s ;;
  r1 <-? expect "-" (snd yr) ;;
  mr <-? read_digits 2 0 r1 ;;
  r2 <-? expect "-" (snd mr) ;;
  dr <-? read_digits 2 0 r2 ;;
  let '(y, m, d) := (fst yr, fst mr, fst dr) in
  if negb ((1 <=? m) && (m <=? 12) && (1 <=? d) && (d <=? days_in_month y m))
  then None
  else
    let day := days_from_civil y m d in
    match snd dr with
    | EmptyString => TimeClip (day * msPerDay)
    | String "T" r3 =>
        hr <-? read_digits 2 0 r3 ;;
        r4 <-? expect ":" (snd hr) ;;
        nr <-? read_digits 2 0 r4 ;;
        sr <-? read_seconds (snd nr) ;;
        let '(sec, ms, r5) := sr in
        off <-? read_offset r5 ;;
        if (fst hr <=? 23) && (fst nr <=? 59) && (sec <=? 59)
        then TimeClip (day * msPerDay
                       + fst hr * 3600000 + fst nr * 60000 + sec * 1000 + ms
                       - off * 60000)
        else None
    | _ => None
    end.

(** ** Printing: [toISOString] *)

Definition digit_char (d : Z) : ascii := ascii_of_N (Z.to_N (48 + d)).

Definition pad2 (n : Z) (k : string) : string :=
  String (digit_char (n / 10 mod 10)) (String (digit_char (n mod 10)) k).

Definition pad3 (n : Z) (k : string) : string :=
  String (digit_char (n / 100 mod 10)) (pad2 n k).

Definition pad4 (n : Z) (k : string) : string :=
  String (digit_char (n / 1000 mod 10)) (pad3 n k).

Definition pad6 (n : Z) (k : string) : string :=
  String (digit_char (n / 100000 mod 10))
    (String (digit_char (n / 10000 mod 10)) (pad4 n k)).

(** Four digits for the years 0 to 9999, a sign and six digits otherwise. *)
Definition year_string (y : Z) (k : string) : string :=
  if (0 <=? y) && (y <=? 9999) then pad4 y k
  else if y <? 0 then String "-" (pad6 (- y) k)
  else String "+" (pad6 y k).

(** [YYYY-MM-DD] *)
Definition date_string (ymd : Z * Z * Z) (k : string) : string :=
  let '(y, m, d) := ymd in
  year_string y (String "-" (pad2 m (String "-" (pad2 d k)))).

(** [YYYY-MM-DDTHH:mm:ss.sssZ] of a time value. *)
Definition format_iso (t : Z) : string :=
  let tod := t mod msPerDay in
  date_string (utc_date t)
    (String "T" (pad2 (tod / 3600000)
      (String ":" (pad2 (tod / 60000 mod 60)
        (String ":" (pad2 (tod / 1000 mod 60)
          (String "." (pad3 (tod mod 1000) "Z")))))))).

(** [d.toISOString()]. *)
Definition toISOString (d : option Z) : result string :=
  match d with
  | Some t => Ok (format_iso t)
  | None => Throw (RangeError "Invalid time value")
  end.

(** [s.split('T')[0]]: what comes before the first [T]. *)
Fixpoint split_T_0 (s : string) : string :=
  match s with
  | EmptyString => EmptyString
  | String c r => if Ascii.eqb c "T" then EmptyString else String c (split_T_0 r)
  end.

(** [new Date(s).toISOString().split('T')[0]] *)
Definition iso_day_of_string (s : string) : result string :=
  iso <- toISOString (Date_parse s) ;;
  Ok (split_T_0 iso).

(** [new Date().toISOString().split('T')[0]] when the clock reads [now]:
    the current time is a valid date. *)
Definition iso_day_of_now (now : Z) : string := split_T_0 (format_iso now).

End JsDate.

Import JsDate.


(* ================================================================== *)
(** * Data model *)
(* ================================================================== *)

Open Scope num_scope.

(** [r?.f] for an object [r] that may be [undefined] or [null]. *)
Definition opt_chain {R A : Type} (r : option R) (f : R -> option A) : option A :=
  match r with
  | Some x => f x
  | None => None
  end.

Notation "r ?. f" := (opt_chain r f) (at level 25, left associativity).

(** ToBoolean on a string that may be [undefined]. *)
Definition truthy_str (s : option string) : bool :=
  match s with
  | Some EmptyString | None => false
  | Some _ => true
  end.

(** The row of [user_goals], as the dashboard components declare it. *)
Record UserGoals : Type := {
  target_calories : option num;
  target_protein_ratio : option num;
  target_carbs_ratio : option num;
  target_fat_ratio : option num;
  target_weight_kg : option num
}.

(** The part of [user_profiles] the dashboard components read. *)
Record UserProfile : Type := {
  goal_type : option string;
  weight_kg : option num;
  target_weight : option num
}.

(** A row of [meal_logs] as the dashboard components read it.  The
    interface declares the numbers as present; the code guards each with
    [|| 0], so a missing one is allowed for here. *)
Module MealLog.
Record t : Type := {
  total_calories : option num;
  protein : option num;
  carbs : option num;
  fat : option num;
  created_at : string
}.
End MealLog.

(** [{ calories, protein, carbs, fat }] *)
Module Totals.
Record t : Type := {
  calories : num;
  protein : num;
  carbs : num;
  fat : num
}.
Definition zero : t := {| calories := 0; protein := 0; carbs := 0; fat := 0 |}.
End Totals.

(** ** Today's rows and their totals

    The three dashboard components repeat the same lines:
<<
  const today = new Date().toISOString().split('T')[0];
  const todayLogs = mealLogs.filter(log =>
    new Date(log.created_at).toISOString().split('T')[0] === today);
  const totals = todayLogs.reduce((acc, log) => ({ ... }), { calories: 0, ... });
>> *)

Definition today (now : Z) : string := iso_day_of_now now.

Definition is_today (now : Z) (log : MealLog.t) : result bool :=
  day <- iso_day_of_string (MealLog.created_at log) ;;
  Ok (String.eqb day (today now)).

Definition todayLogs (now : Z) (mealLogs : list MealLog.t) : result (list MealLog.t) :=
  filterM (is_today now) mealLogs.

Definition add_log (acc : Totals.t) (log : MealLog.t) : Totals.t :=
  {| Totals.calories := Totals.calories acc + or_default (MealLog.total_calories log) 0;
     Totals.protein := Totals.protein acc + or_default (MealLog.protein log) 0;
     Totals.carbs := Totals.carbs acc + or_default (MealLog.carbs log) 0;
     Totals.fat := Totals.fat acc + or_default (MealLog.fat log) 0 |}.

Definition sum_logs (logs : list MealLog.t) : Totals.t :=
  fold_left add_log logs Totals.zero.

Definition totals (now : Z) (mealLogs : list MealLog.t) : result Totals.t :=
  logs <- todayLogs now mealLogs ;;
  Ok (sum_logs logs).

(* ================================================================== *)
(** * DailyOverview.tsx *)
(* ================================================================== *)

Module DailyOverview.

Record DailyData : Type := {
  calories : option num;
  protein : option num;
  carbs : option num;
  fat : option num
}.

Section Component.

Variable goals : option UserGoals.

(** The gram target inside [getMacroProgress]:
<<
  const targetGrams = (targetRatio / 100) * totalCalories /
                      (targetRatio === goals?.target_fat_ratio ? 9 : 4);
>> *)
Definition kcal_divisor (targetRatio : num) : num :=
  match goals ?. target_fat_ratio with
  | Some fatRatio => if strict_eq targetRatio fatRatio then 9 else 4
  | None => 4
  end.

Definition targetGrams (targetRatio totalCalories : num) : num :=
  (targetRatio / 100) * totalCalories / kcal_divisor targetRatio.

Definition getMacroProgress (current : num) (targetRatio : option num)
    (totalCalories : num) : num :=
  match targetRatio with
  | Some r =>
      if negb (truthy r) || strict_eq totalCalories 0 then 0
      else (current / targetGrams r totalCalories) * 100
  | None => 0
  end.

Section WithData.

Variable data : DailyData.

Definition currentCalories : num := or_default (calories data) 0.
Definition targetCalories : num := or_default (goals ?. target_calories) 2000.
Definition caloriesProgress : num := (currentCalories / targetCalories) * 100.

Definition proteinProgress : num :=
  getMacroProgress (or_default (protein data) 0) (goals ?. target_protein_ratio) currentCalories.
Definition carbsProgress : num :=
  getMacroProgress (or_default (carbs data) 0) (goals ?. target_carbs_ratio) currentCalories.
Definition fatProgress : num :=
  getMacroProgress (or_default (fat data) 0) (goals ?. target_fat_ratio) currentCalories.

End WithData.

(** [const percentages = { ... }] over today's totals. *)
Definition pct_calories (t : Totals.t) : num :=
  match goals ?. target_calories with
  | Some target => if truthy target then (Totals.calories t / target) * 100 else 0
  | None => 0
  end.

(** [goals?.r ? (value / (goals.r * totals.calories / per100)) * 100 : 0] *)
Definition pct_macro (ratio : option num) (value : num) (per100 : num) (t : Totals.t) : num :=
  match ratio with
  | Some r => if truthy r then (value / (r * Totals.calories t / per100)) * 100 else 0
  | None => 0
  end.

Definition percentages (t : Totals.t) : Totals.t :=
  {| Totals.calories := pct_calories t;
     Totals.protein := pct_macro (goals ?. target_protein_ratio) (Totals.protein t) 400 t;
     Totals.carbs := pct_macro (goals ?. target_carbs_ratio) (Totals.carbs t) 400 t;
     Totals.fat := pct_macro (goals ?. target_fat_ratio) (Totals.fat t) 900 t |}.

(** The [target] of a macro metric:
    [goals?.r ? (goals.r * totals.calories / per100) : 0]. *)
Definition metric_target (ratio : option num) (per100 : num) (t : Totals.t) : num :=
  match ratio with
  | Some r => if truthy r then r * Totals.calories t / per100 else 0
  | None => 0
  end.

(** One entry of [metrics], as far as the numbers go. *)
Record Metric : Type := {
  label : string;
  value : num;
  target : option num;
  unit : string;
  percentage : num
}.

Definition metrics (t : Totals.t) : list Metric :=
  let p := percentages t in
  [ {| label := "Calories"; value := Totals.calories t;
       target := goals ?. target_calories; unit := "kcal";
       percentage := Totals.calories p |};
    {| label := "Protein"; value := Totals.protein t;
       target := Some (metric_target (goals ?. target_protein_ratio) 400 t); unit := "g";
       percentage := Totals.protein p |};
    {| label := "Carbs"; value := Totals.carbs t;
       target := Some (metric_target (goals ?. target_carbs_ratio) 400 t); unit := "g";
       percentage := Totals.carbs p |};
    {| label := "Fat"; value := Totals.fat t;
       target := Some (metric_target (goals ?. target_fat_ratio) 900 t); unit := "g";
       percentage := Totals.fat p |} ].

(** [{metric.percentage.toFixed(1)}% of daily goal] *)
Definition percentage_text (m : Metric) : string :=
  toFixed 1 (percentage m) ++ "% of daily goal".

(** The texts under the four metrics when the clock reads [now]. *)
Definition render_percentages (now : Z) (mealLogs : list MealLog.t) : result (list string) :=
  t <- totals now mealLogs ;;
  Ok (map percentage_text (metrics t)).

End Component.

End DailyOverview.

(* ================================================================== *)
(** * ProgressTracker.tsx *)
(* ================================================================== *)

Module ProgressTracker.

Section Component.

Variable profile : option UserProfile.
Variable goals : option UserGoals.
Variable mealLogs : list MealLog.t.

Definition currentWeight : num := or_default (profile ?. weight_kg) 0.

Definition targetWeight : num :=
  or_default (or_else (goals ?. target_weight_kg) (profile ?. target_weight)) 0.

Definition goalType : string :=
  if truthy_str (profile ?. goal_type)
  then match profile ?. goal_type with Some s => s | None => "maintain" end
  else "maintain".

(** [Math.min(Math.max(progress, 0), 100)] *)
Definition clamp (progress : num) : num := Math_min (Math_max progress 0) 100.

Definition calculateWeightProgress : num :=
  if negb (truthy currentWeight) || negb (truthy targetWeight) then 0
  else if String.eqb goalType "lose_weight" then
    let startWeight := Math_max currentWeight targetWeight in
    let progress := ((startWeight - currentWeight) / (startWeight - targetWeight)) * 100 in
    clamp progress
  else if String.eqb goalType "gain_weight" then
    let startWeight := Math_min currentWeight targetWeight in
    let progress := ((currentWeight - startWeight) / (targetWeight - startWeight)) * 100 in
    clamp progress
  else 0.

Definition sum_calories (logs : list MealLog.t) : num :=
  fold_left (fun sum log => sum + or_default (MealLog.total_calories log) 0) logs 0%num.

Definition calculateCalorieProgress (now : Z) : result num :=
  match mealLogs, goals ?. target_calories with
  | [], _ | _, None => Ok 0%num
  | _ :: _, Some target =>
      if negb (truthy target) then Ok 0%num
      else
        logs <- todayLogs now mealLogs ;;
        let totalCalories := sum_calories logs in
        let progress := (totalCalories / target) * 100 in
        Ok (clamp progress)
  end.

(** [{weightProgress.toFixed(1)}% towards your weight goal] *)
Definition weightProgress_text : string :=
  toFixed 1 calculateWeightProgress ++ "% towards your weight goal".

End Component.

End ProgressTracker.

(* ================================================================== *)
(** * RecommendationCard.tsx *)
(* ================================================================== *)

Module RecommendationCard.

Definition snack_message (calorieDiff : num) : string :=
  "You're " ++ toFixed 0 calorieDiff
  ++ " calories under your daily target. Consider adding a healthy snack.".

Definition adjust_message (calorieDiff : num) : string :=
  "You're " ++ toFixed 0 (Math_abs calorieDiff)
  ++ " calories over your daily target. Consider adjusting your next meal.".

Definition protein_message : string :=
  "Your protein intake is below target. Consider adding more protein-rich foods.".
Definition carbs_message : string :=
  "Your carb intake is below target. Consider adding more complex carbohydrates.".
Definition fat_message : string :=
  "Your fat intake is below target. Consider adding healthy fats to your meals.".

Definition weight_loss_message (weightDiff : num) : string :=
  "You're " ++ toFixed 1 weightDiff
  ++ " kg away from your weight loss goal. Keep up the good work!".

Definition weight_gain_message (weightDiff : num) : string :=
  "You're " ++ toFixed 1 (Math_abs weightDiff)
  ++ " kg away from your weight gain goal. Keep up the good work!".

Definition fallback_message : string :=
  "Keep tracking your meals to get personalized recommendations!".

Section Component.

Variable profile : option UserProfile.
Variable goals : option UserGoals.

(** [// Check calorie intake] *)
Definition calorie_rule (t : Totals.t) : list string :=
  match goals ?. target_calories with
  | Some target =>
      if truthy target then
        let calorieDiff := target - Totals.calories t in
        if gtb calorieDiff 500 then [snack_message calorieDiff]
        else if ltb calorieDiff (neg 500) then [adjust_message calorieDiff]
        else []
      else []
  | None => []
  end.

(** [// Check macro ratios] *)
Definition macro_rule (t : Totals.t) : list string :=
  match goals ?. target_protein_ratio, goals ?. target_carbs_ratio,
        goals ?. target_fat_ratio with
  | Some tp, Some tc, Some tf =>
      if truthy tp && truthy tc && truthy tf then
        let totalMacros := Totals.protein t + Totals.carbs t + Totals.fat t in
        let proteinRatio := (Totals.protein t / totalMacros) * 100 in
        let carbsRatio := (Totals.carbs t / totalMacros) * 100 in
        let fatRatio := (Totals.fat t / totalMacros) * 100 in
        (if ltb proteinRatio (tp * ofQ (8 # 10)) then [protein_message] else [])
        ++ (if ltb carbsRatio (tc * ofQ (8 # 10)) then [carbs_message] else [])
        ++ (if ltb fatRatio (tf * ofQ (8 # 10)) then [fat_message] else [])
      else []
  | _, _, _ => []
  end.

(** [// Check weight progress] *)
Definition weight_rule : list string :=
  match profile ?. goal_type, profile ?. weight_kg, profile ?. target_weight with
  | Some gt, Some w, Some tw =>
      if truthy_str (Some gt) && truthy w && truthy tw then
        let weightDiff := tw - w in
        if String.eqb gt "lose_weight" && gtb weightDiff 0
        then [weight_loss_message weightDiff]
        else if String.eqb gt "gain_weight" && ltb weightDiff 0
        then [weight_gain_message weightDiff]
        else []
      else []
  | _, _, _ => []
  end.

(** The array after the three blocks of [push] calls. *)
Definition pushed (t : Totals.t) : list string :=
  calorie_rule t ++ macro_rule t ++ weight_rule.

Definition getRecommendations (t : Totals.t) : list string :=
  let recommendations := pushed t in
  if (0 <? List.length recommendations)%nat then recommendations
  else [fallback_message].

(** [const recommendations = getRecommendations()] in the component, over
    the totals of today's rows. *)
Definition recommendations (now : Z) (mealLogs : list MealLog.t) : result (list string) :=
  t <- totals now mealLogs ;;
  Ok (getRecommendations t).

End Component.

End RecommendationCard.

(* ================================================================== *)
(** * validation.ts *)
(* ================================================================== *)

Module Validation.

(** [z.number().min(lo)]: a number, so not [NaN], and at least [lo]. *)
Definition number_min (lo : num) (v : num) : bool :=
  negb (is_NaN v) && geb v lo.

(** [z.number().min(lo).max(hi).optional()] *)
Definition optional_number_between (lo hi : num) (v : option num) : bool :=
  match v with
  | None => true
  | Some x => negb (is_NaN x) && geb x lo && leb x hi
  end.

(** [z.string().min(1)] *)
Definition string_min1 (s : string) : bool :=
  match s with EmptyString => false | _ => true end.

End Validation.

(* ================================================================== *)
(** * GoalSetting.tsx and its schema *)
(* ================================================================== *)

Module GoalSetting.

Record GoalSettingInputs : Type := {
  target_calories : option num;
  target_protein_ratio : option num;
  target_carbs_ratio : option num;
  target_fat_ratio : option num;
  target_weight_kg : option num;
  target_date : option string;
  weekly_workout_goal : option num;
  water_intake_goal : option num;
  sleep_goal : option num
}.

(** The object schema of [goalSettingSchema], before [refine]. *)
Definition goalSettingObject (data : GoalSettingInputs) : bool :=
  Validation.optional_number_between 500 5000 (target_calories data)
  && Validation.optional_number_between 0 100 (target_protein_ratio data)
  && Validation.optional_number_between 0 100 (target_carbs_ratio data)
  && Validation.optional_number_between 0 100 (target_fat_ratio data)
  && Validation.optional_number_between 20 300 (target_weight_kg data)
  && Validation.optional_number_between 0 7 (weekly_workout_goal data)
  && Validation.optional_number_between 0 10 (water_intake_goal data)
  && Validation.optional_number_between 4 12 (sleep_goal data).

(** The predicate given to [refine]; when it fails the issue
    ['Macronutrient ratios must sum to 100%'] is raised at path [root]. *)
Definition macro_sum_refinement (data : GoalSettingInputs) : bool :=
  match target_protein_ratio data, target_carbs_ratio data, target_fat_ratio data with
  | Some p, Some c, Some f =>
      if truthy p && truthy c && truthy f
      then strict_eq (p + c + f) 100
      else true
  | _, _, _ => true
  end.

(** Whether [goalSettingSchema] accepts [data]. *)
Definition goalSettingSchema (data : GoalSettingInputs) : bool :=
  goalSettingObject data && macro_sum_refinement data.

(** [watch] returns the current values of the form fields. *)
Definition macroSum (data : GoalSettingInputs) : num :=
  or_default (target_protein_ratio data) 0
  + or_default (target_carbs_ratio data) 0
  + or_default (target_fat_ratio data) 0.

Definition showMacroSumWarning (data : GoalSettingInputs) : bool :=
  gtb (macroSum data) 0 && strict_ne (macroSum data) 100.

(** [disabled={!isDirty || showMacroSumWarning}] on the submit button. *)
Definition submit_disabled (isDirty : bool) (data : GoalSettingInputs) : bool :=
  negb isDirty || showMacroSumWarning data.

(** What pressing [Save Goals] leads to: nothing when the button is
    disabled; otherwise [handleSubmit] runs the resolver of
    [goalSettingSchema] and calls [onSubmit] only with data the schema
    accepts. *)
Inductive SubmitOutcome : Type :=
| ButtonDisabled
| ValidationErrors
| OnSubmitCalled (data : GoalSettingInputs).

Definition press_save (isDirty : bool) (data : GoalSettingInputs) : SubmitOutcome :=
  if submit_disabled isDirty data then ButtonDisabled
  else if goalSettingSchema data then OnSubmitCalled data
  else ValidationErrors.

(** The form with only the three ratios filled in. *)
Definition ratios_only (p c f : option num) : GoalSettingInputs :=
  {| target_calories := None;
     target_protein_ratio := p;
     target_carbs_ratio := c;
     target_fat_ratio := f;
     target_weight_kg := None;
     target_date := None;
     weekly_workout_goal := None;
     water_intake_goal := None;
     sleep_goal := None |}.

End GoalSetting.

(* ================================================================== *)
(** * Meal logging: MealLogger.tsx, useMealLogging.ts, n8nWebhooks.ts *)
(* ================================================================== *)

(** An entry of [food_items]: per-serving values and a quantity. *)
Module FoodItem.
Record t : Type := {
  name : string;
  calories : num;
  protein : num;
  carbs : num;
  fat : num;
  quantity : num;
  unit : string;
  barcode : option string
}.
End FoodItem.

(** [MealLogFormInputs]: what the form hands to [onSubmit]. *)
Module MealForm.
Record t : Type := {
  meal_type : string;
  meal_date : string;
  meal_time : string;
  food_items : list FoodItem.t;
  notes : option string
}.
End MealForm.

(** [MealLogData] of n8nWebhooks.ts. *)
Module MealLogData.
Record t : Type := {
  user_id : string;
  meal_type : string;
  meal_date : string;
  meal_time : string;
  food_items : list FoodItem.t;
  notes : option string;
  created_at : string;
  total_calories : num;
  total_protein : num;
  total_carbs : num;
  total_fat : num;
  source : string
}.
End MealLogData.

(** The two tables [logMeal] writes.  The store assigns the id of a new
    [meal_logs] row; inserts are taken to succeed. *)
Module Store.

Record meal_logs_row : Type := {
  id : nat;
  user_id : string;
  meal_type : string;
  meal_date : string;
  meal_time : string;
  notes : option string;
  created_at : string;
  total_calories : num;
  total_protein : num;
  total_carbs : num;
  total_fat : num;
  source : string
}.

Record meal_food_items_row : Type := {
  meal_log_id : nat;
  name : string;
  calories : num;
  protein : num;
  carbs : num;
  fat : num;
  quantity : num;
  unit : string;
  barcode : option string
}.

Record t : Type := {
  meal_logs : list meal_logs_row;
  meal_food_items : list meal_food_items_row
}.

Definition empty : t := {| meal_logs := []; meal_food_items := [] |}.

Definition fresh_id (db : t) : nat := List.length (meal_logs db).

End Store.

Module MealSchemas.

Definition foodItemSchema (item : FoodItem.t) : bool :=
  Validation.string_min1 (FoodItem.name item)
  && Validation.number_min 0 (FoodItem.calories item)
  && Validation.number_min 0 (FoodItem.protein item)
  && Validation.number_min 0 (FoodItem.carbs item)
  && Validation.number_min 0 (FoodItem.fat item)
  && Validation.number_min (ofQ (1 # 10)) (FoodItem.quantity item)
  && Validation.string_min1 (FoodItem.unit item).

(** [z.array(foodItemSchema).min(1)] *)
Definition food_items_ok (items : list FoodItem.t) : bool :=
  forallb foodItemSchema items && (1 <=? List.length items)%nat.

Definition mealLogFormSchema (data : MealForm.t) : bool :=
  Validation.string_min1 (MealForm.meal_type data)
  && Validation.string_min1 (MealForm.meal_date data)
  && Validation.string_min1 (MealForm.meal_time data)
  && food_items_ok (MealForm.food_items data).

Definition mealLogSchema (data : MealLogData.t) : bool :=
  Validation.string_min1 (MealLogData.user_id data)
  && Validation.string_min1 (MealLogData.meal_type data)
  && Validation.string_min1 (MealLogData.meal_date data)
  && Validation.string_min1 (MealLogData.meal_time data)
  && food_items_ok (MealLogData.food_items data)
  && Validation.string_min1 (MealLogData.created_at data)
  && Validation.number_min 0 (MealLogData.total_calories data)
  && Validation.number_min 0 (MealLogData.total_protein data)
  && Validation.number_min 0 (MealLogData.total_carbs data)
  && Validation.number_min 0 (MealLogData.total_fat data)
  && Validation.string_min1 (MealLogData.source data).

End MealSchemas.

Module MealLogger.

(** [logMeal] of n8nWebhooks.ts: one row into [meal_logs], then one row
    per food item into [meal_food_items]. *)
Definition food_item_row (meal_log_id : nat) (item : FoodItem.t) : Store.meal_food_items_row :=
  {| Store.meal_log_id := meal_log_id;
     Store.name := FoodItem.name item;
     Store.calories := FoodItem.calories item;
     Store.protein := FoodItem.protein item;
     Store.carbs := FoodItem.carbs item;
     Store.fat := FoodItem.fat item;
     Store.quantity := FoodItem.quantity item;
     Store.unit := FoodItem.unit item;
     Store.barcode := FoodItem.barcode item |}.

Definition meal_log_row (id : nat) (mealData : MealLogData.t) : Store.meal_logs_row :=
  {| Store.id := id;
     Store.user_id := MealLogData.user_id mealData;
     Store.meal_type := MealLogData.meal_type mealData;
     Store.meal_date := MealLogData.meal_date mealData;
     Store.meal_time := MealLogData.meal_time mealData;
     Store.notes := MealLogData.notes mealData;
     Store.created_at := MealLogData.created_at mealData;
     Store.total_calories := MealLogData.total_calories mealData;
     Store.total_protein := MealLogData.total_protein mealData;
     Store.total_carbs := MealLogData.total_carbs mealData;
     Store.total_fat := MealLogData.total_fat mealData;
     Store.source := MealLogData.source mealData |}.

Definition logMeal (mealData : MealLogData.t) (db : Store.t) : result (Store.t * nat) :=
  let id := Store.fresh_id db in
  let db1 := {| Store.meal_logs := Store.meal_logs db ++ [meal_log_row id mealData];
                Store.meal_food_items := Store.meal_food_items db |} in
  if (0 <? List.length (MealLogData.food_items mealData))%nat then
    let foodItems := map (food_item_row id) (MealLogData.food_items mealData) in
    Ok ({| Store.meal_logs := Store.meal_logs db1;
           Store.meal_food_items := Store.meal_food_items db1 ++ foodItems |}, id)
  else Ok (db1, id).

(** [user?.id]: the id of the signed-in user, if any. *)
Definition signed_in (user : option string) : bool := truthy_str user.

Section Submission.

Variable user : option string.

(** [{ ...mealData, user_id: user.id, created_at: new Date().toISOString() }] *)
Definition completeMealData (uid : string) (now : Z) (mealData : MealLogData.t)
    : MealLogData.t :=
  {| MealLogData.user_id := uid;
     MealLogData.meal_type := MealLogData.meal_type mealData;
     MealLogData.meal_date := MealLogData.meal_date mealData;
     MealLogData.meal_time := MealLogData.meal_time mealData;
     MealLogData.food_items := MealLogData.food_items mealData;
     MealLogData.notes := MealLogData.notes mealData;
     MealLogData.created_at := format_iso now;
     MealLogData.total_calories := MealLogData.total_calories mealData;
     MealLogData.total_protein := MealLogData.total_protein mealData;
     MealLogData.total_carbs := MealLogData.total_carbs mealData;
     MealLogData.total_fat := MealLogData.total_fat mealData;
     MealLogData.source := MealLogData.source mealData |}.

(** [submitMealLog] of useMealLogging.ts; [now] is its reading of the
    clock. *)
Definition submitMealLog (now : Z) (mealData : MealLogData.t) (db : Store.t)
    : result (Store.t * nat) :=
  match user with
  | Some uid =>
      if negb (signed_in user)
      then Throw (Error "User must be logged in to log meals")
      else
        let complete := completeMealData uid now mealData in
        if negb (MealSchemas.mealLogSchema complete)
        then Throw (ZodError "mealLogSchema")
        else logMeal complete db
  | None => Throw (Error "User must be logged in to log meals")
  end.

(** The reducer of [totalNutrition] in [onSubmit]. *)
Definition add_item (acc : Totals.t) (item : FoodItem.t) : Totals.t :=
  {| Totals.calories := Totals.calories acc + FoodItem.calories item * FoodItem.quantity item;
     Totals.protein := Totals.protein acc + FoodItem.protein item * FoodItem.quantity item;
     Totals.carbs := Totals.carbs acc + FoodItem.carbs item * FoodItem.quantity item;
     Totals.fat := Totals.fat acc + FoodItem.fat item * FoodItem.quantity item |}.

Definition totalNutrition (items : list FoodItem.t) : Totals.t :=
  fold_left add_item items Totals.zero.

(** [food_items: data.food_items.map(item => ({ name: item.name, ... }))] *)
Definition copy_item (item : FoodItem.t) : FoodItem.t :=
  {| FoodItem.name := FoodItem.name item;
     FoodItem.calories := FoodItem.calories item;
     FoodItem.protein := FoodItem.protein item;
     FoodItem.carbs := FoodItem.carbs item;
     FoodItem.fat := FoodItem.fat item;
     FoodItem.quantity := FoodItem.quantity item;
     FoodItem.unit := FoodItem.unit item;
     FoodItem.barcode := FoodItem.barcode item |}.

(** [const mealData = { ... }] in [onSubmit]. *)
Definition mealData_of (uid : string) (now : Z) (data : MealForm.t) : MealLogData.t :=
  let total := totalNutrition (MealForm.food_items data) in
  {| MealLogData.user_id := uid;
     MealLogData.meal_type := MealForm.meal_type data;
     MealLogData.meal_date := MealForm.meal_date data;
     MealLogData.meal_time := MealForm.meal_time data;
     MealLogData.food_items := map copy_item (MealForm.food_items data);
     MealLogData.notes := MealForm.notes data;
     MealLogData.created_at := format_iso now;
     MealLogData.total_calories := Totals.calories total;
     MealLogData.total_protein := Totals.protein total;
     MealLogData.total_carbs := Totals.carbs total;
     MealLogData.total_fat := Totals.fat total;
     MealLogData.source := "manual" |}.

(** The body of the [try] block of [onSubmit]; [now1] and [now2] are the
    readings of the clock in [onSubmit] and in [submitMealLog].  The
    [catch] block reports a thrown error in a toast and leaves the store
    as it was. *)
Definition onSubmit_try (now1 now2 : Z) (data : MealForm.t) (db : Store.t)
    : result (Store.t * nat) :=
  match user with
  | None => Throw (Error "User must be logged in to log meals")
  | Some uid =>
      if negb (signed_in user)
      then Throw (Error "User must be logged in to log meals")
      else if (List.length (MealForm.food_items data) =? 0)%nat
      then Throw (Error "Please add at least one food item")
      else submitMealLog now2 (mealData_of uid now1 data) db
  end.

Definition onSubmit (now1 now2 : Z) (data : MealForm.t) (db : Store.t) : Store.t :=
  match onSubmit_try now1 now2 data db with
  | Ok (db', _) => db'
  | Throw _ => db
  end.

(** [handleSubmit(onSubmit)]: the resolver of [mealLogFormSchema] runs
    first, and [onSubmit] is called only with data it accepts. *)
Definition handleSubmit (now1 now2 : Z) (data : MealForm.t) (db : Store.t) : Store.t :=
  if MealSchemas.mealLogFormSchema data then onSubmit now1 now2 data db else db.

End Submission.

End MealLogger.

(* ================================================================== *)
(** * The specification's wording, for comparison *)
(* ================================================================== *)

Module Spec.

(** The total of a per-serving value over the items of a meal, in the words
    of the specification: the sum, item after item, of the value times the
    quantity. *)
Definition spec_total (per_serving : FoodItem.t -> num) (items : list FoodItem.t) : num :=
  fold_left (fun sum item => sum + per_serving item * FoodItem.quantity item) items 0.

(** The year-month-day portion of a timestamp as it is written, offset not
    applied: its first ten characters. *)
Definition written_date (created_at : string) : string := substring 0 10 created_at.

(** An item all of whose numbers are finite. *)
Definition finite_item (item : FoodItem.t) : bool :=
  is_finite (FoodItem.calories item) && is_finite (FoodItem.protein item)
  && is_finite (FoodItem.carbs item) && is_finite (FoodItem.fat item)
  && is_finite (FoodItem.quantity item).

(** A row whose calories, when present, are finite. *)
Definition finite_calories (log : MealLog.t) : bool :=
  match MealLog.total_calories log with
  | Some c => is_finite c
  | None => true
  end.

End Spec.

(* ================================================================== *)
(** * Inputs used in the examples *)
(* ================================================================== *)

Module Examples.

(** The goals the goal-setting form starts from: 2000 kcal, 30/40/30. *)
Definition default_goals : UserGoals :=
  {| target_calories := Some 2000;
     target_protein_ratio := Some 30;
     target_carbs_ratio := Some 40;
     target_fat_ratio := Some 30;
     target_weight_kg := None |}.

(** Goals with distinct ratios: 2000 kcal, 30/50/20. *)
Definition goals_30_50_20 : UserGoals :=
  {| target_calories := Some 2000;
     target_protein_ratio := Some 30;
     target_carbs_ratio := Some 50;
     target_fat_ratio := Some 20;
     target_weight_kg := None |}.

(** A day on which 2000 kcal and 150 g of protein were eaten. *)
Definition day_2000_150 : DailyOverview.DailyData :=
  {| DailyOverview.calories := Some 2000;
     DailyOverview.protein := Some 150;
     DailyOverview.carbs := Some 200;
     DailyOverview.fat := Some 60 |}.

Definition losing (current target : num) : UserProfile :=
  {| goal_type := Some "lose_weight";
     weight_kg := Some current;
     target_weight := Some target |}.

Definition item_A : FoodItem.t :=
  {| FoodItem.name := "oats"; FoodItem.calories := 150; FoodItem.protein := 5;
     FoodItem.carbs := 27; FoodItem.fat := 3; FoodItem.quantity := 2;
     FoodItem.unit := "cup"; FoodItem.barcode := None |}.

Definition item_B : FoodItem.t :=
  {| FoodItem.name := "egg"; FoodItem.calories := 78; FoodItem.protein := 6;
     FoodItem.carbs := 1; FoodItem.fat := 5; FoodItem.quantity := 1;
     FoodItem.unit := "piece"; FoodItem.barcode := Some "0123456789012" |}.

Definition meal_A_B : MealForm.t :=
  {| MealForm.meal_type := "breakfast"; MealForm.meal_date := "2024-05-01";
     MealForm.meal_time := "08:00"; MealForm.food_items := [item_A; item_B];
     MealForm.notes := None |}.

(** A row logged late on 1 May 2024 in a zone five hours behind UTC. *)
Definition late_row : MealLog.t :=
  {| MealLog.total_calories := Some 500; MealLog.protein := Some 30;
     MealLog.carbs := Some 50; MealLog.fat := Some 20;
     MealLog.created_at := "2024-05-01T23:30:00-05:00" |}.

(** Noon and one in the morning, UTC, around that row. *)
Definition noon_1_May_2024 : Z := 1714564800000.
Definition early_2_May_2024 : Z := 1714611600000.

Definition no_goals : UserGoals :=
  {| target_calories := None; target_protein_ratio := None;
     target_carbs_ratio := None; target_fat_ratio := None;
     target_weight_kg := None |}.

Definition no_profile : UserProfile :=
  {| goal_type := None; weight_kg := None; target_weight := None |}.

Definition totals_of (cal p c f : num) : Totals.t :=
  {| Totals.calories := cal; Totals.protein := p; Totals.carbs := c; Totals.fat := f |}.

End Examples.

(* ================================================================== *)
(** * Predicates used in the statements *)
(* ================================================================== *)

(** A number that is missing or finite. *)
Definition finite_or_missing (v : option num) : bool :=
  match v with Some x => is_finite x | None => true end.

(** The last two characters of a string. *)
Fixpoint last_two (s : string) : option (ascii * ascii) :=
  match s with
  | EmptyString => None
  | String c1 r =>
      match r with
      | EmptyString => None
      | String c2 EmptyString => Some (c1, c2)
      | String _ _ => last_two r
      end
  end.

(** The test of the macro block of [getRecommendations] on finite numbers:
    [(x / totalMacros) * 100 < target * 0.8]. *)
Definition below_target (share_of total target : Qc) : bool :=
  ltb ((Fin share_of / Fin total) * 100) (Fin target * ofQ (8 # 10)).

(* ================================================================== *)
(** * The food list of the meal form (MealLogger.tsx, QuickAdd.tsx) *)
(* ================================================================== *)

(** What the food search, the barcode scanner and the quick-add form hand
    to [handleAddFoodItem].  [serving_size] is [None] for an object without
    that property.  The [id] of a searched or scanned food is left out, as
    it is in [FoodItem.t]: nothing reads it. *)
Module Food.
Record t : Type := {
  name : string;
  calories_per_serving : num;
  protein_per_serving : num;
  carbs_per_serving : num;
  fat_per_serving : num;
  serving_size : option num;
  serving_unit : string;
  barcode : option string
}.
End Food.

Module FoodList.

(** [quickAddFoodSchema] of QuickAdd.tsx. *)
Definition quickAddFoodSchema (food : Food.t) : bool :=
  Validation.string_min1 (Food.name food)
  && Validation.number_min 0 (Food.calories_per_serving food)
  && Validation.number_min 0 (Food.protein_per_serving food)
  && Validation.number_min 0 (Food.carbs_per_serving food)
  && Validation.number_min 0 (Food.fat_per_serving food)
  && match Food.serving_size food with
     | Some s => Validation.number_min (ofQ (1 # 10)) s
     | None => false
     end
  && Validation.string_min1 (Food.serving_unit food).

(** [const foodWithQuantity: FoodItemData = { ... }] *)
Definition foodWithQuantity (food : Food.t) : FoodItem.t :=
  {| FoodItem.name := Food.name food;
     FoodItem.calories := Food.calories_per_serving food;
     FoodItem.protein := Food.protein_per_serving food;
     FoodItem.carbs := Food.carbs_per_serving food;
     FoodItem.fat := Food.fat_per_serving food;
     FoodItem.quantity :=
       match Food.serving_size food with Some s => s | None => 1 end;
     FoodItem.unit := Food.serving_unit food;
     FoodItem.barcode := Food.barcode food |}.

(** [Array.prototype.findIndex]; [None] stands for [-1]. *)
Fixpoint findIndex {A : Type} (p : A -> bool) (l : list A) : option nat :=
  match l with
  | [] => None
  | x :: r => if p x then Some 0%nat else option_map S (findIndex p r)
  end.

(** [item => item.name === food.name && item.unit === food.serving_unit] *)
Definition same_food (food : Food.t) (item : FoodItem.t) : bool :=
  String.eqb (FoodItem.name item) (Food.name food)
  && String.eqb (FoodItem.unit item) (Food.serving_unit food).

(** [getValues(`food_items.${index}.quantity`)] *)
Definition getValues_quantity (index : nat) (items : list FoodItem.t) : option num :=
  option_map FoodItem.quantity (nth_error items index).

Definition with_quantity (value : num) (item : FoodItem.t) : FoodItem.t :=
  {| FoodItem.name := FoodItem.name item;
     FoodItem.calories := FoodItem.calories item;
     FoodItem.protein := FoodItem.protein item;
     FoodItem.carbs := FoodItem.carbs item;
     FoodItem.fat := FoodItem.fat item;
     FoodItem.quantity := value;
     FoodItem.unit := FoodItem.unit item;
     FoodItem.barcode := FoodItem.barcode item |}.

(** [setValue(`food_items.${index}.quantity`, value)], for the index of an
    item of the list: the only indices the component passes are one that
    [findIndex] returned and that of a rendered row. *)
Fixpoint setValue_quantity (index : nat) (value : num) (items : list FoodItem.t)
    : list FoodItem.t :=
  match items, index with
  | [], _ => []
  | item :: rest, O => with_quantity value item :: rest
  | item :: rest, S i => item :: setValue_quantity i value rest
  end.

(** [handleAddFoodItem] on the [food_items] of the form. *)
Definition handleAddFoodItem (food : Food.t) (items : list FoodItem.t)
    : list FoodItem.t :=
  match findIndex (same_food food) items with
  | Some existingIndex =>
      let currentQuantity := or_default (getValues_quantity existingIndex items) 0 in
      setValue_quantity existingIndex
        (currentQuantity + FoodItem.quantity (foodWithQuantity food)) items
  | None => items ++ [foodWithQuantity food]
  end.

(** [remove(index)] of the field array, on the trash button of row
    [index]. *)
Fixpoint remove (index : nat) (items : list FoodItem.t) : list FoodItem.t :=
  match items, index with
  | [], _ => []
  | _ :: rest, O => rest
  | item :: rest, S i => item :: remove i rest
  end.

(** What the user can do to the food list: add a food through one of the
    three dialogs, type a quantity into a row, or remove a row. *)
Inductive edit : Type :=
| AddFood (food : Food.t)
| TypeQuantity (index : nat) (value : num)
| RemoveRow (index : nat).

Definition apply_edit (items : list FoodItem.t) (e : edit) : list FoodItem.t :=
  match e with
  | AddFood food => handleAddFoodItem food items
  | TypeQuantity index value => setValue_quantity index value items
  | RemoveRow index => remove index items
  end.

(** The list after a series of edits of the form, which starts with
    [food_items: []]. *)
Definition after_edits (edits : list edit) : list FoodItem.t :=
  fold_left apply_edit edits [].

(** What [findIndex] compares: the name and the unit of an item. *)
Definition key (item : FoodItem.t) : string * string :=
  (FoodItem.name item, FoodItem.unit item).

(** A second helping of the oats of [Examples.item_A], entered through the
    quick-add form with other values per serving. *)
Definition oats_again : Food.t :=
  {| Food.name := "oats"; Food.calories_per_serving := 200;
     Food.protein_per_serving := 7; Food.carbs_per_serving := 30;
     Food.fat_per_serving := 4; Food.serving_size := Some 1;
     Food.serving_unit := "cup"; Food.barcode := None |}.

End FoodList.

(** One press of [Log Meal]: who is signed in, the two readings of the
    clock and the data of the form. *)
Record submission : Type := {
  sub_user : option string;
  sub_now1 : Z;
  sub_now2 : Z;
  sub_data : MealForm.t
}.

Definition submit (db : Store.t) (s : submission) : Store.t :=
  MealLogger.handleSubmit (sub_user s) (sub_now1 s) (sub_now2 s) (sub_data s) db.

(** The store after a series of submissions, starting from empty tables. *)
Definition after_submissions (l : list submission) : Store.t :=
  fold_left submit l Store.empty.

(* ================================================================== *)
(** * OnboardingFlow.tsx and ProfileCompletionCheck.tsx *)
(* ================================================================== *)

(** [OnboardingFormInputs].  [preferred_meal_times], an optional object of
    optional strings that the schema does not constrain and [onSubmit]
    does not store, is left out. *)
Module OnboardingForm.
Record t : Type := {
  full_name : string;
  age : num;
  gender : string;
  profession : string;
  work_hours_start : option string;
  work_hours_end : option string;
  work_hours_days : list string;
  height_cm : num;
  weight_kg : num;
  activity_level : string;
  dietary_restrictions : list string;
  allergies : list string;
  custom_allergies : option string;
  medical_conditions : list string;
  fitness_level : string;
  preferred_workout_days : list string;
  goal_type : string;
  target_weight : option num;
  target_date : option string;
  weekly_workout_goal : option num;
  water_intake_goal : option num;
  sleep_goal : option num;
  meal_prep_preference : option string
}.
End OnboardingForm.

(** A row of [user_profiles]; [None] is [null]. *)
Module ProfileRow.
Record t : Type := {
  user_id : option string;
  full_name : option string;
  age : option num;
  gender : option string;
  profession : option string;
  work_hours : option num;
  height_cm : option num;
  weight_kg : option num;
  activity_level : option string;
  dietary_restrictions : option (list string);
  allergies : option (list string);
  custom_allergies : option string;
  medical_conditions : option (list string);
  fitness_level : option string;
  goal_type : option string;
  target_weight : option num;
  target_date : option string;
  weekly_workout_goal : option num;
  water_intake_goal : option num;
  sleep_goal : option num;
  meal_prep_preference : option string;
  updated_at : option string
}.
End ProfileRow.

Module Onboarding.

(** [z.string().min(lo).max(hi)] *)
Definition string_between (lo hi : nat) (s : string) : bool :=
  (lo <=? String.length s)%nat && (String.length s <=? hi)%nat.

(** [z.enum([...])] *)
Definition z_enum (values : list string) (s : string) : bool :=
  existsb (String.eqb s) values.

(** [z.number().min(lo).max(hi)] *)
Definition number_between (lo hi : num) (v : num) : bool :=
  negb (is_NaN v) && geb v lo && leb v hi.

(** [z.array(z.string()).min(lo).max(hi)] *)
Definition array_between (lo hi : nat) (l : list string) : bool :=
  (lo <=? List.length l)%nat && (List.length l <=? hi)%nat.

Definition optional {A : Type} (check : A -> bool) (v : option A) : bool :=
  match v with Some x => check x | None => true end.

Section Schema.

(** The test of [/^[a-zA-Z\s-']+$/] on a name. *)
Variable name_format : string -> bool.

(** The object schema of the inline [onboardingSchema], before [refine]. *)
Definition onboardingObject (data : OnboardingForm.t) : bool :=
  string_between 2 50 (OnboardingForm.full_name data)
  && name_format (OnboardingForm.full_name data)
  && number_between 10 120 (OnboardingForm.age data)
  && z_enum ["male"; "female"; "other"] (OnboardingForm.gender data)
  && string_between 2 100 (OnboardingForm.profession data)
  && (1 <=? List.length (OnboardingForm.work_hours_days data))%nat
  && number_between 50 250 (OnboardingForm.height_cm data)
  && number_between 20 300 (OnboardingForm.weight_kg data)
  && z_enum ["sedentary"; "lightly_active"; "moderately_active"; "very_active";
             "extra_active"] (OnboardingForm.activity_level data)
  && array_between 1 10 (OnboardingForm.dietary_restrictions data)
  && (List.length (OnboardingForm.allergies data) <=? 10)%nat
  && optional (fun s => (String.length s <=? 200)%nat)
       (OnboardingForm.custom_allergies data)
  && array_between 1 10 (OnboardingForm.medical_conditions data)
  && z_enum ["beginner"; "intermediate"; "advanced"] (OnboardingForm.fitness_level data)
  && array_between 1 7 (OnboardingForm.preferred_workout_days data)
  && z_enum ["lose_weight"; "maintain_weight"; "gain_weight"; "build_muscle"]
       (OnboardingForm.goal_type data)
  && Validation.optional_number_between 20 300 (OnboardingForm.target_weight data)
  && Validation.optional_number_between 0 7 (OnboardingForm.weekly_workout_goal data)
  && Validation.optional_number_between 0 10 (OnboardingForm.water_intake_goal data)
  && Validation.optional_number_between 4 12 (OnboardingForm.sleep_goal data)
  && optional (z_enum ["daily"; "weekly"; "none"])
       (OnboardingForm.meal_prep_preference data).

(** The predicate given to [refine]. *)
Definition target_weight_refinement (data : OnboardingForm.t) : bool :=
  match OnboardingForm.target_weight data with
  | Some target =>
      if String.eqb (OnboardingForm.goal_type data) "lose_weight" && truthy target
      then ltb target (OnboardingForm.weight_kg data)
      else true
  | None => true
  end.

Definition onboardingSchema (data : OnboardingForm.t) : bool :=
  onboardingObject data && target_weight_refinement data.

End Schema.

(** [s || d] on strings. *)
Definition str_or (s d : string) : string :=
  if truthy_str (Some s) then s else d.

(** [s || null] on an optional string. *)
Definition str_or_null (s : option string) : option string :=
  if truthy_str s then s else None.

(** [n || null] on an optional number. *)
Definition num_or_null (n : option num) : option num :=
  if truthy_opt n then n else None.

(** [profileData] of [onSubmit]; [averageWorkHours] is what
    [calculateAverageWorkHours(data.work_hours)] returned and [now] the
    reading of the clock. *)
Definition profileData (uid : string) (averageWorkHours : num) (now : Z)
    (data : OnboardingForm.t) : ProfileRow.t :=
  {| ProfileRow.user_id := Some uid;
     ProfileRow.full_name := Some (OnboardingForm.full_name data);
     ProfileRow.age := Some (OnboardingForm.age data);
     ProfileRow.gender := Some (OnboardingForm.gender data);
     ProfileRow.profession := Some (str_or (OnboardingForm.profession data) "");
     ProfileRow.work_hours := Some averageWorkHours;
     ProfileRow.height_cm := Some (OnboardingForm.height_cm data);
     ProfileRow.weight_kg := Some (OnboardingForm.weight_kg data);
     ProfileRow.activity_level := Some (OnboardingForm.activity_level data);
     ProfileRow.dietary_restrictions := Some (OnboardingForm.dietary_restrictions data);
     ProfileRow.allergies := Some (OnboardingForm.allergies data);
     ProfileRow.custom_allergies := str_or_null (OnboardingForm.custom_allergies data);
     ProfileRow.medical_conditions := Some (OnboardingForm.medical_conditions data);
     ProfileRow.fitness_level := Some (str_or (OnboardingForm.fitness_level data) "beginner");
     ProfileRow.goal_type := Some (str_or (OnboardingForm.goal_type data) "maintain_weight");
     ProfileRow.target_weight := num_or_null (OnboardingForm.target_weight data);
     ProfileRow.target_date := str_or_null (OnboardingForm.target_date data);
     ProfileRow.weekly_workout_goal :=
       Some (or_default (OnboardingForm.weekly_workout_goal data) 0);
     ProfileRow.water_intake_goal :=
       Some (or_default (OnboardingForm.water_intake_goal data) 0);
     ProfileRow.sleep_goal := Some (or_default (OnboardingForm.sleep_goal data) 8);
     ProfileRow.meal_prep_preference :=
       Some (match OnboardingForm.meal_prep_preference data with
             | Some s => str_or s "daily"
             | None => "daily"
             end);
     ProfileRow.updated_at := Some (format_iso now) |}.

(** The columns of the row that the dashboard components read. *)
Definition as_profile (row : ProfileRow.t) : UserProfile :=
  {| goal_type := ProfileRow.goal_type row;
     weight_kg := ProfileRow.weight_kg row;
     target_weight := ProfileRow.target_weight row |}.

(** The test of [/^[a-zA-Z\s-']+$/] on a string of ASCII characters:
    letters, white space, the hyphen and the apostrophe, at least one. *)
Definition name_character (c : ascii) : bool :=
  let n := N_of_ascii c in
  ((65 <=? n) && (n <=? 90))%N || ((97 <=? n) && (n <=? 122))%N
  || ((9 <=? n) && (n <=? 13))%N || (n =? 32)%N || (n =? 45)%N || (n =? 39)%N.

Definition name_format_ascii (s : string) : bool :=
  negb (String.eqb s "") && forallb name_character (list_ascii_of_string s).

(** Someone who signs up to lose weight, from [weight] to [target] kg. *)
Definition onboarding_to_lose (weight target : num) : OnboardingForm.t :=
  {| OnboardingForm.full_name := "Ada Lovelace";
     OnboardingForm.age := 30;
     OnboardingForm.gender := "female";
     OnboardingForm.profession := "engineer";
     OnboardingForm.work_hours_start := Some "09:00";
     OnboardingForm.work_hours_end := Some "17:00";
     OnboardingForm.work_hours_days := ["monday"; "tuesday"];
     OnboardingForm.height_cm := 170;
     OnboardingForm.weight_kg := weight;
     OnboardingForm.activity_level := "sedentary";
     OnboardingForm.dietary_restrictions := ["vegetarian"];
     OnboardingForm.allergies := [];
     OnboardingForm.custom_allergies := None;
     OnboardingForm.medical_conditions := ["none"];
     OnboardingForm.fitness_level := "beginner";
     OnboardingForm.preferred_workout_days := ["monday"];
     OnboardingForm.goal_type := "lose_weight";
     OnboardingForm.target_weight := Some target;
     OnboardingForm.target_date := None;
     OnboardingForm.weekly_workout_goal := None;
     OnboardingForm.water_intake_goal := None;
     OnboardingForm.sleep_goal := None;
     OnboardingForm.meal_prep_preference := None |}.

End Onboarding.

Module ProfileCompletionCheck.

(** [if (!data.f) missing.push(label)]; an array is truthy, [null] is
    not. *)
Definition unless (present : bool) (label : string) : list string :=
  if present then [] else [label].

Definition truthy_array {A : Type} (v : option (list A)) : bool :=
  match v with Some _ => true | None => false end.

(** The array [missing] of [checkProfileCompletion]. *)
Definition missing (data : ProfileRow.t) : list string :=
  unless (truthy_str (ProfileRow.full_name data)) "Full Name"
  ++ unless (truthy_opt (ProfileRow.age data)) "Age"
  ++ unless (truthy_str (ProfileRow.gender data)) "Gender"
  ++ unless (truthy_str (ProfileRow.profession data)) "Profession"
  ++ unless (truthy_opt (ProfileRow.work_hours data)) "Work Hours"
  ++ unless (truthy_opt (ProfileRow.height_cm data)) "Height"
  ++ unless (truthy_opt (ProfileRow.weight_kg data)) "Weight"
  ++ unless (truthy_str (ProfileRow.activity_level data)) "Activity Level"
  ++ unless (truthy_array (ProfileRow.dietary_restrictions data)) "Dietary Restrictions"
  ++ unless (truthy_array (ProfileRow.allergies data)) "Allergies"
  ++ unless (truthy_array (ProfileRow.medical_conditions data)) "Medical Conditions"
  ++ unless (truthy_str (ProfileRow.fitness_level data)) "Fitness Level"
  ++ unless (truthy_str (ProfileRow.goal_type data)) "Goals"
  ++ unless (truthy_opt (ProfileRow.sleep_goal data)) "Sleep Hours".

End ProfileCompletionCheck.

(* ================================================================== *)
(** * Dashboard.tsx *)
(* ================================================================== *)

Module Dashboard.

(** [nutritionData] and [goals] have the shape [{ calories, protein,
    carbs, fat }] of [Totals.t]. *)

(** [mappedGoals] of [fetchUserData], from the calorie target of the
    [user_goals] row and its three ratios as [parseFloat] returned
    them. *)
Definition mappedGoals (target_calories protein_ratio carbs_ratio fat_ratio : num)
    : Totals.t :=
  {| Totals.calories := target_calories;
     Totals.protein := (protein_ratio / 100) * target_calories / 4;
     Totals.carbs := (carbs_ratio / 100) * target_calories / 4;
     Totals.fat := (fat_ratio / 100) * target_calories / 9 |}.

(** The rows [fetchUserData] selects from [meal_logs]:
    [.eq('user_id', user.id).eq('meal_date', today)] with
    [today = new Date().toISOString().split('T')[0]]. *)
Definition meals_of_today (uid : string) (now : Z) (db : Store.t)
    : list Store.meal_logs_row :=
  filter (fun meal => String.eqb (Store.user_id meal) uid
                      && String.eqb (Store.meal_date meal) (iso_day_of_now now))
    (Store.meal_logs db).

(** The reducer of [nutrition]. *)
Definition add_meal (acc : Totals.t) (meal : Store.meal_logs_row) : Totals.t :=
  {| Totals.calories := Totals.calories acc + or_default (Some (Store.total_calories meal)) 0;
     Totals.protein := Totals.protein acc + or_default (Some (Store.total_protein meal)) 0;
     Totals.carbs := Totals.carbs acc + or_default (Some (Store.total_carbs meal)) 0;
     Totals.fat := Totals.fat acc + or_default (Some (Store.total_fat meal)) 0 |}.

Definition nutrition (meals : list Store.meal_logs_row) : Totals.t :=
  fold_left add_meal meals Totals.zero.

(** What [fetchUserData] passes to [setNutritionData]. *)
Definition fetched_nutrition (uid : string) (now : Z) (db : Store.t) : Totals.t :=
  nutrition (meals_of_today uid now db).

Definition below_message : string :=
  "You're below your calorie goal. Consider adding a healthy snack.".

Definition above_message : string :=
  "You're above your calorie goal. Consider lighter options for your next meal.".

Definition weight_message : string :=
  "Your weight has increased. Consider reviewing your calorie intake.".

(** [generateRecommendations]: the array given to [setRecommendations].
    [weightHistory] is the list of the [weight] of its rows, latest
    first. *)
Definition generateRecommendations (nutritionData goals : Totals.t)
    (weightHistory : list num) : list string :=
  let caloriePercentage :=
    (Totals.calories nutritionData / Totals.calories goals) * 100 in
  ((if ltb caloriePercentage 80 then [below_message]
    else if gtb caloriePercentage 120 then [above_message]
    else [])
   ++ match weightHistory with
      | latestWeight :: previousWeight :: _ =>
          if truthy previousWeight && gtb latestWeight previousWeight
          then [weight_message] else []
      | _ => []
      end)%list.

End Dashboard.

(** The sum of two records of totals, field by field. *)
Definition add_totals (a b : Totals.t) : Totals.t :=
  {| Totals.calories := Totals.calories a + Totals.calories b;
     Totals.protein := Totals.protein a + Totals.protein b;
     Totals.carbs := Totals.carbs a + Totals.carbs b;
     Totals.fat := Totals.fat a + Totals.fat b |}.

(** The goal form filled in with 2000 kcal and the ratios 30/40/30. *)
Definition form_2000_30_40_30 : GoalSetting.GoalSettingInputs :=
  {| GoalSetting.target_calories := Some 2000;
     GoalSetting.target_protein_ratio := Some 30;
     GoalSetting.target_carbs_ratio := Some 40;
     GoalSetting.target_fat_ratio := Some 30;
     GoalSetting.target_weight_kg := None;
     GoalSetting.target_date := None;
     GoalSetting.weekly_workout_goal := None;
     GoalSetting.water_intake_goal := None;
     GoalSetting.sleep_goal := None |}.

(* ================================================================== *)
(** * FoodSearch.tsx *)
(* ================================================================== *)

(** [PreviousFoodItem], without the identifiers and the fields of the
    joined meal ([id], [meal_log_id], [meal_type], [meal_date],
    [created_at]), which no calculation reads. *)
Module PreviousFoodItem.
Record t : Type := {
  name : string;
  calories : num;
  protein : num;
  carbs : num;
  fat : num;
  quantity : num;
  unit : string
}.
End PreviousFoodItem.

Module FoodSearch.

(** The element of [transformedData] made from a row of
    [meal_food_items]. *)
Definition previous_of_row (item : Store.meal_food_items_row) : PreviousFoodItem.t :=
  {| PreviousFoodItem.name := Store.name item;
     PreviousFoodItem.calories := Store.calories item;
     PreviousFoodItem.protein := Store.protein item;
     PreviousFoodItem.carbs := Store.carbs item;
     PreviousFoodItem.fat := Store.fat item;
     PreviousFoodItem.quantity := Store.quantity item;
     PreviousFoodItem.unit := Store.unit item |}.

Section Unique.

(** [String.prototype.toLowerCase]. *)
Variable toLowerCase : string -> string.

(** [item => item.name.toLowerCase() === current.name.toLowerCase()] *)
Definition same_name (current item : PreviousFoodItem.t) : bool :=
  String.eqb (toLowerCase (PreviousFoodItem.name item))
    (toLowerCase (PreviousFoodItem.name current)).

(** The reducer of [uniqueFoodItems]: [acc.find] returns an item, which is
    truthy, or [undefined]. *)
Definition keep_first (acc : list PreviousFoodItem.t) (current : PreviousFoodItem.t)
    : list PreviousFoodItem.t :=
  if existsb (same_name current) acc then acc else acc ++ [current].

Definition uniqueFoodItems (transformedData : list PreviousFoodItem.t)
    : list PreviousFoodItem.t :=
  fold_left keep_first transformedData [].

(** What [uniqueFoodItems] compares: the name in lower case. *)
Definition lower_name (item : PreviousFoodItem.t) : string :=
  toLowerCase (PreviousFoodItem.name item).

End Unique.

(** [adjustedFoodItem] of [handleConfirmFoodItem]. *)
Definition adjustedFoodItem (selectedFoodItem : PreviousFoodItem.t) (servingSize : num)
    : Food.t :=
  {| Food.name := PreviousFoodItem.name selectedFoodItem;
     Food.calories_per_serving := PreviousFoodItem.calories selectedFoodItem * servingSize;
     Food.protein_per_serving := PreviousFoodItem.protein selectedFoodItem * servingSize;
     Food.carbs_per_serving := PreviousFoodItem.carbs selectedFoodItem * servingSize;
     Food.fat_per_serving := PreviousFoodItem.fat selectedFoodItem * servingSize;
     Food.serving_size := Some (PreviousFoodItem.quantity selectedFoodItem * servingSize);
     Food.serving_unit := PreviousFoodItem.unit selectedFoodItem;
     Food.barcode := None |}.

(** The element of [transformedResults] that [handleSearch] makes from a
    row of [meal_food_items]. *)
Definition transformed_result (item : Store.meal_food_items_row) : Food.t :=
  {| Food.name := Store.name item;
     Food.calories_per_serving := Store.calories item;
     Food.protein_per_serving := Store.protein item;
     Food.carbs_per_serving := Store.carbs item;
     Food.fat_per_serving := Store.fat item;
     Food.serving_size := Some (Store.quantity item);
     Food.serving_unit := Store.unit item;
     Food.barcode := Store.barcode item |}.

(** The oats of [Examples.item_A] as a previous food item. *)
Definition previous_oats : PreviousFoodItem.t :=
  previous_of_row (MealLogger.food_item_row 0 Examples.item_A).

End FoodSearch.

(** [fetchMealLogs] of useMealLogging.ts, when the clock reads [now]:
    the rows of the user with [.gte('created_at', new
    Date().toISOString())], the store comparing instants.  A row whose
    timestamp denotes no instant is not selected; the rows come in the
    order of the store, the [.order] of the query being left out. *)
Definition fetchMealLogs (user : option string) (now : Z) (db : Store.t)
    : option (list Store.meal_logs_row) :=
  match user with
  | Some uid =>
      if negb (MealLogger.signed_in user) then None
      else
        Some (filter
                (fun row =>
                   String.eqb (Store.user_id row) uid
                   && match Date_parse (Store.created_at row) with
                      | Some t => (now <=? t)%Z
                      | None => false
                      end)
                (Store.meal_logs db))
  | None => None
  end.

(* ================================================================== *)
(** * The profile schema of validation.ts *)
(* ================================================================== *)

Module UserProfileForm.

Record t : Type := {
  fullName : string;
  age : num;
  gender : string;
  heightCm : num;
  weightKg : num;
  activityLevel : string
}.

Definition profanityList : list string := ["fuck"; "bitch"; "asshole"].

(** [text.includes(word)] *)
Definition includes (word text : string) : bool :=
  match String.index 0 word text with Some _ => true | None => false end.

(** [Math.pow(x, 2)] *)
Definition Math_pow_2 (x : num) : num := x * x.

Section Schema.

(** The test of [/^[a-zA-Z\s-']+$/] and [String.prototype.toLowerCase]. *)
Variable name_format : string -> bool.
Variable toLowerCase : string -> string.

Definition containsProfanity (text : string) : bool :=
  let normalizedText := toLowerCase text in
  existsb (fun word => includes word normalizedText) profanityList.

(** The object schema of [userProfileSchema], before [refine]. *)
Definition userProfileObject (data : t) : bool :=
  Onboarding.string_between 2 50 (fullName data)
  && name_format (fullName data)
  && negb (containsProfanity (fullName data))
  && Onboarding.number_between 10 120 (age data)
  && Onboarding.z_enum ["male"; "female"; "other"] (gender data)
  && Onboarding.number_between 50 250 (heightCm data)
  && Onboarding.number_between 20 300 (weightKg data)
  && Onboarding.z_enum ["sedentary"; "lightly_active"; "moderately_active";
                        "very_active"; "extra_active"] (activityLevel data).

(** The predicate given to [refine]. *)
Definition bmi_refinement (data : t) : bool :=
  let bmi := weightKg data / Math_pow_2 (heightCm data / 100) in
  geb bmi 10 && leb bmi 50.

Definition userProfileSchema (data : t) : bool :=
  userProfileObject data && bmi_refinement data.

End Schema.

(** A profile of 170 cm and 70 kg. *)
Definition profile_170_70 : t :=
  {| fullName := "Ada Lovelace"; age := 30; gender := "female";
     heightCm := 170; weightKg := 70; activityLevel := "sedentary" |}.

(** Lower case on strings of ASCII characters. *)
Definition ascii_lower (c : ascii) : ascii :=
  let n := N_of_ascii c in
  if ((65 <=? n) && (n <=? 90))%N then ascii_of_N (n + 32) else c.

Fixpoint toLowerCase_ascii (s : string) : string :=
  match s with
  | EmptyString => EmptyString
  | String c r => String (ascii_lower c) (toLowerCase_ascii r)
  end.

End UserProfileForm.

(* ================================================================== *)
(** * The API route that starts a new chat session (save-chat-data) *)
(* ================================================================== *)

Module SaveChat.

(** A row of [chat_interactions].  Of [metadata] the two keys the handler
    sets are kept; [archived] is [None] for a row written without that
    column. *)
Record chat_row : Type := {
  user_id : string;
  message : string;
  is_bot : bool;
  created_at : string;
  session_id : option string;
  is_new_session : bool;
  archived : option bool
}.

(** [userMessage] and [botResponse] of the request body; the keys of
    their [metadata] are passed on unchanged and left out. *)
Record chat_message : Type := {
  msg_message : option string;
  msg_created_at : option string
}.

Record body : Type := {
  userId : option string;
  userMessage : option chat_message;
  botResponse : option chat_message
}.

(** [.update({ archived: true }).eq('user_id', userId).eq('archived',
    false)] *)
Definition is_open (uid : string) (row : chat_row) : bool :=
  String.eqb (user_id row) uid
  && match archived row with Some false => true | _ => false end.

Definition archive (row : chat_row) : chat_row :=
  {| user_id := user_id row; message := message row; is_bot := is_bot row;
     created_at := created_at row; session_id := session_id row;
     is_new_session := is_new_session row; archived := Some true |}.

Definition archive_open (uid : string) (table : list chat_row) : list chat_row :=
  map (fun row => if is_open uid row then archive row else row) table.

(** [s || d] on an optional string. *)
Definition opt_str_or (s : option string) (d : string) : string :=
  match s with
  | Some x => if truthy_str s then x else d
  | None => d
  end.

(** [userMessageData] and [botMessageData]; [now1], [now2] and [now3] are
    the readings of the clock for the two timestamps and, between them,
    for the session id. *)
Definition messageData (uid : string) (bot : bool) (m : chat_message)
    (now : Z) (session : string) : chat_row :=
  {| user_id := uid;
     message := opt_str_or (msg_message m) "";
     is_bot := bot;
     created_at := opt_str_or (msg_created_at m) (format_iso now);
     session_id := Some session;
     is_new_session := true;
     archived := Some false |}.

(** The handler: the status of the response and the table afterwards,
    the two statements on the table succeeding. *)
Definition handler (method : string) (b : body) (now1 now2 now3 : Z)
    (table : list chat_row) : nat * list chat_row :=
  if negb (String.eqb method "POST") then (405%nat, table)
  else
    match userId b, userMessage b, botResponse b with
    | Some uid, Some um, Some br =>
        if negb (truthy_str (Some uid)) then (400%nat, table)
        else
          let session := digits_of_Z now2 in
          let userMessageData := messageData uid false um now1 session in
          let botMessageData := messageData uid true br now3 session in
          (200%nat, (archive_open uid table ++ [userMessageData; botMessageData])%list)
    | _, _, _ => (400%nat, table)
    end.

(** The rows of a user that are not archived. *)
Definition open_rows (uid : string) (table : list chat_row) : list chat_row :=
  filter (is_open uid) table.

(** A request with the readings of the clock during its handling. *)
Record request : Type := {
  req_method : string;
  req_body : body;
  req_now1 : Z;
  req_now2 : Z;
  req_now3 : Z
}.

Definition handle (table : list chat_row) (r : request) : list chat_row :=
  snd (handler (req_method r) (req_body r) (req_now1 r) (req_now2 r) (req_now3 r) table).

(** The table after a series of requests, starting empty. *)
Definition after_requests (l : list request) : list chat_row :=
  fold_left handle l [].

(** A request that starts a session for [uid]. *)
Definition hello_request (uid : string) (now : Z) : request :=
  {| req_method := "POST";
     req_body :=
       {| userId := Some uid;
          userMessage := Some {| msg_message := Some "hello"; msg_created_at := None |};
          botResponse := Some {| msg_message := Some "hi"; msg_created_at := None |} |};
     req_now1 := now; req_now2 := now; req_now3 := now |}.

End SaveChat.

(* ================================================================== *)
(** * Facts about the number model *)
(* ================================================================== *)

Section NumFacts.

Lemma Qceqb_true_iff (x y : Qc) : Qceqb x y = true <-> x = y.
Proof.
  unfold Qceqb. rewrite Qceq_alt.
  destruct (x ?= y)%Qc; split; intro H; congruence.
Qed.

Lemma Qcltb_true_iff (x y : Qc) : Qcltb x y = true <-> (x < y)%Qc.
Proof.
  unfold Qcltb. rewrite Qclt_alt.
  destruct (x ?= y)%Qc; split; intro H; congruence.
Qed.

Lemma Qcleb_true_iff (x y : Qc) : Qcleb x y = true <-> (x <= y)%Qc.
Proof.
  unfold Qcleb. rewrite Qcle_alt.
  destruct (x ?= y)%Qc; split; intro H; congruence.
Qed.

Lemma this_plus (x y : Qc) : (this (x + y)%Qc == this x + this y)%Q.
Proof. apply Qred_correct. Qed.

Lemma this_opp (x : Qc) : (this (- x)%Qc == - this x)%Q.
Proof. apply Qred_correct. Qed.

Lemma this_mult (x y : Qc) : (this (x * y)%Qc == this x * this y)%Q.
Proof. apply Qred_correct. Qed.

Lemma this_Q2Qc (q : Q) : (this (Q2Qc q) == q)%Q.
Proof. apply Qred_correct. Qed.

Lemma Qceqb_refl (x : Qc) : Qceqb x x = true.
Proof. now apply Qceqb_true_iff. Qed.

Lemma num_eqb_eq (a b : num) : num_eqb a b = true -> a = b.
Proof.
  destruct a, b; simpl; try discriminate; try reflexivity.
  intro H. apply Qceqb_true_iff in H. now subst.
Qed.

Lemma num_eqb_neq (a b : num) : num_eqb a b = false -> a <> b.
Proof.
  intros H E. subst b. destruct a; simpl in H; try discriminate.
  now rewrite Qceqb_refl in H.
Qed.

Lemma add_0_l (a : num) : 0 + a = a.
Proof.
  destruct a; simpl; try reflexivity.
  f_equal. apply Qcplus_0_l.
Qed.

Lemma truthy_Fin (q : Qc) : truthy (Fin q) = true <-> q <> 0%Qc.
Proof.
  simpl. rewrite negb_true_iff. split.
  - intros H E. subst q. now rewrite Qceqb_refl in H.
  - intro H. destruct (Qceqb q 0) eqn:E; [|reflexivity].
    apply Qceqb_true_iff in E. contradiction.
Qed.

Lemma Qcsgn_Eq_iff (q : Qc) : Qcsgn q = Eq <-> q = 0%Qc.
Proof. unfold Qcsgn. symmetry. apply Qceq_alt. Qed.

(** Division of finite numbers by a non-zero one is the division of
    rationals. *)
Lemma div_Fin (x y : Qc) : y <> 0%Qc -> Fin x / Fin y = Fin (x / y).
Proof.
  intro H. simpl. destruct (Qcsgn y) eqn:E; try reflexivity.
  apply Qcsgn_Eq_iff in E. contradiction.
Qed.

(** The clamp of a number other than [NaN] lies between 0 and 100. *)
Lemma ltb_leb_flip (a b : num) : is_NaN a = false -> is_NaN b = false ->
  ltb a b = false -> leb b a = true.
Proof.
  destruct a, b; simpl; try discriminate; try reflexivity.
  intros _ _ H. apply Qcleb_true_iff. apply Qcnot_lt_le.
  intro L. apply Qcltb_true_iff in L. congruence.
Qed.

Lemma ltb_leb (a b : num) : ltb a b = true -> leb a b = true.
Proof.
  destruct a, b; simpl; try discriminate; try reflexivity.
  intro H. apply Qcleb_true_iff, Qclt_le_weak. now apply Qcltb_true_iff.
Qed.

Lemma leb_refl (a : num) : is_NaN a = false -> leb a a = true.
Proof.
  destruct a; simpl; try discriminate; try reflexivity.
  intros _. apply Qcleb_true_iff, Qcle_refl.
Qed.

End NumFacts.

(** Settles an equation between two closed numbers by evaluation. *)
Ltac num_eval := apply num_eqb_eq; vm_compute; reflexivity.
Ltac num_differ := apply num_eqb_neq; vm_compute; reflexivity.

(** A closed rational constant is not zero. *)
Ltac Qc_nonzero :=
  let H := fresh in
  intro H; apply (f_equal this) in H; vm_compute in H; discriminate H.

Lemma clamp_bounds (p : num) :
  is_NaN p = false ->
  leb 0 (ProgressTracker.clamp p) = true /\ leb (ProgressTracker.clamp p) 100 = true.
Proof.
  intro Hp. unfold ProgressTracker.clamp.
  assert (H0 : leb 0 100 = true) by (vm_compute; reflexivity).
  assert (Hm : is_NaN (Math_max p 0) = false /\ leb 0 (Math_max p 0) = true).
  { destruct p; try discriminate.
    - change (Math_max (Fin q) 0) with (if ltb (Fin q) 0 then 0 else Fin q).
      destruct (ltb (Fin q) 0) eqn:E.
      + split; [reflexivity | vm_compute; reflexivity].
      + split; [reflexivity|]. apply ltb_leb_flip; auto.
    - split; reflexivity.
    - split; [reflexivity | vm_compute; reflexivity]. }
  destruct Hm as [Hn Hl].
  unfold Math_min.
  destruct (Math_max p 0) eqn:Em; try discriminate.
  - change (match Fin q with NaN => NaN | _ => if ltb 100 (Fin q) then 100 else Fin q end)
      with (if ltb 100 (Fin q) then 100 else Fin q).
    destruct (ltb 100 (Fin q)) eqn:E.
    + split; [exact H0 | vm_compute; reflexivity].
    + split; [exact Hl|]. apply ltb_leb_flip; auto.
  - split; [exact H0 | vm_compute; reflexivity].
Qed.

(* ================================================================== *)
(** * The built-ins on concrete inputs *)
(* ================================================================== *)

Example toFixed_values :
  toFixed 0 1500 = "1500"
  /\ toFixed 0 (ofQ (5 # 2)) = "3"
  /\ toFixed 1 0 = "0.0"
  /\ toFixed 1 (ofQ (225 # 1)) = "225.0"
  /\ toFixed 1 (ofQ (- 7 # 2)) = "-3.5"
  /\ toFixed 2 (ofQ (1234567 # 1000)) = "1234.57"
  /\ toFixed 1 NaN = "NaN"
  /\ toFixed 1 PInf = "Infinity".
Proof. repeat split; reflexivity. Qed.

Example division_by_zero :
  0 / 0 = NaN /\ 10 / 0 = PInf /\ neg 10 / 0 = NInf /\ 0 / 10 = 0.
Proof. repeat split; try reflexivity. num_eval. Qed.

Example Math_max_min_NaN :
  Math_max NaN 0 = NaN /\ Math_min NaN 100 = NaN
  /\ Math_max 80 70 = 80 /\ Math_min (Math_max 150 0) 100 = 100.
Proof. repeat split; reflexivity. Qed.

Example Date_parse_values :
  Date_parse "1970-01-01T00:00:00Z" = Some 0%Z
  /\ Date_parse "2024-05-01T12:00:00.000Z" = Some 1714564800000%Z
  /\ Date_parse "2024-05-01T23:30:00-05:00" = Some 1714624200000%Z
  /\ Date_parse "2024-05-01T23:30:00.123456+00:00" = Some 1714606200123%Z
  /\ Date_parse "2024-05-01" = Some 1714521600000%Z
  /\ Date_parse "2024-02-30T00:00:00Z" = None
  /\ Date_parse "yesterday" = None.
Proof. repeat split; reflexivity. Qed.

Example format_iso_values :
  format_iso 0 = "1970-01-01T00:00:00.000Z"
  /\ format_iso 1714624200000 = "2024-05-02T04:30:00.000Z"
  /\ format_iso (-1) = "1969-12-31T23:59:59.999Z"
  /\ format_iso 253402300800000 = "+010000-01-01T00:00:00.000Z"
  /\ iso_day_of_string "2024-05-01T23:30:00-05:00" = Ok "2024-05-02"
  /\ iso_day_of_string "yesterday" = Throw (RangeError "Invalid time value").
Proof. repeat split; reflexivity. Qed.

(* ================================================================== *)
(** * Goal progress (DailyOverview.tsx) *)
(* ================================================================== *)

Section GoalProgress.

Import DailyOverview.

(** [getMacroProgress] picks its divisor by comparing the ratio to the fat
    ratio: a macro whose ratio equals the fat ratio is divided by 9. *)
Lemma kcal_divisor_fat_valued (g : UserGoals) (r : num) :
  target_fat_ratio g = Some r -> is_NaN r = false ->
  kcal_divisor (Some g) r = 9.
Proof.
  intros Hf Hr. unfold kcal_divisor. simpl. rewrite Hf.
  assert (E : strict_eq r r = true).
  { destruct r; try reflexivity; try discriminate. apply Qceqb_refl. }
  now rewrite E.
Qed.

Lemma kcal_divisor_other (g : UserGoals) (r f : num) :
  target_fat_ratio g = Some f -> strict_eq r f = false ->
  kcal_divisor (Some g) r = 4.
Proof.
  intros Hf Hr. unfold kcal_divisor. simpl. now rewrite Hf, Hr.
Qed.



(** C1 (the code departs from the specification).  With the goals 30/40/30 the
    protein ratio is numerically the fat ratio, and [getMacroProgress]
    divides the protein calories by 9: for 2000 kcal its gram target is
    [200/3] g instead of the 150 g of the formula, so 150 g of protein
    count as 225% of the target, while the metric shown next to it takes
    150 g as the target.  With distinct ratios (30/50/20) the protein
    target is the 150 g of the formula. *)
Theorem C1_protein_target_divided_by_9 :
  kcal_divisor (Some Examples.default_goals) 30 = 9
  /\ targetGrams (Some Examples.default_goals) 30 2000 = ofQ (200 # 3)
  /\ (30 / 100) * 2000 / 4 = 150
  /\ proteinProgress (Some Examples.default_goals) Examples.day_2000_150 = 225
  /\ metric_target (Some 30) 400 (Examples.totals_of 2000 150 200 60) = 150
  /\ targetGrams (Some Examples.goals_30_50_20) 30 2000 = 150
  /\ proteinProgress (Some Examples.goals_30_50_20) Examples.day_2000_150 = 100.
Proof.
  repeat split; num_eval.
Qed.

(** [getMacroProgress] answers 0 when the ratio is missing or zero and
    when no calories were eaten. *)
Lemma getMacroProgress_guard (g : option UserGoals) (current : num)
    (targetRatio : option num) (totalCalories : num) :
  truthy_opt targetRatio = false \/ strict_eq totalCalories 0 = true ->
  getMacroProgress g current targetRatio totalCalories = 0.
Proof.
  unfold getMacroProgress. intros [H | H].
  - destruct targetRatio as [r|]; [|reflexivity]. simpl in H. now rewrite H.
  - destruct targetRatio as [r|]; [|reflexivity]. rewrite H.
    now rewrite orb_true_r.
Qed.

(** The [percentages] record guards the ratio but not the calories. *)
Lemma pct_macro_guard (value per100 : num) (t : Totals.t) (ratio : option num) :
  truthy_opt ratio = false -> pct_macro ratio value per100 t = 0.
Proof.
  unfold pct_macro. destruct ratio as [r|]; [|reflexivity].
  simpl. now intros ->.
Qed.

(** Without calories the gram target of [percentages] is 0, and the
    percentage of a macro with a ratio is [NaN] or an infinity, never 0. *)
Lemma pct_macro_without_calories (r v p : Qc) (t : Totals.t) :
  r <> 0%Qc -> p <> 0%Qc -> Totals.calories t = 0 ->
  is_finite (pct_macro (Some (Fin r)) (Fin v) (Fin p) t) = false.
Proof.
  intros Hr Hp Hc. unfold pct_macro.
  assert (Tr : truthy (Fin r) = true) by now apply truthy_Fin.
  rewrite Tr, Hc. change 0 with (Fin 0%Qc). cbn [mul].
  rewrite (div_Fin _ _ Hp), Qcmult_0_r.
  assert (E : (0 / p)%Qc = 0%Qc) by (unfold Qcdiv; apply Qcmult_0_l).
  rewrite E. cbn [div]. change (Qcsgn 0%Qc) with Eq. cbn iota.
  destruct (Qcsgn v); reflexivity.
Qed.

(** C4 (the code departs from the specification).  On a day without calories
    [getMacroProgress] answers 0, but the [percentages] record, which is
    what the overview prints, divides by a gram target of 0: with the
    default goals and no meal logged today the three macro percentages are
    [NaN] and are printed as such; with protein but no calories in the
    totals the protein percentage is [Infinity]. *)
Theorem C4_percentages_without_calories :
  getMacroProgress (Some Examples.default_goals) 0 (Some 30) 0 = 0
  /\ Totals.calories (percentages (Some Examples.default_goals) Totals.zero) = 0
  /\ Totals.protein (percentages (Some Examples.default_goals) Totals.zero) = NaN
  /\ Totals.carbs (percentages (Some Examples.default_goals) Totals.zero) = NaN
  /\ Totals.fat (percentages (Some Examples.default_goals) Totals.zero) = NaN
  /\ Totals.protein (percentages (Some Examples.default_goals)
                       (Examples.totals_of 0 10 0 0)) = PInf
  /\ forall now,
       render_percentages (Some Examples.default_goals) now []
       = Ok ["0.0% of daily goal"; "NaN% of daily goal";
             "NaN% of daily goal"; "NaN% of daily goal"].
Proof.
  split; [num_eval|]. split; [num_eval|].
  repeat split; try reflexivity.
Qed.

End GoalProgress.

(* ================================================================== *)
(** * Weight and calorie progress (ProgressTracker.tsx) *)
(* ================================================================== *)

Section Progress.

Import ProgressTracker.

(** The weight progress for the goal [lose_weight], once both weights are
    there. *)
Lemma lose_weight_formula (profile : option UserProfile) (goals : option UserGoals) :
  goalType profile = "lose_weight" ->
  truthy (currentWeight profile) = true ->
  truthy (targetWeight profile goals) = true ->
  calculateWeightProgress profile goals
  = let current := currentWeight profile in
    let target := targetWeight profile goals in
    let start := Math_max current target in
    clamp (((start - current) / (start - target)) * 100).
Proof.
  intros Hg Hc Ht. unfold calculateWeightProgress.
  rewrite Hg, Hc, Ht. reflexivity.
Qed.

(** The start weight is computed from the current weight: above the target
    the numerator is [current - current], so the progress is 0. *)
Lemma lose_weight_above_target (profile : option UserProfile)
    (goals : option UserGoals) (c t : Qc) :
  goalType profile = "lose_weight" ->
  currentWeight profile = Fin c -> targetWeight profile goals = Fin t ->
  c <> 0%Qc -> t <> 0%Qc -> (t < c)%Qc ->
  calculateWeightProgress profile goals = 0.
Proof.
  intros Hg Hc Ht Hc0 Ht0 Hlt.
  rewrite lose_weight_formula; try assumption.
  2: { rewrite Hc. now apply truthy_Fin. }
  2: { rewrite Ht. now apply truthy_Fin. }
  rewrite Hc, Ht. cbv zeta.
  assert (Hm : Math_max (Fin c) (Fin t) = Fin c).
  { unfold Math_max. simpl.
    destruct (Qcltb c t) eqn:E; [|reflexivity].
    apply Qcltb_true_iff in E. exfalso.
    apply (Qclt_not_le _ _ Hlt). now apply Qclt_le_weak. }
  rewrite Hm.
  assert (Hz : Fin c - Fin c = 0).
  { unfold sub. simpl. f_equal. apply Qcplus_opp_r. }
  rewrite Hz.
  assert (Hd : exists d, Fin c - Fin t = Fin d /\ d <> 0%Qc).
  { exists (c + - t)%Qc. split; [reflexivity|].
    intro E. apply Qclt_minus_iff in Hlt. rewrite E in Hlt.
    now apply (Qclt_not_eq _ _ Hlt). }
  destruct Hd as [d [Hd Hd0]]. rewrite Hd.
  change 0 with (Fin 0%Qc) at 1. rewrite (div_Fin _ _ Hd0).
  assert (Hq : (0 / d)%Qc = 0%Qc) by (unfold Qcdiv; apply Qcmult_0_l).
  rewrite Hq. num_eval.
Qed.

(** C2, as the code has it.  For [lose_weight] with both weights present
    the progress is [(start - current) / (start - target) * 100] clamped to
    [0, 100], with [start = max(current, target)]; as the start weight is
    taken from the current weight, current 80 and target 70 give 0%, and
    current 75 and target 70 give 0% as well. *)
Theorem C2_lose_weight_progress :
  (forall profile goals,
     goalType profile = "lose_weight" ->
     truthy (currentWeight profile) = true ->
     truthy (targetWeight profile goals) = true ->
     calculateWeightProgress profile goals
     = let current := currentWeight profile in
       let target := targetWeight profile goals in
       let start := Math_max current target in
       clamp (((start - current) / (start - target)) * 100))
  /\ calculateWeightProgress (Some (Examples.losing 80 70)) None = 0
  /\ calculateWeightProgress (Some (Examples.losing 75 70)) None = 0.
Proof.
  split; [exact lose_weight_formula|].
  split; num_eval.
Qed.

Lemma C2_lose_weight_progress_witness :
  calculateWeightProgress (Some (Examples.losing 75 70)) None
  = clamp (((Math_max 75 70 - 75) / (Math_max 75 70 - 70)) * 100).
Proof.
  apply (proj1 C2_lose_weight_progress (Some (Examples.losing 75 70)) None);
    reflexivity.
Defined.

(** C2 as stated fails: with current 75 and target 70 the progress is not
    50%. *)
Lemma C2_counterexample_75_70 :
  calculateWeightProgress (Some (Examples.losing 75 70)) None <> 50.
Proof. num_differ. Qed.

(** At the target weight the progress is [0 / 0], for losing and for
    gaining alike. *)
Lemma weight_progress_at_target (profile : option UserProfile)
    (goals : option UserGoals) (w : Qc) :
  goalType profile = "lose_weight" \/ goalType profile = "gain_weight" ->
  currentWeight profile = Fin w -> targetWeight profile goals = Fin w ->
  w <> 0%Qc ->
  calculateWeightProgress profile goals = NaN.
Proof.
  intros Hg Hc Ht Hw. unfold calculateWeightProgress.
  rewrite Hc, Ht.
  assert (Tw : truthy (Fin w) = true) by now apply truthy_Fin.
  rewrite Tw. cbn [negb orb].
  assert (Hmax : Math_max (Fin w) (Fin w) = Fin w).
  { unfold Math_max. now destruct (ltb (Fin w) (Fin w)). }
  assert (Hmin : Math_min (Fin w) (Fin w) = Fin w).
  { unfold Math_min. now destruct (ltb (Fin w) (Fin w)). }
  assert (Hz : Fin w - Fin w = Fin 0%Qc).
  { unfold sub. cbn [neg add]. f_equal. apply Qcplus_opp_r. }
  assert (Hn : clamp ((Fin 0%Qc / Fin 0%Qc) * 100) = NaN) by reflexivity.
  destruct Hg as [Hg | Hg]; rewrite Hg; cbn [String.eqb Ascii.eqb Bool.eqb];
    cbv zeta; rewrite ?Hmax, ?Hmin, Hz; exact Hn.
Qed.

(** C7 (the code departs from the specification).  When the current weight is the
    target weight, start, current and target coincide and the progress is
    [0 / 0]: the clamp lets [NaN] through, and the bar and its text get
    [NaN].  The percentage of the overview is not clamped: 3000 kcal
    against a target of 2000 read 150%. *)
Theorem C7_weight_progress_NaN_at_target :
  calculateWeightProgress (Some (Examples.losing 70 70)) None = NaN
  /\ weightProgress_text (Some (Examples.losing 70 70)) None
     = "NaN% towards your weight goal"
  /\ clamp NaN = NaN
  /\ DailyOverview.pct_calories (Some Examples.default_goals)
       (Examples.totals_of 3000 0 0 0) = 150.
Proof.
  repeat split; try reflexivity. num_eval.
Qed.

End Progress.

(* ================================================================== *)
(** * Today's totals *)
(* ================================================================== *)

Section Aggregation.

Lemma filterM_all_false {A : Type} (p : A -> result bool) (l : list A) :
  (forall x, In x l -> p x = Ok false) -> filterM p l = Ok [].
Proof.
  induction l as [|x l IH]; intro H; [reflexivity|].
  simpl. rewrite (H x (or_introl eq_refl)). simpl.
  rewrite IH; [reflexivity|]. intros y Hy. apply H. now right.
Qed.

Lemma filterM_In {A : Type} (p : A -> result bool) (l kept : list A) :
  filterM p l = Ok kept ->
  forall x, In x kept <-> In x l /\ p x = Ok true.
Proof.
  revert kept. induction l as [|a l IH]; intros kept H x.
  - injection H as <-. simpl. tauto.
  - simpl in H. destruct (p a) as [b|e] eqn:Ea; [|discriminate H].
    simpl in H. destruct (filterM p l) as [kept'|e] eqn:El; [|discriminate H].
    simpl in H. injection H as <-. specialize (IH kept' eq_refl x).
    destruct b; simpl; rewrite IH; split.
    + intros [-> | [Hin Hp]]; [split; [now left | exact Ea] | split; [now right | exact Hp]].
    + intros [[-> | Hin] Hp]; [now left | right; now split].
    + intros [Hin Hp]. split; [now right | exact Hp].
    + intros [[-> | Hin] Hp]; [congruence | now split].
Qed.

Lemma filterM_total {A : Type} (p : A -> result bool) (l : list A) :
  (forall x, In x l -> exists b, p x = Ok b) ->
  exists kept, filterM p l = Ok kept.
Proof.
  induction l as [|a l IH]; intro H.
  - now exists [].
  - destruct (H a (or_introl eq_refl)) as [b Hb].
    destruct IH as [kept Hk]; [intros y Hy; apply H; now right|].
    simpl. rewrite Hb, Hk. simpl. eauto.
Qed.

(** ** The calorie bar of the progress tracker *)

Lemma fold_calories_finite (logs : list MealLog.t) (acc : num) :
  (forall log, In log logs -> Spec.finite_calories log = true) ->
  is_finite acc = true ->
  is_finite (fold_left (fun sum log => sum + or_default (MealLog.total_calories log) 0)
               logs acc) = true.
Proof.
  revert acc. induction logs as [|l logs IH]; intros acc H Ha; [exact Ha|].
  simpl. apply IH; [intros x Hx; apply H; now right|].
  specialize (H l (or_introl eq_refl)). unfold Spec.finite_calories in H.
  destruct acc as [a| | |]; try discriminate Ha.
  destruct (MealLog.total_calories l) as [[c| | |]|]; try discriminate H;
    unfold or_default; try destruct (truthy (Fin c)); reflexivity.
Qed.

Lemma div_by_truthy_finite (a t : num) :
  is_finite a = true -> truthy t = true -> is_finite (a / t) = true.
Proof.
  destruct a as [x| | |]; try discriminate. intros _.
  destruct t as [y| | |]; try discriminate; try reflexivity.
  intro H. apply truthy_Fin in H. now rewrite div_Fin.
Qed.

Lemma zero_of_target (target : num) :
  truthy target = true -> ProgressTracker.clamp ((0 / target) * 100) = 0.
Proof.
  destruct target as [y| | |]; try discriminate; intro H; try num_eval.
  apply truthy_Fin in H. change 0 with (Fin 0%Qc) at 1.
  rewrite (div_Fin _ _ H).
  assert (E : (0 / y)%Qc = 0%Qc) by (unfold Qcdiv; apply Qcmult_0_l).
  rewrite E. num_eval.
Qed.

(** The calorie bar lies between 0 and 100 whenever the calories of the
    rows are finite numbers. *)
Lemma calculateCalorieProgress_bounds (goals : option UserGoals)
    (mealLogs : list MealLog.t) (now : Z) (p : num) :
  (forall log, In log mealLogs -> Spec.finite_calories log = true) ->
  ProgressTracker.calculateCalorieProgress goals mealLogs now = Ok p ->
  leb 0 p = true /\ leb p 100 = true.
Proof.
  intros Hfin H. unfold ProgressTracker.calculateCalorieProgress in H.
  assert (Z0 : leb 0 0 = true /\ leb 0 100 = true)
    by (split; vm_compute; reflexivity).
  destruct mealLogs as [|l logs]; [injection H as <-; exact Z0|].
  destruct (goals ?. target_calories) as [target|]; [|injection H as <-; exact Z0].
  destruct (truthy target) eqn:Ht; cbn [negb] in H; [|injection H as <-; exact Z0].
  destruct (todayLogs now (l :: logs)) as [kept|e] eqn:Ek; [|discriminate H].
  cbn [bind] in H. injection H as <-.
  apply clamp_bounds.
  assert (Hs : is_finite (ProgressTracker.sum_calories kept) = true).
  { apply fold_calories_finite; [|reflexivity].
    intros x Hx. apply Hfin. now apply (filterM_In _ _ _ Ek x). }
  pose proof (div_by_truthy_finite _ _ Hs Ht) as Hd.
  destruct (ProgressTracker.sum_calories kept / target); try discriminate Hd.
  reflexivity.
Qed.

(** C5.  Over the empty list of rows, and whenever every row is of another
    day, the totals are [{calories: 0, protein: 0, carbs: 0, fat: 0}] and
    nothing is thrown; the calorie progress is then 0. *)
Theorem C5_totals_without_rows :
  (forall now, totals now [] = Ok Totals.zero)
  /\ (forall now mealLogs,
        (forall log, In log mealLogs -> is_today now log = Ok false) ->
        totals now mealLogs = Ok Totals.zero)
  /\ (forall goals now, ProgressTracker.calculateCalorieProgress goals [] now = Ok 0)
  /\ (forall goals now mealLogs,
        (forall log, In log mealLogs -> is_today now log = Ok false) ->
        ProgressTracker.calculateCalorieProgress goals mealLogs now = Ok 0).
Proof.
  split; [reflexivity|]. split; [|split; [reflexivity|]].
  - intros now mealLogs H. unfold totals, todayLogs.
    now rewrite (filterM_all_false _ _ H).
  - intros goals now mealLogs H.
    unfold ProgressTracker.calculateCalorieProgress.
    destruct mealLogs as [|l logs]; [reflexivity|].
    destruct (goals ?. target_calories) as [target|]; [|reflexivity].
    destruct (truthy target) eqn:Ht; cbn [negb]; [|reflexivity].
    unfold todayLogs. rewrite (filterM_all_false _ _ H). cbn [bind].
    unfold ProgressTracker.sum_calories. cbn [fold_left].
    now rewrite zero_of_target.
Qed.

Lemma C5_totals_without_rows_witness :
  totals 0 [Examples.late_row] = Ok Totals.zero.
Proof.
  apply (proj1 (proj2 C5_totals_without_rows) 0%Z [Examples.late_row]).
  intros log [H | []]. subst log. reflexivity.
Defined.

End Aggregation.

(* ================================================================== *)
(** * Recommendations (RecommendationCard.tsx) *)
(* ================================================================== *)

Section Recommendations.

Import RecommendationCard.

Lemma getRecommendations_cases (profile : option UserProfile)
    (goals : option UserGoals) (t : Totals.t) :
  (pushed profile goals t = []
   /\ getRecommendations profile goals t = [fallback_message])
  \/ (pushed profile goals t <> []
      /\ getRecommendations profile goals t = pushed profile goals t).
Proof.
  unfold getRecommendations.
  destruct (pushed profile goals t) as [|m l] eqn:E.
  - left. split; reflexivity.
  - right. split; [discriminate | reflexivity].
Qed.

(** What was pushed is returned. *)
Lemma pushed_in_recommendations (profile : option UserProfile)
    (goals : option UserGoals) (t : Totals.t) (m : string) :
  In m (pushed profile goals t) -> In m (getRecommendations profile goals t).
Proof.
  intro H. destruct (getRecommendations_cases profile goals t) as [[E _] | [_ E]].
  - rewrite E in H. destruct H.
  - now rewrite E.
Qed.

Lemma Qc_difference_flip (a b k : Qc) :
  (k < a + - b)%Qc -> (b + - a < - k)%Qc.
Proof.
  unfold Qclt. rewrite !this_plus, !this_opp. lra.
Qed.

Lemma Qc_difference_not_both (a b k : Qc) :
  (0 < k)%Qc -> (k < a + - b)%Qc -> ~ (k < b + - a)%Qc.
Proof.
  unfold Qclt. rewrite !this_plus, !this_opp.
  change (this 0%Qc) with 0%Q. lra.
Qed.

(** [total - target > 500] is [target - total < -500], and then
    [target - total > 500] fails. *)
Lemma excess_is_negative_deficit (total target : num) :
  gtb (total - target) 500 = true ->
  ltb (target - total) (neg 500) = true /\ gtb (target - total) 500 = false.
Proof.
  unfold gtb.
  destruct total as [c| | |], target as [t| | |]; try discriminate;
    try (intros _; split; reflexivity).
  change 500 with (Fin (Q2Qc 500)).
  change (Fin c - Fin t) with (Fin (c + - t)%Qc).
  change (Fin t - Fin c) with (Fin (t + - c)%Qc).
  change (neg (Fin (Q2Qc 500))) with (Fin (- Q2Qc 500)%Qc).
  cbn [ltb]. intro H. apply Qcltb_true_iff in H. split.
  - apply Qcltb_true_iff. now apply Qc_difference_flip.
  - destruct (Qcltb (Q2Qc 500) (t + - c)) eqn:E; [|reflexivity].
    apply Qcltb_true_iff in E. exfalso.
    apply (Qc_difference_not_both c t (Q2Qc 500)); try assumption.
    reflexivity.
Qed.

(** C9.  The recommendations depend on the rows and the clock only through
    today's totals.  When [target_calories] is set and exceeds today's
    calories by more than 500 the snack suggestion is among them; when
    today's calories exceed it by more than 500 the suggestion to adjust
    the next meal is. *)
Theorem C9_calorie_recommendations :
  (forall profile goals now1 logs1 now2 logs2,
     totals now1 logs1 = totals now2 logs2 ->
     recommendations profile goals now1 logs1
     = recommendations profile goals now2 logs2)
  /\ (forall profile goals t target,
        goals ?. target_calories = Some target ->
        truthy target = true ->
        gtb (target - Totals.calories t) 500 = true ->
        In (snack_message (target - Totals.calories t))
           (getRecommendations profile goals t))
  /\ (forall profile goals t target,
        goals ?. target_calories = Some target ->
        truthy target = true ->
        gtb (Totals.calories t - target) 500 = true ->
        In (adjust_message (target - Totals.calories t))
           (getRecommendations profile goals t)).
Proof.
  split; [|split].
  - intros profile goals now1 logs1 now2 logs2 H.
    unfold recommendations. now rewrite H.
  - intros profile goals t target Hg Ht Hd.
    apply pushed_in_recommendations. unfold pushed.
    apply in_or_app. left.
    unfold calorie_rule. rewrite Hg, Ht, Hd. now left.
  - intros profile goals t target Hg Ht Hd.
    apply pushed_in_recommendations. unfold pushed.
    apply in_or_app. left.
    destruct (excess_is_negative_deficit _ _ Hd) as [Hl Hn].
    unfold calorie_rule. rewrite Hg, Ht, Hn, Hl. now left.
Qed.

Lemma C9_calorie_recommendations_witness :
  In "You're 1500 calories under your daily target. Consider adding a healthy snack."
     (getRecommendations None (Some Examples.default_goals)
        (Examples.totals_of 500 0 0 0))
  /\ In "You're 600 calories over your daily target. Consider adjusting your next meal."
        (getRecommendations None (Some Examples.default_goals)
           (Examples.totals_of 2600 0 0 0)).
Proof.
  split.
  - apply (proj1 (proj2 C9_calorie_recommendations) None
             (Some Examples.default_goals) (Examples.totals_of 500 0 0 0) 2000);
      reflexivity.
  - apply (proj2 (proj2 C9_calorie_recommendations) None
             (Some Examples.default_goals) (Examples.totals_of 2600 0 0 0) 2000);
      reflexivity.
Defined.

(** C10.  [getRecommendations] never returns the empty list: when no rule
    pushed a message it returns the fallback message alone, as it does
    for goals and profile without any field and for no goals, no profile
    and no rows at all. *)
Theorem C10_recommendations_never_empty :
  (forall profile goals t, getRecommendations profile goals t <> [])
  /\ (forall profile goals t,
        pushed profile goals t = [] ->
        getRecommendations profile goals t = [fallback_message])
  /\ (forall t,
        getRecommendations (Some Examples.no_profile) (Some Examples.no_goals) t
        = [fallback_message])
  /\ (forall now, recommendations None None now [] = Ok [fallback_message]).
Proof.
  split; [|split; [|split]].
  - intros profile goals t.
    destruct (getRecommendations_cases profile goals t) as [[_ E] | [N E]].
    + rewrite E. discriminate.
    + now rewrite E.
  - intros profile goals t H.
    destruct (getRecommendations_cases profile goals t) as [[_ E] | [N _]].
    + exact E.
    + contradiction.
  - reflexivity.
  - reflexivity.
Qed.

Lemma C10_recommendations_never_empty_witness :
  getRecommendations None None Totals.zero = [fallback_message].
Proof.
  apply (proj1 (proj2 C10_recommendations_never_empty) None None Totals.zero).
  reflexivity.
Defined.

End Recommendations.

(* ================================================================== *)
(** * The macro ratios of the goal form (GoalSetting.tsx) *)
(* ================================================================== *)

Section MacroSum.

Import GoalSetting.






End MacroSum.

(* ================================================================== *)
(** * Logging a meal (MealLogger.tsx) *)
(* ================================================================== *)

Section MealTotals.

Import MealLogger.

Lemma fold_add_item (items : list FoodItem.t) (acc : Totals.t) :
  let total := fold_left add_item items acc in
  Totals.calories total
  = fold_left (fun sum item => sum + FoodItem.calories item * FoodItem.quantity item)
      items (Totals.calories acc)
  /\ Totals.protein total
     = fold_left (fun sum item => sum + FoodItem.protein item * FoodItem.quantity item)
         items (Totals.protein acc)
  /\ Totals.carbs total
     = fold_left (fun sum item => sum + FoodItem.carbs item * FoodItem.quantity item)
         items (Totals.carbs acc)
  /\ Totals.fat total
     = fold_left (fun sum item => sum + FoodItem.fat item * FoodItem.quantity item)
         items (Totals.fat acc).
Proof.
  revert acc. induction items as [|item items IH]; intro acc.
  - repeat split.
  - simpl. apply (IH (add_item acc item)).
Qed.

Lemma totalNutrition_spec (items : list FoodItem.t) :
  Totals.calories (totalNutrition items) = Spec.spec_total FoodItem.calories items
  /\ Totals.protein (totalNutrition items) = Spec.spec_total FoodItem.protein items
  /\ Totals.carbs (totalNutrition items) = Spec.spec_total FoodItem.carbs items
  /\ Totals.fat (totalNutrition items) = Spec.spec_total FoodItem.fat items.
Proof. exact (fold_add_item items Totals.zero). Qed.

Lemma copy_item_id (item : FoodItem.t) : copy_item item = item.
Proof. now destruct item. Qed.

Lemma map_copy_item (items : list FoodItem.t) : map copy_item items = items.
Proof.
  induction items as [|i l IH]; [reflexivity|].
  simpl. now rewrite copy_item_id, IH.
Qed.

(** What [onSubmit] leaves in the store once the schema has accepted the
    completed data. *)
Lemma onSubmit_try_accepted (uid : string) (now1 now2 : Z) (data : MealForm.t)
    (db : Store.t) :
  signed_in (Some uid) = true ->
  MealSchemas.mealLogSchema
    (completeMealData uid now2 (mealData_of uid now1 data)) = true ->
  onSubmit_try (Some uid) now1 now2 data db
  = Ok ({| Store.meal_logs :=
             Store.meal_logs db
             ++ [meal_log_row (Store.fresh_id db)
                   (completeMealData uid now2 (mealData_of uid now1 data))];
           Store.meal_food_items :=
             Store.meal_food_items db
             ++ map (food_item_row (Store.fresh_id db)) (MealForm.food_items data) |},
        Store.fresh_id db).
Proof.
  intros Hu Hs.
  assert (Hlen : (1 <=? List.length (MealForm.food_items data))%nat = true).
  { unfold MealSchemas.mealLogSchema in Hs.
    repeat (apply andb_true_iff in Hs; destruct Hs as [Hs ?]).
    match goal with
    | H : MealSchemas.food_items_ok _ = true |- _ =>
        unfold MealSchemas.food_items_ok in H;
        apply andb_true_iff in H; destruct H as [_ H];
        simpl in H; rewrite length_map in H; exact H
    end. }
  unfold onSubmit_try. rewrite Hu. cbn [negb].
  destruct (MealForm.food_items data) as [|i l] eqn:Ei; [discriminate Hlen|].
  cbn [List.length Nat.eqb]. unfold submitMealLog. rewrite Hu. cbn [negb].
  rewrite Hs. cbn [negb].
  unfold logMeal. cbn [completeMealData mealData_of MealLogData.food_items].
  rewrite Ei, map_copy_item. reflexivity.
Qed.

(** C6.  For a signed-in user and a meal whose completed data the schema
    accepts, [onSubmit] appends one row to [meal_logs], whose four totals
    are the sums over the food items of the per-serving value times the
    quantity, and one row per food item to [meal_food_items], each with the
    per-serving values and the quantity of its item; for two items A and B
    the calories are [A.calories * A.quantity + B.calories * B.quantity]. *)
Theorem C6_meal_totals_and_items :
  (forall uid now1 now2 data db,
     signed_in (Some uid) = true ->
     MealSchemas.mealLogSchema
       (completeMealData uid now2 (mealData_of uid now1 data)) = true ->
     exists row,
       let id := Store.fresh_id db in
       let items := MealForm.food_items data in
       onSubmit_try (Some uid) now1 now2 data db
       = Ok ({| Store.meal_logs := Store.meal_logs db ++ [row];
                Store.meal_food_items :=
                  Store.meal_food_items db ++ map (food_item_row id) items |}, id)
       /\ Store.id row = id
       /\ Store.total_calories row = Spec.spec_total FoodItem.calories items
       /\ Store.total_protein row = Spec.spec_total FoodItem.protein items
       /\ Store.total_carbs row = Spec.spec_total FoodItem.carbs items
       /\ Store.total_fat row = Spec.spec_total FoodItem.fat items
       /\ forall n item, nth_error items n = Some item ->
            exists stored,
              nth_error (map (food_item_row id) items) n = Some stored
              /\ Store.meal_log_id stored = id
              /\ Store.calories stored = FoodItem.calories item
              /\ Store.protein stored = FoodItem.protein item
              /\ Store.carbs stored = FoodItem.carbs item
              /\ Store.fat stored = FoodItem.fat item
              /\ Store.quantity stored = FoodItem.quantity item)
  /\ (forall A B : FoodItem.t,
        Spec.spec_total FoodItem.calories [A; B]
        = FoodItem.calories A * FoodItem.quantity A
          + FoodItem.calories B * FoodItem.quantity B).
Proof.
  split.
  - intros uid now1 now2 data db Hu Hs.
    exists (meal_log_row (Store.fresh_id db)
              (completeMealData uid now2 (mealData_of uid now1 data))).
    cbv zeta.
    destruct (totalNutrition_spec (MealForm.food_items data))
      as [Hcal [Hpro [Hcar Hfat]]].
    split; [now apply onSubmit_try_accepted|].
    repeat split; try assumption.
    intros n item Hn.
    exists (food_item_row (Store.fresh_id db) item).
    split; [now apply map_nth_error|]. repeat split.
  - intros A B. unfold Spec.spec_total. cbn [fold_left]. now rewrite add_0_l.
Qed.

Lemma C6_meal_totals_and_items_witness :
  exists row,
    onSubmit_try (Some "user-1") 1714550400000 1714550400005 Examples.meal_A_B Store.empty
    = Ok ({| Store.meal_logs := [row];
             Store.meal_food_items :=
               map (food_item_row 0) [Examples.item_A; Examples.item_B] |}, 0%nat)
    /\ Store.total_calories row = 378
    /\ Store.total_protein row = 16.
Proof.
  destruct (proj1 C6_meal_totals_and_items "user-1" 1714550400000%Z 1714550400005%Z
              Examples.meal_A_B Store.empty eq_refl)
    as [row [H1 [_ [H2 [H3 _]]]]].
  - vm_compute. reflexivity.
  - exists row. split; [exact H1|]. split.
    + rewrite H2. num_eval.
    + rewrite H3. num_eval.
Defined.

(** ** The schema accepts what the form accepts

    The totals of a form that passed [mealLogFormSchema] are sums of
    products of non-negative numbers, so [mealLogSchema] accepts the
    completed data of a signed-in user: with finite numbers every meal the
    form lets through is stored. *)

Lemma Qc_nonneg_step (a x q : Qc) :
  (0 <= a)%Qc -> (0 <= x)%Qc -> (0 <= q)%Qc -> (0 <= a + x * q)%Qc.
Proof.
  unfold Qcle. rewrite this_plus, this_mult. change (this 0%Qc) with 0%Q.
  intros Ha Hx Hq. pose proof (Qmult_le_0_compat _ _ Hx Hq). lra.
Qed.

Lemma number_min_0_Fin (v : num) :
  Validation.number_min 0 v = true -> is_finite v = true ->
  exists x, v = Fin x /\ (0 <= x)%Qc.
Proof.
  destruct v as [x| | |]; try discriminate. intros H _. exists x.
  split; [reflexivity|]. unfold Validation.number_min in H.
  now apply Qcleb_true_iff in H.
Qed.

Lemma quantity_nonneg (v : num) :
  Validation.number_min (ofQ (1 # 10)) v = true -> is_finite v = true ->
  exists q, v = Fin q /\ (0 <= q)%Qc.
Proof.
  destruct v as [q| | |]; try discriminate. intros H _. exists q.
  split; [reflexivity|]. unfold Validation.number_min in H.
  apply Qcleb_true_iff in H. apply Qcle_trans with (Q2Qc (1 # 10)); [|exact H].
  apply Qcleb_true_iff. reflexivity.
Qed.

Lemma spec_total_nonneg (f : FoodItem.t -> num) (items : list FoodItem.t) :
  (forall item, In item items ->
     Validation.number_min 0 (f item) = true /\ is_finite (f item) = true
     /\ Validation.number_min (ofQ (1 # 10)) (FoodItem.quantity item) = true
     /\ is_finite (FoodItem.quantity item) = true) ->
  Validation.number_min 0 (Spec.spec_total f items) = true.
Proof.
  intro H. unfold Spec.spec_total.
  assert (G : forall a, (0 <= a)%Qc ->
            Validation.number_min 0
              (fold_left (fun sum item => sum + f item * FoodItem.quantity item)
                 items (Fin a)) = true).
  { induction items as [|i l IH]; intros a Ha.
    - unfold Validation.number_min. now apply Qcleb_true_iff.
    - cbn [fold_left].
      destruct (H i (or_introl eq_refl)) as [H1 [H2 [H3 H4]]].
      destruct (number_min_0_Fin _ H1 H2) as [x [-> Hx]].
      destruct (quantity_nonneg _ H3 H4) as [q [-> Hq]].
      cbn [mul add]. apply IH.
      + intros j Hj. apply H. now right.
      + now apply Qc_nonneg_step. }
  apply (G 0%Qc). apply Qcle_refl.
Qed.

Lemma format_iso_nonempty (t : Z) : Validation.string_min1 (format_iso t) = true.
Proof.
  unfold format_iso, date_string. destruct (utc_date t) as [[y m] d].
  unfold year_string.
  destruct ((0 <=? y)%Z && (y <=? 9999)%Z); [|destruct (y <? 0)%Z]; reflexivity.
Qed.

Lemma valid_form_is_accepted (uid : string) (now1 now2 : Z) (data : MealForm.t) :
  signed_in (Some uid) = true ->
  MealSchemas.mealLogFormSchema data = true ->
  forallb Spec.finite_item (MealForm.food_items data) = true ->
  MealSchemas.mealLogSchema
    (completeMealData uid now2 (mealData_of uid now1 data)) = true.
Proof.
  intros Hu Hf Hfin.
  unfold MealSchemas.mealLogFormSchema in Hf.
  repeat (apply andb_true_iff in Hf; destruct Hf as [Hf ?]).
  assert (Hitems : forall item, In item (MealForm.food_items data) ->
            MealSchemas.foodItemSchema item = true /\ Spec.finite_item item = true).
  { intros item Hin. split.
    - match goal with
      | H : MealSchemas.food_items_ok _ = true |- _ =>
          unfold MealSchemas.food_items_ok in H;
          apply andb_true_iff in H; destruct H as [H _];
          rewrite forallb_forall in H; now apply H
      end.
    - rewrite forallb_forall in Hfin. now apply Hfin. }
  assert (Htot : forall f,
            (forall item, MealSchemas.foodItemSchema item = true ->
                          Spec.finite_item item = true ->
                          Validation.number_min 0 (f item) = true
                          /\ is_finite (f item) = true) ->
            Validation.number_min 0 (Spec.spec_total f (MealForm.food_items data)) = true).
  { intros f Hfield. apply spec_total_nonneg. intros item Hin.
    destruct (Hitems item Hin) as [Hs Hi].
    destruct (Hfield item Hs Hi) as [F1 F2]. split; [exact F1|]. split; [exact F2|].
    unfold MealSchemas.foodItemSchema in Hs. unfold Spec.finite_item in Hi.
    repeat (apply andb_true_iff in Hs; destruct Hs as [Hs ?]).
    repeat (apply andb_true_iff in Hi; destruct Hi as [Hi ?]).
    split; assumption. }
  destruct (totalNutrition_spec (MealForm.food_items data))
    as [Hcal [Hpro [Hcar Hfat]]].
  unfold MealSchemas.mealLogSchema.
  cbn [completeMealData mealData_of MealLogData.user_id MealLogData.meal_type
       MealLogData.meal_date MealLogData.meal_time MealLogData.food_items
       MealLogData.created_at MealLogData.total_calories MealLogData.total_protein
       MealLogData.total_carbs MealLogData.total_fat MealLogData.source].
  rewrite map_copy_item, format_iso_nonempty, Hcal, Hpro, Hcar, Hfat.
  assert (Hid : Validation.string_min1 uid = true).
  { unfold signed_in, truthy_str in Hu. now destruct uid. }
  rewrite Hid.
  repeat match goal with
         | H : ?b = true |- context [?b] => rewrite H
         end.
  rewrite !Htot; [reflexivity| | | |];
    intros item Hs Hi;
    unfold MealSchemas.foodItemSchema in Hs; unfold Spec.finite_item in Hi;
    repeat (apply andb_true_iff in Hs; destruct Hs as [Hs ?]);
    repeat (apply andb_true_iff in Hi; destruct Hi as [Hi ?]);
    split; assumption.
Qed.

(** Through [handleSubmit]: a signed-in user's form that the form schema
    accepts, with finite numbers, ends in the store. *)
Lemma handleSubmit_stores (uid : string) (now1 now2 : Z) (data : MealForm.t)
    (db : Store.t) :
  signed_in (Some uid) = true ->
  MealSchemas.mealLogFormSchema data = true ->
  forallb Spec.finite_item (MealForm.food_items data) = true ->
  handleSubmit (Some uid) now1 now2 data db
  = {| Store.meal_logs :=
         Store.meal_logs db
         ++ [meal_log_row (Store.fresh_id db)
               (completeMealData uid now2 (mealData_of uid now1 data))];
       Store.meal_food_items :=
         Store.meal_food_items db
         ++ map (food_item_row (Store.fresh_id db)) (MealForm.food_items data) |}.
Proof.
  intros Hu Hf Hfin. unfold handleSubmit, onSubmit. rewrite Hf.
  rewrite (onSubmit_try_accepted uid now1 now2 data db Hu); [reflexivity|].
  now apply valid_form_is_accepted.
Qed.

End MealTotals.

(* ================================================================== *)
(** * Which rows are today's *)
(* ================================================================== *)

Section Calendar.

Local Open Scope Z_scope.

(** [civil_from_days] yields a calendar date: a month, a day of the month,
    and a year in the 400-year cycle of the day. *)
Lemma civil_of_doe_range (era doe : Z) :
  0 <= doe < 146097 ->
  let '(y, m, d) := civil_of_doe era doe in
  1 <= m <= 12 /\ 1 <= d <= 31 /\ era * 400 <= y <= era * 400 + 400.
Proof.
  intro H. unfold civil_of_doe.
  set (yoe := (doe - doe / 1460 + doe / 36524 - doe / 146096) / 365).
  set (doy := doe - (365 * yoe + yoe / 4 - yoe / 100)).
  set (mp := (5 * doy + 2) / 153).
  assert (Hy : 0 <= yoe <= 399) by (subst yoe; Z.div_mod_to_equations; lia).
  assert (Hd : 0 <= doy <= 365).
  { subst doy yoe. Z.div_mod_to_equations. lia. }
  assert (Hm : 0 <= mp <= 11) by (subst mp; Z.div_mod_to_equations; lia).
  assert (Hdd : 1 <= doy - (153 * mp + 2) / 5 + 1 <= 31).
  { subst mp. Z.div_mod_to_equations. lia. }
  destruct (mp <? 10) eqn:E1; [apply Z.ltb_lt in E1 | apply Z.ltb_ge in E1].
  - destruct (mp + 3 <=? 2) eqn:E2;
      [apply Z.leb_le in E2 | apply Z.leb_gt in E2]; lia.
  - destruct (mp - 9 <=? 2) eqn:E2;
      [apply Z.leb_le in E2 | apply Z.leb_gt in E2]; lia.
Qed.

(** The day number of the calendar date of a day is that day. *)
Lemma days_from_civil_from_days (z : Z) :
  let '(y, m, d) := civil_from_days z in days_from_civil y m d = z.
Proof.
  unfold civil_from_days, civil_of_doe.
  set (z' := z + 719468).
  set (era := z' / 146097). set (doe := z' mod 146097).
  assert (Hdoe : 0 <= doe < 146097) by (subst doe; apply Z.mod_pos_bound; lia).
  assert (Hz : z' = era * 146097 + doe)
    by (subst era doe; Z.div_mod_to_equations; lia).
  set (yoe := (doe - doe / 1460 + doe / 36524 - doe / 146096) / 365).
  set (doy := doe - (365 * yoe + yoe / 4 - yoe / 100)).
  set (mp := (5 * doy + 2) / 153).
  assert (Hy : 0 <= yoe <= 399) by (subst yoe; Z.div_mod_to_equations; lia).
  assert (Hd : 0 <= doy <= 365).
  { subst doy yoe. Z.div_mod_to_equations. lia. }
  assert (Hm : 0 <= mp <= 11) by (subst mp; Z.div_mod_to_equations; lia).
  unfold days_from_civil.
  destruct (mp <? 10) eqn:E1; [apply Z.ltb_lt in E1 | apply Z.ltb_ge in E1].
  - replace (mp + 3 <=? 2) with false by (symmetry; apply Z.leb_gt; lia).
    replace ((yoe + era * 400) / 400) with era by (Z.div_mod_to_equations; lia).
    replace ((mp + 3 + 9) mod 12) with mp by (Z.div_mod_to_equations; lia).
    replace (yoe + era * 400 - era * 400) with yoe by lia.
    subst doy. lia.
  - replace (mp - 9 <=? 2) with true by (symmetry; apply Z.leb_le; lia).
    replace ((yoe + era * 400 + 1 - 1) / 400) with era
      by (Z.div_mod_to_equations; lia).
    replace ((mp - 9 + 9) mod 12) with mp by (Z.div_mod_to_equations; lia).
    replace (yoe + era * 400 + 1 - 1 - era * 400) with yoe by lia.
    subst doy. lia.
Qed.

(** The calendar date of a valid time value has a year of at most six
    digits. *)
Lemma civil_from_days_range (z y m d : Z) :
  -100000000 <= z <= 100000000 ->
  civil_from_days z = (y, m, d) ->
  1 <= m <= 12 /\ 1 <= d <= 31 /\ -999999 <= y <= 999999.
Proof.
  intros Hz E. unfold civil_from_days in E.
  assert (He : -680 <= (z + 719468) / 146097 <= 690)
    by (Z.div_mod_to_equations; lia).
  assert (Hdoe : 0 <= (z + 719468) mod 146097 < 146097)
    by (apply Z.mod_pos_bound; lia).
  pose proof (civil_of_doe_range ((z + 719468) / 146097) _ Hdoe) as R.
  rewrite E in R.
  destruct R as [Rm [Rd Ry]]. lia.
Qed.

Lemma valid_time_day (t : Z) :
  valid_time t = true -> -100000000 <= t / msPerDay <= 100000000.
Proof.
  unfold valid_time, maxTime, msPerDay. intro H. apply Z.leb_le in H.
  Z.div_mod_to_equations. lia.
Qed.

Lemma utc_date_range (t y m d : Z) :
  valid_time t = true ->
  utc_date t = (y, m, d) ->
  1 <= m <= 12 /\ 1 <= d <= 31 /\ -999999 <= y <= 999999.
Proof.
  intros H E. apply (civil_from_days_range (t / msPerDay)); [|exact E].
  now apply valid_time_day.
Qed.

(** ** The date at the head of an ISO string *)

Lemma digit_char_code (d : Z) :
  0 <= d <= 9 -> N_of_ascii (digit_char d) = Z.to_N (48 + d).
Proof.
  intro H. unfold digit_char. apply N_ascii_embedding. lia.
Qed.

Lemma digit_char_inj (a b : Z) :
  0 <= a <= 9 -> 0 <= b <= 9 -> digit_char a = digit_char b -> a = b.
Proof.
  intros Ha Hb E. apply (f_equal N_of_ascii) in E.
  rewrite !digit_char_code in E by assumption. lia.
Qed.

(** A digit is none of the characters [T], [-] and [+]. *)
Lemma digit_char_other (d : Z) (c : ascii) :
  0 <= d <= 9 -> (N_of_ascii c < 48)%N \/ (57 < N_of_ascii c)%N ->
  digit_char d <> c.
Proof.
  intros Hd Hc E. apply (f_equal N_of_ascii) in E.
  rewrite digit_char_code in E by assumption. lia.
Qed.

Lemma mod10_range (n : Z) : 0 <= n mod 10 <= 9.
Proof. pose proof (Z.mod_pos_bound n 10). lia. Qed.

Lemma split_T_0_digit (n : Z) (k : string) :
  split_T_0 (String (digit_char (n mod 10)) k)
  = String (digit_char (n mod 10)) (split_T_0 k).
Proof.
  cbn [split_T_0].
  destruct (Ascii.eqb (digit_char (n mod 10)) "T") eqn:E; [|reflexivity].
  apply Ascii.eqb_eq in E. exfalso.
  apply (digit_char_other (n mod 10) "T" (mod10_range n)); [|exact E].
  right. reflexivity.
Qed.

Lemma split_T_0_pad2 (n : Z) (k : string) :
  split_T_0 (pad2 n k) = pad2 n (split_T_0 k).
Proof. unfold pad2. now rewrite !split_T_0_digit. Qed.

Lemma split_T_0_pad4 (n : Z) (k : string) :
  split_T_0 (pad4 n k) = pad4 n (split_T_0 k).
Proof. unfold pad4, pad3. now rewrite !split_T_0_digit, split_T_0_pad2. Qed.

Lemma split_T_0_pad6 (n : Z) (k : string) :
  split_T_0 (pad6 n k) = pad6 n (split_T_0 k).
Proof. unfold pad6. now rewrite !split_T_0_digit, split_T_0_pad4. Qed.

Lemma split_T_0_date_string (ymd : Z * Z * Z) (k : string) :
  split_T_0 (date_string ymd k) = date_string ymd (split_T_0 k).
Proof.
  destruct ymd as [[y m] d]. unfold date_string, year_string.
  destruct ((0 <=? y) && (y <=? 9999)); [|destruct (y <? 0)];
    cbn [split_T_0 Ascii.eqb Bool.eqb];
    rewrite ?split_T_0_pad4, ?split_T_0_pad6;
    cbn [split_T_0 Ascii.eqb Bool.eqb];
    rewrite split_T_0_pad2; cbn [split_T_0 Ascii.eqb Bool.eqb];
    now rewrite split_T_0_pad2.
Qed.

(** [toISOString().split('T')[0]] is the UTC calendar date, written out. *)
Lemma iso_day_of_time (t : Z) :
  split_T_0 (format_iso t) = date_string (utc_date t) "".
Proof.
  unfold format_iso. rewrite split_T_0_date_string. reflexivity.
Qed.

Lemma pad2_inj (a b : Z) (k k' : string) :
  0 <= a <= 99 -> 0 <= b <= 99 -> pad2 a k = pad2 b k' -> a = b /\ k = k'.
Proof.
  intros Ha Hb E. unfold pad2 in E. injection E as E1 E0 Ek.
  apply digit_char_inj in E1; try apply mod10_range.
  apply digit_char_inj in E0; try apply mod10_range.
  split; [|exact Ek]. Z.div_mod_to_equations. lia.
Qed.

Lemma pad4_inj (a b : Z) (k k' : string) :
  0 <= a <= 9999 -> 0 <= b <= 9999 -> pad4 a k = pad4 b k' -> a = b /\ k = k'.
Proof.
  intros Ha Hb E. unfold pad4, pad3, pad2 in E. injection E as E3 E2 E1 E0 Ek.
  apply digit_char_inj in E3; try apply mod10_range.
  apply digit_char_inj in E2; try apply mod10_range.
  apply digit_char_inj in E1; try apply mod10_range.
  apply digit_char_inj in E0; try apply mod10_range.
  split; [|exact Ek]. Z.div_mod_to_equations. lia.
Qed.

Lemma pad6_inj (a b : Z) (k k' : string) :
  0 <= a <= 999999 -> 0 <= b <= 999999 -> pad6 a k = pad6 b k' -> a = b /\ k = k'.
Proof.
  intros Ha Hb E. unfold pad6, pad4, pad3, pad2 in E.
  injection E as E5 E4 E3 E2 E1 E0 Ek.
  apply digit_char_inj in E5; try apply mod10_range.
  apply digit_char_inj in E4; try apply mod10_range.
  apply digit_char_inj in E3; try apply mod10_range.
  apply digit_char_inj in E2; try apply mod10_range.
  apply digit_char_inj in E1; try apply mod10_range.
  apply digit_char_inj in E0; try apply mod10_range.
  split; [|exact Ek]. Z.div_mod_to_equations. lia.
Qed.

Lemma String_tail (c : ascii) (s1 s2 : string) :
  String c s1 = String c s2 -> s1 = s2.
Proof. now intros [= ->]. Qed.

Lemma pad_head_not_sign (n : Z) (k k' : string) (c : ascii) :
  (N_of_ascii c < 48)%N -> pad4 n k <> String c k'.
Proof.
  intros Hc E. unfold pad4 in E. injection E as E _.
  apply (digit_char_other (n / 1000 mod 10) c (mod10_range _)); [|exact E].
  now left.
Qed.

Lemma year_string_inj (y1 y2 : Z) (k1 k2 : string) :
  -999999 <= y1 <= 999999 -> -999999 <= y2 <= 999999 ->
  year_string y1 k1 = year_string y2 k2 -> y1 = y2 /\ k1 = k2.
Proof.
  intros H1 H2. unfold year_string.
  destruct ((0 <=? y1) && (y1 <=? 9999)) eqn:A1;
    destruct ((0 <=? y2) && (y2 <=? 9999)) eqn:A2;
    destruct (y1 <? 0) eqn:B1; destruct (y2 <? 0) eqn:B2;
    intro E;
    try (apply andb_true_iff in A1; destruct A1 as [A1 A1']);
    try (apply andb_true_iff in A2; destruct A2 as [A2 A2']);
    try (apply andb_false_iff in A1);
    try (apply andb_false_iff in A2);
    rewrite ?Z.leb_le, ?Z.leb_gt, ?Z.ltb_lt, ?Z.ltb_ge in *;
    try lia;
    try (exfalso; revert E; apply pad_head_not_sign; reflexivity);
    try (exfalso; symmetry in E; revert E; apply pad_head_not_sign; reflexivity);
    try discriminate E.
  - apply pad4_inj in E; lia || (destruct E; split; assumption).
  - apply String_tail in E. apply pad6_inj in E; try lia.
    destruct E. split; [lia | assumption].
  - apply String_tail in E. apply pad6_inj in E; try lia. exact E.
Qed.

Lemma date_string_inj (y1 m1 d1 y2 m2 d2 : Z) :
  -999999 <= y1 <= 999999 -> 1 <= m1 <= 12 -> 1 <= d1 <= 31 ->
  -999999 <= y2 <= 999999 -> 1 <= m2 <= 12 -> 1 <= d2 <= 31 ->
  date_string (y1, m1, d1) "" = date_string (y2, m2, d2) "" ->
  (y1, m1, d1) = (y2, m2, d2).
Proof.
  intros Y1 M1 D1 Y2 M2 D2 E. unfold date_string in E.
  apply year_string_inj in E; try assumption. destruct E as [Ey E].
  apply String_tail in E. apply pad2_inj in E; try lia. destruct E as [Em E].
  apply String_tail in E. apply pad2_inj in E; try lia. destruct E as [Ed _].
  now subst.
Qed.

(** Two valid time values give the same day string exactly when they fall
    on the same UTC calendar date. *)
Lemma iso_day_eq_iff (t1 t2 : Z) :
  valid_time t1 = true -> valid_time t2 = true ->
  split_T_0 (format_iso t1) = split_T_0 (format_iso t2)
  <-> utc_date t1 = utc_date t2.
Proof.
  intros V1 V2. rewrite !iso_day_of_time. split.
  - intro E.
    destruct (utc_date t1) as [[y1 m1] d1] eqn:E1.
    destruct (utc_date t2) as [[y2 m2] d2] eqn:E2.
    destruct (utc_date_range _ _ _ _ V1 E1) as [? [? ?]].
    destruct (utc_date_range _ _ _ _ V2 E2) as [? [? ?]].
    now apply date_string_inj.
  - now intros ->.
Qed.

Lemma TimeClip_valid (t t' : Z) : TimeClip t = Some t' -> valid_time t' = true.
Proof.
  unfold TimeClip. destruct (valid_time t) eqn:E; [|discriminate].
  now intros [= <-].
Qed.

(** A string that parses denotes a valid time value. *)
Lemma Date_parse_valid (s : string) (t : Z) :
  Date_parse s = Some t -> valid_time t = true.
Proof.
  unfold Date_parse, opt_bind. intro H.
  repeat match type of H with
         | match ?x with _ => _ end = Some _ =>
             destruct x eqn:?; try discriminate H
         | (if ?b then _ else _) = Some _ =>
             destruct b eqn:?; try discriminate H
         | (let '(_, _) := ?x in _) = Some _ => destruct x eqn:?
         end;
    try (now apply TimeClip_valid in H).
Qed.

End Calendar.

Section TodaysRows.

(** A row is counted for today when its timestamp parses and the instant it
    denotes falls on the UTC calendar date of the clock. *)
Lemma is_today_true_iff (now : Z) (log : MealLog.t) :
  valid_time now = true ->
  is_today now log = Ok true
  <-> exists t, Date_parse (MealLog.created_at log) = Some t
                /\ utc_date t = utc_date now.
Proof.
  intro V. unfold is_today, iso_day_of_string, today, iso_day_of_now.
  destruct (Date_parse (MealLog.created_at log)) as [t|] eqn:E; simpl.
  - pose proof (Date_parse_valid _ _ E) as Vt. split.
    + intros [= H]. apply String.eqb_eq in H. exists t.
      split; [reflexivity|]. now apply (iso_day_eq_iff t now Vt V).
    + intros [t' [[= <-] H]]. f_equal. apply String.eqb_eq.
      now apply (iso_day_eq_iff t now Vt V).
  - split; [discriminate|]. intros [t [H _]]. discriminate H.
Qed.

Lemma is_today_total (now : Z) (log : MealLog.t) :
  Date_parse (MealLog.created_at log) <> None ->
  exists b, is_today now log = Ok b.
Proof.
  intro H. unfold is_today, iso_day_of_string.
  destruct (Date_parse (MealLog.created_at log)); [|contradiction].
  simpl. eauto.
Qed.

(** C8, as the code has it.  A row is among today's rows exactly when the
    instant its [created_at] denotes, the offset of the timestamp applied,
    falls on the same UTC calendar date as the clock; the totals are the
    sums over these rows.  Rows whose timestamps all parse always give a
    result. *)
Theorem C8_rows_of_the_utc_day :
  (forall now mealLogs kept,
     valid_time now = true ->
     todayLogs now mealLogs = Ok kept ->
     totals now mealLogs = Ok (sum_logs kept)
     /\ forall log,
          In log kept
          <-> In log mealLogs
              /\ exists t, Date_parse (MealLog.created_at log) = Some t
                           /\ utc_date t = utc_date now)
  /\ (forall now mealLogs,
        (forall log, In log mealLogs -> Date_parse (MealLog.created_at log) <> None) ->
        exists kept, todayLogs now mealLogs = Ok kept).
Proof.
  split.
  - intros now mealLogs kept V H. split.
    + unfold totals. now rewrite H.
    + intro log. unfold todayLogs in H.
      rewrite (filterM_In _ _ _ H log).
      now rewrite (is_today_true_iff now log V).
  - intros now mealLogs H. apply filterM_total.
    intros log Hin. apply is_today_total. now apply H.
Qed.

Lemma C8_rows_of_the_utc_day_witness :
  (totals Examples.early_2_May_2024 [Examples.late_row]
   = Ok (sum_logs [Examples.late_row])
   /\ forall log,
        In log [Examples.late_row]
        <-> In log [Examples.late_row]
            /\ exists t, Date_parse (MealLog.created_at log) = Some t
                         /\ utc_date t = utc_date Examples.early_2_May_2024)
  /\ exists kept, todayLogs Examples.noon_1_May_2024 [Examples.late_row] = Ok kept.
Proof.
  split.
  - apply (proj1 C8_rows_of_the_utc_day Examples.early_2_May_2024
             [Examples.late_row] [Examples.late_row]); reflexivity.
  - apply (proj2 C8_rows_of_the_utc_day Examples.noon_1_May_2024 [Examples.late_row]).
    intros log [<- | []]. discriminate.
Defined.

(** C8 as stated fails: a row stamped [2024-05-01T23:30:00-05:00] carries
    the date 2024-05-01, yet at noon UTC of 1 May 2024 it is not among
    today's rows, and at one in the morning UTC of 2 May 2024 it is: its
    instant is 04:30 UTC of 2 May. *)
Lemma C8_counterexample_offset_applied :
  ~ (forall now mealLogs kept log,
       todayLogs now mealLogs = Ok kept ->
       (In log kept
        <-> In log mealLogs
            /\ Spec.written_date (MealLog.created_at log) = today now)).
Proof.
  intro H.
  assert (E : todayLogs Examples.noon_1_May_2024 [Examples.late_row] = Ok [])
    by reflexivity.
  destruct (H _ _ _ Examples.late_row E) as [_ K].
  apply K. split; [now left | reflexivity].
Qed.

End TodaysRows.

(* ================================================================== *)
(** * Further properties of the progress tracker *)
(* ================================================================== *)

Section ProgressValues.

Import ProgressTracker.

Lemma this_inv (x : Qc) : (this (/ x)%Qc == / this x)%Q.
Proof. apply Qred_correct. Qed.

Lemma this_div (x y : Qc) : (this (x / y)%Qc == this x / this y)%Q.
Proof.
  unfold Qcdiv. rewrite this_mult, this_inv. reflexivity.
Qed.

Lemma Math_max_Fin (x y : Qc) :
  Math_max (Fin x) (Fin y) = if Qcltb x y then Fin y else Fin x.
Proof. reflexivity. Qed.

Lemma Math_min_Fin (x y : Qc) :
  Math_min (Fin x) (Fin y) = if Qcltb y x then Fin y else Fin x.
Proof. reflexivity. Qed.

Lemma Qcltb_false_iff (x y : Qc) : Qcltb x y = false <-> (y <= x)%Qc.
Proof.
  split.
  - intro H. apply Qcnot_lt_le. intro L. apply Qcltb_true_iff in L. congruence.
  - intro H. destruct (Qcltb x y) eqn:E; [|reflexivity].
    apply Qcltb_true_iff in E. exfalso. now apply (Qcle_not_lt _ _ H).
Qed.

Lemma Qcltb_asym (x y : Qc) : (x < y)%Qc -> Qcltb y x = false.
Proof. intro H. apply Qcltb_false_iff. now apply Qclt_le_weak. Qed.

Lemma sub_Fin (x y : Qc) : Fin x - Fin y = Fin (x - y)%Qc.
Proof. reflexivity. Qed.

Lemma Qcminus_diag (x : Qc) : (x - x)%Qc = 0%Qc.
Proof. apply Qcplus_opp_r. Qed.

Lemma Qcminus_pos (x y : Qc) : (y < x)%Qc -> (0 < x - y)%Qc.
Proof. intro H. now apply Qclt_minus_iff in H. Qed.

(** A positive difference over a zero difference: the bar is full. *)
Lemma clamp_pos_over_zero (d : Qc) :
  (0 < d)%Qc -> clamp ((Fin d / Fin 0%Qc) * 100) = 100.
Proof.
  intro H. cbn [div]. change (Qcsgn 0%Qc) with Eq. cbn iota.
  assert (E : Qcsgn d = Gt) by (unfold Qcsgn; now apply Qcgt_alt).
  rewrite E. reflexivity.
Qed.

(** A zero difference over a non-zero one: the bar is empty. *)
Lemma clamp_zero_over (d : Qc) :
  d <> 0%Qc -> clamp ((Fin 0%Qc / Fin d) * 100) = 0.
Proof.
  intro H. rewrite (div_Fin _ _ H).
  assert (E : (0 / d)%Qc = 0%Qc) by (unfold Qcdiv; apply Qcmult_0_l).
  rewrite E. num_eval.
Qed.

Lemma weight_progress_lose (profile : option UserProfile)
    (goals : option UserGoals) (c t : Qc) :
  goalType profile = "lose_weight" ->
  currentWeight profile = Fin c -> targetWeight profile goals = Fin t ->
  c <> 0%Qc -> t <> 0%Qc ->
  calculateWeightProgress profile goals
  = clamp (((Math_max (Fin c) (Fin t) - Fin c) / (Math_max (Fin c) (Fin t) - Fin t)) * 100).
Proof.
  intros Hg Hc Ht Hc0 Ht0. unfold calculateWeightProgress. rewrite Hg, Hc, Ht.
  apply truthy_Fin in Hc0. apply truthy_Fin in Ht0. now rewrite Hc0, Ht0.
Qed.

Lemma weight_progress_gain (profile : option UserProfile)
    (goals : option UserGoals) (c t : Qc) :
  goalType profile = "gain_weight" ->
  currentWeight profile = Fin c -> targetWeight profile goals = Fin t ->
  c <> 0%Qc -> t <> 0%Qc ->
  calculateWeightProgress profile goals
  = clamp (((Fin c - Math_min (Fin c) (Fin t)) / (Fin t - Math_min (Fin c) (Fin t))) * 100).
Proof.
  intros Hg Hc Ht Hc0 Ht0. unfold calculateWeightProgress. rewrite Hg, Hc, Ht.
  apply truthy_Fin in Hc0. apply truthy_Fin in Ht0. now rewrite Hc0, Ht0.
Qed.

(** X1.  The weight bar has no intermediate position.  The start weight is
    taken from the current weight, so for finite non-zero weights the
    progress towards [lose_weight] is 0 above the target and 100 below it,
    the progress towards [gain_weight] is 0 below the target and 100 above
    it, and both are [NaN] at the target. *)
Theorem X1_weight_bar_is_empty_full_or_NaN :
  forall profile goals c t,
    currentWeight profile = Fin c -> targetWeight profile goals = Fin t ->
    c <> 0%Qc -> t <> 0%Qc ->
    (goalType profile = "lose_weight" ->
       ((t < c)%Qc -> calculateWeightProgress profile goals = 0)
       /\ ((c < t)%Qc -> calculateWeightProgress profile goals = 100)
       /\ (c = t -> calculateWeightProgress profile goals = NaN))
    /\ (goalType profile = "gain_weight" ->
          ((c < t)%Qc -> calculateWeightProgress profile goals = 0)
          /\ ((t < c)%Qc -> calculateWeightProgress profile goals = 100)
          /\ (c = t -> calculateWeightProgress profile goals = NaN)).
Proof.
  intros profile goals c t Hc Ht Hc0 Ht0. split; intro Hg.
  - rewrite (weight_progress_lose profile goals c t Hg Hc Ht Hc0 Ht0).
    rewrite Math_max_Fin. repeat split.
    + intro L. rewrite (Qcltb_asym _ _ L), !sub_Fin, Qcminus_diag.
      apply clamp_zero_over. intro E. apply Qcminus_pos in L.
      rewrite E in L. now apply (Qclt_not_eq _ _ L).
    + intro L. apply Qcltb_true_iff in L as B. rewrite B, !sub_Fin, Qcminus_diag.
      apply clamp_pos_over_zero. now apply Qcminus_pos.
    + intros ->. destruct (Qcltb t t); rewrite !sub_Fin, Qcminus_diag; reflexivity.
  - rewrite (weight_progress_gain profile goals c t Hg Hc Ht Hc0 Ht0).
    rewrite Math_min_Fin. repeat split.
    + intro L. rewrite (Qcltb_asym _ _ L), !sub_Fin, Qcminus_diag.
      apply clamp_zero_over. intro E. apply Qcminus_pos in L.
      rewrite E in L. now apply (Qclt_not_eq _ _ L).
    + intro L. apply Qcltb_true_iff in L as B. rewrite B, !sub_Fin, Qcminus_diag.
      apply clamp_pos_over_zero. now apply Qcminus_pos.
    + intros ->. destruct (Qcltb t t); rewrite !sub_Fin, Qcminus_diag; reflexivity.
Qed.

End ProgressValues.

Lemma X1_weight_bar_is_empty_full_or_NaN_witness :
  ProgressTracker.calculateWeightProgress (Some (Examples.losing 60 70)) None = 100.
Proof.
  apply (proj1 (proj2 (proj1
           (X1_weight_bar_is_empty_full_or_NaN (Some (Examples.losing 60 70)) None
              (Q2Qc 60) (Q2Qc 70) eq_refl eq_refl
              ltac:(Qc_nonzero) ltac:(Qc_nonzero)) eq_refl))).
  reflexivity.
Defined.

Section CalorieBar.

Import ProgressTracker.

Lemma clamp_Fin_cases (x : Qc) :
  ((Q2Qc 100 <= x)%Qc -> clamp (Fin x) = 100)
  /\ ((0 <= x)%Qc -> (x <= Q2Qc 100)%Qc -> clamp (Fin x) = Fin x)
  /\ ((x < 0)%Qc -> clamp (Fin x) = 0).
Proof.
  assert (P100 : (0 < Q2Qc 100)%Qc) by reflexivity.
  unfold clamp. change 0 with (Fin 0%Qc). change 100 with (Fin (Q2Qc 100)).
  repeat split.
  - intro H. rewrite Math_max_Fin.
    assert (E : Qcltb x 0 = false).
    { apply Qcltb_false_iff. apply Qcle_trans with (Q2Qc 100); [|exact H].
      now apply Qclt_le_weak. }
    rewrite E, Math_min_Fin.
    destruct (Qcltb (Q2Qc 100) x) eqn:F; [reflexivity|].
    apply Qcltb_false_iff in F. f_equal. now apply Qcle_antisym.
  - intros H0 H1. rewrite Math_max_Fin.
    assert (E : Qcltb x 0 = false) by now apply Qcltb_false_iff.
    rewrite E, Math_min_Fin.
    assert (F : Qcltb (Q2Qc 100) x = false) by now apply Qcltb_false_iff.
    now rewrite F.
  - intro H. rewrite Math_max_Fin.
    apply Qcltb_true_iff in H. rewrite H. reflexivity.
Qed.

Lemma percent_of_target (s g : Qc) :
  (0 < g)%Qc ->
  ((g <= s)%Qc -> (Q2Qc 100 <= s / g * Q2Qc 100)%Qc)
  /\ ((0 <= s)%Qc -> (0 <= s / g * Q2Qc 100)%Qc)
  /\ ((s <= g)%Qc -> (s / g * Q2Qc 100 <= Q2Qc 100)%Qc)
  /\ ((s < 0)%Qc -> (s / g * Q2Qc 100 < 0)%Qc).
Proof.
  unfold Qclt, Qcle. rewrite !this_mult, !this_div, !this_Q2Qc.
  change (this 0%Qc) with 0%Q. intro Hg. repeat split; intro H.
  - assert (K : (1 <= this s / this g)%Q) by (apply Qle_shift_div_l; [exact Hg | lra]).
    lra.
  - assert (K : (0 <= this s / this g)%Q) by (apply Qle_shift_div_l; [exact Hg | lra]).
    lra.
  - assert (K : (this s / this g <= 1)%Q) by (apply Qle_shift_div_r; [exact Hg | lra]).
    lra.
  - assert (K : (this s / this g < 0)%Q) by (apply Qlt_shift_div_r; [exact Hg | lra]).
    lra.
Qed.

(** X2.  The calorie bar saturates.  With a positive target and rows for
    today whose calories sum to a finite total, the bar is full from the
    target on, shows the share [total / target * 100] below it, and is
    empty for a negative total; it never leaves [0, 100]. *)
Theorem X2_calorie_bar_saturates :
  forall goals mealLogs now kept g s,
    mealLogs <> [] ->
    opt_chain goals target_calories = Some (Fin g) -> (0 < g)%Qc ->
    todayLogs now mealLogs = Ok kept ->
    sum_calories kept = Fin s ->
    exists p,
      calculateCalorieProgress goals mealLogs now = Ok p
      /\ leb 0 p = true /\ leb p 100 = true
      /\ ((g <= s)%Qc -> p = 100)
      /\ ((0 <= s)%Qc -> (s <= g)%Qc -> p = Fin (s / g * Q2Qc 100))
      /\ ((s < 0)%Qc -> p = 0).
Proof.
  intros goals mealLogs now kept g s Hne Hg Hpos Hk Hs.
  assert (G0 : g <> 0%Qc).
  { intro E. rewrite E in Hpos. now apply (Qclt_not_eq _ _ Hpos). }
  exists (clamp (Fin (s / g * Q2Qc 100))).
  assert (R : calculateCalorieProgress goals mealLogs now
              = Ok (clamp (Fin (s / g * Q2Qc 100)))).
  { unfold calculateCalorieProgress. destruct mealLogs as [|l logs]; [contradiction|].
    rewrite Hg. apply truthy_Fin in G0. rewrite G0. cbn [negb].
    rewrite Hk. cbn [bind]. rewrite Hs.
    assert (G1 : g <> 0%Qc) by now apply truthy_Fin.
    now rewrite (div_Fin _ _ G1). }
  split; [exact R|].
  destruct (clamp_bounds (Fin (s / g * Q2Qc 100)) eq_refl) as [B0 B1].
  destruct (clamp_Fin_cases (s / g * Q2Qc 100)) as [C1 [C2 C3]].
  destruct (percent_of_target s g Hpos) as [P1 [P2 [P3 P4]]].
  repeat split; auto.
Qed.

Lemma X2_calorie_bar_saturates_witness :
  exists p,
    calculateCalorieProgress (Some Examples.default_goals) [Examples.late_row]
      Examples.early_2_May_2024 = Ok p
    /\ leb 0 p = true /\ leb p 100 = true
    /\ ((Q2Qc 2000 <= Q2Qc 500)%Qc -> p = 100)
    /\ ((0 <= Q2Qc 500)%Qc -> (Q2Qc 500 <= Q2Qc 2000)%Qc
        -> p = Fin (Q2Qc 500 / Q2Qc 2000 * Q2Qc 100))
    /\ ((Q2Qc 500 < 0)%Qc -> p = 0).
Proof.
  apply (X2_calorie_bar_saturates (Some Examples.default_goals) [Examples.late_row]
           Examples.early_2_May_2024 [Examples.late_row] (Q2Qc 2000) (Q2Qc 500)).
  - discriminate.
  - reflexivity.
  - reflexivity.
  - reflexivity.
  - apply num_eqb_eq. vm_compute. reflexivity.
Defined.

End CalorieBar.

(* ================================================================== *)
(** * Further properties of the daily overview *)
(* ================================================================== *)

Section OverviewValues.

Import DailyOverview.












End OverviewValues.

(* ================================================================== *)
(** * Further properties of the recommendations *)
(* ================================================================== *)

Section RecommendationShape.

Import RecommendationCard.

Lemma string_length_app (a b : string) :
  String.length (a ++ b) = (String.length a + String.length b)%nat.
Proof. induction a as [|c a IH]; cbn; [reflexivity | now rewrite IH]. Qed.

Lemma last_two_app (a b : string) :
  (2 <= String.length b)%nat -> last_two (a ++ b) = last_two b.
Proof.
  intro Hb. induction a as [|c a IH]; [reflexivity|].
  cbn [append]. rewrite <- IH.
  assert (L : (2 <= String.length (a ++ b))%nat)
    by (rewrite string_length_app; lia).
  destruct (a ++ b) as [|x [|y r]]; cbn in L; try lia.
  reflexivity.
Qed.

(** Membership in a list of at most one element. *)
Ltac in_at_most_one H :=
  first [ destruct H as [<- | H]; [|destruct H] | destruct H ].

Lemma calorie_rule_cases (goals : option UserGoals) (t : Totals.t) :
  calorie_rule goals t = []
  \/ (exists d, calorie_rule goals t = [snack_message d])
  \/ (exists d, calorie_rule goals t = [adjust_message d]).
Proof.
  unfold calorie_rule.
  destruct (goals ?. target_calories) as [target|]; [|now left].
  destruct (truthy target); [|now left].
  destruct (gtb (target - Totals.calories t) 500); [right; left; eauto|].
  destruct (ltb (target - Totals.calories t) (neg 500)); [right; right; eauto|].
  now left.
Qed.

Lemma macro_rule_members (goals : option UserGoals) (t : Totals.t) (m : string) :
  In m (macro_rule goals t) ->
  m = protein_message \/ m = carbs_message \/ m = fat_message.
Proof.
  unfold macro_rule.
  destruct (goals ?. target_protein_ratio) as [tp|]; [|intro H; destruct H].
  destruct (goals ?. target_carbs_ratio) as [tc|]; [|intro H; destruct H].
  destruct (goals ?. target_fat_ratio) as [tf|]; [|intro H; destruct H].
  destruct (truthy tp && truthy tc && truthy tf); [|intro H; destruct H].
  intro H. repeat (apply in_app_or in H; destruct H as [H | H]);
    match type of H with
    | In _ (if ?b then _ else _) =>
        destruct b; [destruct H as [<- | H]; [auto | destruct H] | destruct H]
    end.
Qed.

Lemma macro_rule_length (goals : option UserGoals) (t : Totals.t) :
  (List.length (macro_rule goals t) <= 3)%nat.
Proof.
  unfold macro_rule.
  destruct (goals ?. target_protein_ratio) as [tp|]; [|cbn; lia].
  destruct (goals ?. target_carbs_ratio) as [tc|]; [|cbn; lia].
  destruct (goals ?. target_fat_ratio) as [tf|]; [|cbn; lia].
  destruct (truthy tp && truthy tc && truthy tf); [|cbn; lia].
  rewrite !length_app.
  repeat match goal with
         | |- context [if ?b then _ else _] => destruct b
         end; cbn; lia.
Qed.

Lemma weight_rule_cases (profile : option UserProfile) :
  weight_rule profile = []
  \/ (exists w, weight_rule profile = [weight_loss_message w])
  \/ (exists w, weight_rule profile = [weight_gain_message w]).
Proof.
  unfold weight_rule.
  destruct (profile ?. goal_type) as [gt|]; [|now left].
  destruct (profile ?. weight_kg) as [w|]; [|now left].
  destruct (profile ?. target_weight) as [tw|]; [|now left].
  destruct (truthy_str (Some gt) && truthy w && truthy tw); [|now left].
  destruct (String.eqb gt "lose_weight" && gtb (tw - w) 0); [right; left; eauto|].
  destruct (String.eqb gt "gain_weight" && ltb (tw - w) 0); [right; right; eauto|].
  now left.
Qed.

(** The messages are told apart by how they begin and end. *)
Ltac message_end :=
  rewrite last_two_app;
  [ rewrite last_two_app; [reflexivity | cbn [String.length]; lia]
  | rewrite string_length_app; cbn [String.length]; lia ].

Lemma snack_end (d : num) : last_two (snack_message d) = Some ("k", ".")%char.
Proof. unfold snack_message. message_end. Qed.

Lemma adjust_end (d : num) : last_two (adjust_message d) = Some ("l", ".")%char.
Proof. unfold adjust_message. message_end. Qed.

Lemma weight_loss_end (w : num) :
  last_two (weight_loss_message w) = Some ("k", "!")%char.
Proof. unfold weight_loss_message. message_end. Qed.

Lemma weight_gain_end (w : num) :
  last_two (weight_gain_message w) = Some ("k", "!")%char.
Proof. unfold weight_gain_message. message_end. Qed.

Lemma calorie_message_head (d : num) :
  exists r, snack_message d = String "Y" (String "o" (String "u" (String "'" r))).
Proof. unfold snack_message. cbn [append]. eauto. Qed.

Lemma adjust_message_head (d : num) :
  exists r, adjust_message d = String "Y" (String "o" (String "u" (String "'" r))).
Proof. unfold adjust_message. cbn [append]. eauto. Qed.

(** Every message a rule pushes begins with [Y]; the fallback with [K]. *)
Lemma pushed_heads (profile : option UserProfile) (goals : option UserGoals)
    (t : Totals.t) (m : string) :
  In m (pushed profile goals t) -> exists r, m = String "Y" r.
Proof.
  unfold pushed. intro H.
  apply in_app_or in H. destruct H as [H | H].
  - destruct (calorie_rule_cases goals t) as [E | [[d E] | [d E]]];
      rewrite E in H; in_at_most_one H.
    + unfold snack_message. cbn [append]. eauto.
    + unfold adjust_message. cbn [append]. eauto.
  - apply in_app_or in H. destruct H as [H | H].
    + apply macro_rule_members in H. destruct H as [-> | [-> | ->]];
        cbv; eauto.
    + destruct (weight_rule_cases profile) as [E | [[w E] | [w E]]];
        rewrite E in H; in_at_most_one H.
      * unfold weight_loss_message. cbn [append]. eauto.
      * unfold weight_gain_message. cbn [append]. eauto.
Qed.

(** X5.  Between one and five recommendations are shown, and the fallback
    message is never mixed with the others: if it is shown, it is the only
    one. *)
Theorem X5_recommendations_count_and_fallback :
  forall profile goals t,
    (1 <= List.length (getRecommendations profile goals t) <= 5)%nat
    /\ (In fallback_message (getRecommendations profile goals t) ->
        getRecommendations profile goals t = [fallback_message]).
Proof.
  intros profile goals t. split.
  - destruct (getRecommendations_cases profile goals t) as [[_ E] | [N E]];
      rewrite E; [cbn; lia|].
    split.
    + destruct (pushed profile goals t); [contradiction | cbn; lia].
    + unfold pushed. rewrite !length_app.
      pose proof (macro_rule_length goals t).
      assert (List.length (calorie_rule goals t) <= 1)%nat.
      { destruct (calorie_rule_cases goals t) as [-> | [[d ->] | [d ->]]]; cbn; lia. }
      assert (List.length (weight_rule profile) <= 1)%nat.
      { destruct (weight_rule_cases profile) as [-> | [[w ->] | [w ->]]]; cbn; lia. }
      lia.
  - intro H.
    destruct (getRecommendations_cases profile goals t) as [[_ E] | [N E]];
      [exact E|].
    rewrite E in H. apply pushed_heads in H. destruct H as [r H].
    discriminate H.
Qed.

(** X6.  The advice on calories never contradicts itself: no list of
    recommendations holds both the suggestion to add a snack and the
    suggestion to adjust the next meal. *)
Theorem X6_never_under_and_over :
  forall profile goals t d1 d2,
    ~ (In (snack_message d1) (getRecommendations profile goals t)
       /\ In (adjust_message d2) (getRecommendations profile goals t)).
Proof.
  intros profile goals t d1 d2 [H1 H2].
  assert (K : forall m r c,
            m = String "Y" (String "o" (String "u" (String "'" r))) ->
            last_two m = Some (c, "."%char) ->
            In m (getRecommendations profile goals t) ->
            In m (calorie_rule goals t)).
  { intros m r c Hm Hl Hin.
    destruct (getRecommendations_cases profile goals t) as [[_ E] | [N E]];
      rewrite E in Hin.
    - destruct Hin as [<- | []]. discriminate Hm.
    - unfold pushed in Hin. apply in_app_or in Hin. destruct Hin as [Hin | Hin];
        [exact Hin|]. exfalso.
      apply in_app_or in Hin. destruct Hin as [Hin | Hin].
      + apply macro_rule_members in Hin.
        destruct Hin as [-> | [-> | ->]]; discriminate Hm.
      + destruct (weight_rule_cases profile) as [E' | [[w E'] | [w E']]];
          rewrite E' in Hin; in_at_most_one Hin.
        * rewrite weight_loss_end in Hl. discriminate Hl.
        * rewrite weight_gain_end in Hl. discriminate Hl. }
  destruct (calorie_message_head d1) as [r1 E1].
  destruct (adjust_message_head d2) as [r2 E2].
  pose proof (K _ _ _ E1 (snack_end d1) H1) as I1.
  pose proof (K _ _ _ E2 (adjust_end d2) H2) as I2.
  assert (E : snack_message d1 = adjust_message d2).
  { destruct (calorie_rule_cases goals t) as [C | [[d C] | [d C]]];
      rewrite C in I1, I2.
    - destruct I1.
    - destruct I1 as [<- | []]. destruct I2 as [I2 | []]. now symmetry.
    - destruct I1 as [<- | []]. destruct I2 as [I2 | []]. now symmetry. }
  apply (f_equal last_two) in E. rewrite snack_end, adjust_end in E.
  discriminate E.
Qed.

End RecommendationShape.

Section RecommendationRules.

Import RecommendationCard.

(** X7.  Without macros in the totals no macro advice is given, whatever
    the ratios of the goals: the three shares are [0 / 0], and [NaN] is
    below nothing.  On a day without rows the recommendations are those of
    the calorie and weight blocks alone. *)
Theorem X7_no_macro_advice_without_intake :
  forall profile goals t,
    Totals.protein t = 0 -> Totals.carbs t = 0 -> Totals.fat t = 0 ->
    macro_rule goals t = []
    /\ pushed profile goals t = (calorie_rule goals t ++ weight_rule profile)%list.
Proof.
  intros profile goals t Hp Hc Hf.
  assert (M : macro_rule goals t = []).
  { unfold macro_rule. rewrite Hp, Hc, Hf.
    destruct (goals ?. target_protein_ratio) as [tp|]; [|reflexivity].
    destruct (goals ?. target_carbs_ratio) as [tc|]; [|reflexivity].
    destruct (goals ?. target_fat_ratio) as [tf|]; [|reflexivity].
    destruct (truthy tp && truthy tc && truthy tf); [|reflexivity].
    assert (E : (0 / (0 + 0 + 0)) * 100 = NaN) by reflexivity.
    rewrite E. reflexivity. }
  split; [exact M|]. unfold pushed. now rewrite M.
Qed.

Lemma X7_no_macro_advice_without_intake_witness :
  macro_rule (Some Examples.default_goals) Totals.zero = []
  /\ pushed None (Some Examples.default_goals) Totals.zero
     = (calorie_rule (Some Examples.default_goals) Totals.zero ++ weight_rule None)%list.
Proof.
  apply (X7_no_macro_advice_without_intake None (Some Examples.default_goals)
           Totals.zero); reflexivity.
Defined.

(** X8.  The weight message looks at the sign of [target - current]: with
    the goal [lose_weight] it is pushed exactly when the current weight is
    below the target, and with [gain_weight] exactly when it is above; a
    user who still has weight to lose, or to gain, gets no weight message. *)
Theorem X8_weight_message_direction :
  forall profile gt w tw,
    opt_chain profile goal_type = Some gt ->
    opt_chain profile weight_kg = Some (Fin w) ->
    opt_chain profile target_weight = Some (Fin tw) ->
    w <> 0%Qc -> tw <> 0%Qc ->
    (gt = "lose_weight" ->
       ((w < tw)%Qc -> weight_rule profile = [weight_loss_message (Fin tw - Fin w)])
       /\ ((tw <= w)%Qc -> weight_rule profile = []))
    /\ (gt = "gain_weight" ->
          ((tw < w)%Qc -> weight_rule profile = [weight_gain_message (Fin tw - Fin w)])
          /\ ((w <= tw)%Qc -> weight_rule profile = [])).
Proof.
  intros profile gt w tw Hg Hw Ht Nw Nt.
  apply truthy_Fin in Nw. apply truthy_Fin in Nt.
  assert (P : forall x y : Qc, (x < y)%Qc <-> (0 < y - x)%Qc)
    by (intros x y; apply Qclt_minus_iff).
  assert (G : gtb (Fin tw - Fin w) 0 = Qcltb 0 (tw - w)) by reflexivity.
  assert (L : ltb (Fin tw - Fin w) 0 = Qcltb (tw - w) 0) by reflexivity.
  assert (NEG : forall x y : Qc, (x < y)%Qc <-> (x - y < 0)%Qc).
  { intros x y. unfold Qclt, Qcminus. rewrite this_plus, this_opp.
    change (this 0%Qc) with 0%Q. split; intro; lra. }
  split; intros ->; unfold weight_rule; rewrite Hg, Hw, Ht, Nw, Nt;
    cbn [truthy_str andb String.eqb Ascii.eqb Bool.eqb]; rewrite ?G, ?L; split; intro H.
  - apply P in H. apply Qcltb_true_iff in H. now rewrite H.
  - assert (E : Qcltb 0 (tw - w) = false).
    { apply Qcltb_false_iff. destruct (Qcle_lt_or_eq _ _ H) as [K | ->].
      - apply NEG in K. now apply Qclt_le_weak.
      - rewrite Qcminus_diag. apply Qcle_refl. }
    now rewrite E.
  - apply NEG in H. apply Qcltb_true_iff in H. now rewrite H.
  - assert (E : Qcltb (tw - w) 0 = false).
    { apply Qcltb_false_iff. destruct (Qcle_lt_or_eq _ _ H) as [K | ->].
      - apply P in K. now apply Qclt_le_weak.
      - rewrite Qcminus_diag. apply Qcle_refl. }
    now rewrite E.
Qed.

Lemma X8_weight_message_direction_witness :
  weight_rule (Some (Examples.losing 80 70)) = [].
Proof.
  apply (proj2 (proj1
           (X8_weight_message_direction (Some (Examples.losing 80 70)) "lose_weight"
              (Q2Qc 80) (Q2Qc 70) eq_refl eq_refl eq_refl
              ltac:(Qc_nonzero) ltac:(Qc_nonzero)) eq_refl)).
  apply Qcleb_true_iff. reflexivity.
Defined.

End RecommendationRules.

Section MacroAdvice.

Import RecommendationCard.







End MacroAdvice.

Section SaveGoals.

Import Validation GoalSetting.









End SaveGoals.

Section FoodListEdits.

Import FoodList.

Lemma same_food_iff (food : Food.t) (item : FoodItem.t) :
  same_food food item = true <-> key item = key (foodWithQuantity food).
Proof.
  unfold same_food, key. cbn [foodWithQuantity FoodItem.name FoodItem.unit].
  rewrite andb_true_iff, !String.eqb_eq. split.
  - intros [-> ->]. reflexivity.
  - intro H. now injection H.
Qed.

Lemma findIndex_None {A : Type} (p : A -> bool) (l : list A) :
  findIndex p l = None <-> forall x, In x l -> p x = false.
Proof.
  induction l as [|a l IH]; cbn.
  - split; [intros _ x []|reflexivity].
  - destruct (p a) eqn:E.
    + split; [discriminate|]. intro H. specialize (H a (or_introl eq_refl)). congruence.
    + split.
      * intros H x [<- | Hx]; [exact E|].
        destruct (findIndex p l); [discriminate|]. now apply IH.
      * intro H. assert (N : findIndex p l = None) by (apply IH; intros x Hx; apply H; now right).
        now rewrite N.
Qed.

Lemma findIndex_Some {A : Type} (p : A -> bool) (l : list A) (i : nat) :
  findIndex p l = Some i ->
  exists l1 x l2, l = (l1 ++ x :: l2)%list /\ List.length l1 = i /\ p x = true
                  /\ forall y, In y l1 -> p y = false.
Proof.
  revert i. induction l as [|a l IH]; cbn; intros i H; [discriminate|].
  destruct (p a) eqn:E.
  - injection H as <-. exists [], a, l. repeat split; try assumption. intros y [].
  - destruct (findIndex p l) as [j|]; cbn in H; [|discriminate].
    injection H as <-. destruct (IH j eq_refl) as (l1 & x & l2 & -> & L & Px & N).
    exists (a :: l1), x, l2. repeat split; cbn; try congruence.
    intros y [<- | Hy]; [exact E|now apply N].
Qed.

Lemma setValue_quantity_at (l1 l2 : list FoodItem.t) (x : FoodItem.t) (v : num) :
  setValue_quantity (List.length l1) v (l1 ++ x :: l2)
  = (l1 ++ with_quantity v x :: l2)%list.
Proof. induction l1 as [|a l1 IH]; cbn; [reflexivity|]. now rewrite IH. Qed.

Lemma getValues_quantity_at (l1 l2 : list FoodItem.t) (x : FoodItem.t) :
  getValues_quantity (List.length l1) (l1 ++ x :: l2) = Some (FoodItem.quantity x).
Proof.
  unfold getValues_quantity. rewrite nth_error_app2 by lia.
  now rewrite Nat.sub_diag.
Qed.

Lemma setValue_quantity_keys (i : nat) (v : num) (items : list FoodItem.t) :
  map key (setValue_quantity i v items) = map key items.
Proof.
  revert i. induction items as [|a l IH]; intros [|i]; cbn; try reflexivity.
  now rewrite IH.
Qed.

Lemma setValue_quantity_length (i : nat) (v : num) (items : list FoodItem.t) :
  List.length (setValue_quantity i v items) = List.length items.
Proof.
  rewrite <- (length_map key), setValue_quantity_keys. apply length_map.
Qed.

Lemma remove_In (i : nat) (items : list FoodItem.t) (x : FoodItem.t) :
  In x (remove i items) -> In x items.
Proof.
  revert i. induction items as [|a l IH]; intros [|i]; cbn; auto.
  intros [<- | H]; [now left|right; now apply (IH i)].
Qed.

Lemma remove_keys_NoDup (i : nat) (items : list FoodItem.t) :
  NoDup (map key items) -> NoDup (map key (remove i items)).
Proof.
  revert i. induction items as [|a l IH]; intros [|i]; cbn; intro H; try exact H.
  - now inversion H.
  - inversion H as [|? ? N D]; subst. constructor; [|now apply IH].
    intro K. apply N. apply in_map_iff in K as (x & E & Hx).
    apply in_map_iff. exists x. split; [exact E|]. now apply (remove_In i).
Qed.

Lemma handleAddFoodItem_keys (food : Food.t) (items : list FoodItem.t) :
  (existsb (same_food food) items = true
   /\ map key (handleAddFoodItem food items) = map key items)
  \/ (existsb (same_food food) items = false
      /\ ~ In (key (foodWithQuantity food)) (map key items)
      /\ handleAddFoodItem food items = (items ++ [foodWithQuantity food])%list).
Proof.
  unfold handleAddFoodItem. destruct (findIndex (same_food food) items) as [i|] eqn:E.
  - left. split; [|apply setValue_quantity_keys].
    apply findIndex_Some in E as (l1 & x & l2 & -> & _ & Px & _).
    apply existsb_exists. exists x. split; [|exact Px].
    apply in_or_app. right. now left.
  - right. pose proof (proj1 (findIndex_None _ _) E) as N. split; [|split].
    + destruct (existsb (same_food food) items) eqn:X; [|reflexivity].
      apply existsb_exists in X as (x & Hx & Px). rewrite (N x Hx) in Px. discriminate.
    + intro K. apply in_map_iff in K as (x & Ex & Hx).
      apply same_food_iff in Ex. rewrite (N x Hx) in Ex. discriminate.
    + reflexivity.
Qed.

Lemma apply_edit_keys_NoDup (items : list FoodItem.t) (e : edit) :
  NoDup (map key items) -> NoDup (map key (apply_edit items e)).
Proof.
  intro H. destruct e as [food | i v | i]; cbn [apply_edit].
  - destruct (handleAddFoodItem_keys food items) as [[_ ->] | (_ & N & ->)];
      [exact H|].
    rewrite map_app. cbn [map]. apply NoDup_app; [exact H| |].
    + constructor; [intros []|constructor].
    + intros k K [<- | []]. exact (N K).
  - now rewrite setValue_quantity_keys.
  - now apply remove_keys_NoDup.
Qed.

(** X12.  However the user edits the food list of the meal form (adding
    foods from the dialogs, typing quantities, removing rows), the list
    never holds two entries with the same name and unit. *)
Theorem X12_food_list_has_no_duplicates :
  forall edits : list edit, NoDup (map key (after_edits edits)).
Proof.
  intro edits. unfold after_edits.
  assert (G : forall items, NoDup (map key items) ->
                NoDup (map key (fold_left apply_edit edits items))).
  { induction edits as [|e edits IH]; intros items H; cbn [fold_left]; [exact H|].
    apply IH. now apply apply_edit_keys_NoDup. }
  apply G. constructor.
Qed.

(** X13.  Adding a food leaves an entry with the name and unit of the food
    in the list, so the list is not empty; the list grows by one entry
    when no entry had that name and unit, and keeps its length
    otherwise. *)
Theorem X13_adding_a_food_grows_the_list_by_at_most_one :
  forall food items,
    In (key (foodWithQuantity food)) (map key (handleAddFoodItem food items))
    /\ handleAddFoodItem food items <> []
    /\ List.length (handleAddFoodItem food items)
       = if existsb (same_food food) items
         then List.length items else S (List.length items).
Proof.
  intros food items.
  assert (K : In (key (foodWithQuantity food)) (map key (handleAddFoodItem food items))).
  { destruct (handleAddFoodItem_keys food items) as [[X ->] | (_ & _ & ->)].
    - apply existsb_exists in X as (x & Hx & Px). apply same_food_iff in Px.
      rewrite <- Px. now apply in_map.
    - rewrite map_app. apply in_or_app. right. now left. }
  split; [exact K|]. split.
  - intro E. rewrite E in K. destruct K.
  - destruct (handleAddFoodItem_keys food items) as [[X E] | (X & _ & E)]; rewrite X.
    + rewrite <- (length_map key), E. apply length_map.
    + rewrite E, length_app. cbn. lia.
Qed.

End FoodListEdits.

Section FoodListTotals.

Import MealLogger FoodList.








End FoodListTotals.

Section FoodListValidity.

Import MealLogger FoodList MealSchemas.


Lemma quantity_sum_valid (q s : num) :
  Validation.number_min (ofQ (1 # 10)) q = true ->
  Validation.number_min (ofQ (1 # 10)) s = true ->
  or_default (Some q) 0 = q
  /\ Validation.number_min (ofQ (1 # 10)) (q + s) = true.
Proof.
  unfold Validation.number_min, geb, ofQ.
  destruct q as [q| | |], s as [s| | |]; cbn [is_NaN negb andb leb add];
    try discriminate; intros Hq Hs.
  - apply Qcleb_true_iff in Hq, Hs. split.
    + unfold or_default, truthy. destruct (Qceqb q 0) eqn:E; [|reflexivity].
      apply Qceqb_true_iff in E. subst q. exfalso.
      unfold Qcle in Hq. rewrite this_Q2Qc in Hq. change (this 0%Qc) with 0%Q in Hq. lra.
    + apply Qcleb_true_iff. unfold Qcle in *. rewrite this_plus.
      rewrite this_Q2Qc in *. lra.
  - apply Qcleb_true_iff in Hq. split; [|reflexivity].
    unfold or_default, truthy. destruct (Qceqb q 0) eqn:E; [|reflexivity].
    apply Qceqb_true_iff in E. subst q. exfalso.
    unfold Qcle in Hq. rewrite this_Q2Qc in Hq. change (this 0%Qc) with 0%Q in Hq. lra.
  - split; reflexivity.
  - split; reflexivity.
Qed.

Lemma with_quantity_valid (v : num) (item : FoodItem.t) :
  foodItemSchema item = true ->
  Validation.number_min (ofQ (1 # 10)) v = true ->
  foodItemSchema (with_quantity v item) = true.
Proof.
  unfold foodItemSchema. cbn [with_quantity FoodItem.name FoodItem.calories
    FoodItem.protein FoodItem.carbs FoodItem.fat FoodItem.quantity FoodItem.unit].
  intros H V. repeat (apply andb_prop in H as [H ?]).
  repeat match goal with
         | K : ?b = true |- context [?b] => rewrite K
         end.
  reflexivity.
Qed.

Lemma foodWithQuantity_valid (food : Food.t) :
  quickAddFoodSchema food = true ->
  foodItemSchema (foodWithQuantity food) = true
  /\ exists s, Food.serving_size food = Some s
               /\ Validation.number_min (ofQ (1 # 10)) s = true.
Proof.
  unfold quickAddFoodSchema, foodItemSchema.
  cbn [foodWithQuantity FoodItem.name FoodItem.calories
    FoodItem.protein FoodItem.carbs FoodItem.fat FoodItem.quantity FoodItem.unit].
  intro H. repeat (apply andb_prop in H as [H ?]).
  destruct (Food.serving_size food) as [s|]; [|discriminate].
  split; [|now exists s].
  repeat match goal with
         | K : ?b = true |- context [?b] => rewrite K
         end.
  reflexivity.
Qed.

(** X15.  Adding a food that the quick-add form accepted to a list of
    valid items gives a list that [mealLogFormSchema] accepts as
    [food_items]: every entry is a valid item, the merged quantity
    included, and there is at least one. *)
Theorem X15_adding_a_valid_food_keeps_the_list_valid :
  forall food items,
    forallb foodItemSchema items = true ->
    quickAddFoodSchema food = true ->
    food_items_ok (handleAddFoodItem food items) = true.
Proof.
  intros food items Hitems Hfood.
  destruct (foodWithQuantity_valid food Hfood) as (Vnew & s & Hs & Vs).
  unfold food_items_ok. apply andb_true_intro. split.
  - unfold handleAddFoodItem.
    destruct (findIndex (same_food food) items) as [i|] eqn:E.
    + destruct (findIndex_Some _ _ _ E) as (l1 & x & l2 & -> & <- & _ & _).
      cbv zeta. rewrite getValues_quantity_at, setValue_quantity_at.
      rewrite forallb_app in Hitems. apply andb_prop in Hitems as [H1 H2].
      cbn [forallb] in H2. apply andb_prop in H2 as [Hx H2].
      assert (Vq : Validation.number_min (ofQ (1 # 10)) (FoodItem.quantity x) = true).
      { unfold foodItemSchema in Hx. repeat (apply andb_prop in Hx as [Hx ?]). assumption. }
      cbn [foodWithQuantity FoodItem.quantity]. rewrite Hs.
      destruct (quantity_sum_valid _ _ Vq Vs) as [-> V].
      rewrite forallb_app. cbn [forallb].
      rewrite H1, H2, (with_quantity_valid _ _ Hx V). reflexivity.
    + rewrite forallb_app. cbn [forallb]. now rewrite Hitems, Vnew.
  - destruct (handleAddFoodItem food items) eqn:E; [|reflexivity].
    exfalso. unfold handleAddFoodItem in E.
    destruct (findIndex (same_food food) items) as [i|] eqn:F.
    + destruct (findIndex_Some _ _ _ F) as (l1 & x & l2 & -> & <- & _ & _).
      rewrite setValue_quantity_at in E. now destruct l1.
    + now destruct items.
Qed.

Lemma X15_adding_a_valid_food_keeps_the_list_valid_witness :
  food_items_ok (handleAddFoodItem oats_again [Examples.item_A; Examples.item_B]) = true.
Proof.
  apply X15_adding_a_valid_food_keeps_the_list_valid; reflexivity.
Defined.

End FoodListValidity.

Section StoredMeals.

Import MealLogger.

(** [handleSubmit] either leaves the store as it is or appends one meal
    row of the signed-in user and the rows of its food items. *)
Lemma handleSubmit_cases (user : option string) (now1 now2 : Z) (data : MealForm.t)
    (db : Store.t) :
  handleSubmit user now1 now2 data db = db
  \/ exists uid,
       user = Some uid /\ MealForm.food_items data <> []
       /\ handleSubmit user now1 now2 data db
          = {| Store.meal_logs :=
                 Store.meal_logs db
                 ++ [meal_log_row (Store.fresh_id db)
                       (completeMealData uid now2 (mealData_of uid now1 data))];
               Store.meal_food_items :=
                 Store.meal_food_items db
                 ++ map (food_item_row (Store.fresh_id db)) (MealForm.food_items data) |}.
Proof.
  unfold handleSubmit. destruct (MealSchemas.mealLogFormSchema data); [|now left].
  unfold onSubmit, onSubmit_try. destruct user as [uid|]; [|now left].
  destruct (signed_in (Some uid)) eqn:S; cbn [negb]; [|now left].
  destruct (MealForm.food_items data) as [|item items] eqn:E; [now left|].
  cbn [List.length Nat.eqb]. unfold submitMealLog. rewrite S. cbn [negb].
  destruct (MealSchemas.mealLogSchema _); cbn [negb]; [|now left].
  right. exists uid. split; [reflexivity|]. split; [discriminate|].
  unfold logMeal. cbn [completeMealData mealData_of MealLogData.food_items].
  rewrite E. cbn [map List.length Nat.ltb Nat.leb].
  cbn [Store.meal_logs Store.meal_food_items].
  rewrite !copy_item_id, !map_copy_item. reflexivity.
Qed.


Lemma submit_keeps_references (db : Store.t) (s : submission) :
  ((forall r, In r (Store.meal_food_items db) ->
      exists m, In m (Store.meal_logs db) /\ Store.id m = Store.meal_log_id r)
   /\ (forall m, In m (Store.meal_logs db) ->
         exists r, In r (Store.meal_food_items db) /\ Store.meal_log_id r = Store.id m)) ->
  (forall r, In r (Store.meal_food_items (submit db s)) ->
     exists m, In m (Store.meal_logs (submit db s)) /\ Store.id m = Store.meal_log_id r)
  /\ (forall m, In m (Store.meal_logs (submit db s)) ->
        exists r, In r (Store.meal_food_items (submit db s))
                  /\ Store.meal_log_id r = Store.id m).
Proof.
  intros [A B]. unfold submit.
  destruct (handleSubmit_cases (sub_user s) (sub_now1 s) (sub_now2 s) (sub_data s) db)
    as [-> | (uid & _ & N & ->)]; [now split|].
  cbn [Store.meal_logs Store.meal_food_items]. split.
  - intros r Hr. apply in_app_or in Hr as [Hr | Hr].
    + destruct (A r Hr) as (m & Hm & E). exists m. split; [|exact E].
      apply in_or_app. now left.
    + apply in_map_iff in Hr as (item & <- & _).
      eexists. split; [apply in_or_app; right; now left|reflexivity].
  - intros m Hm. apply in_app_or in Hm as [Hm | [<- | []]].
    + destruct (B m Hm) as (r & Hr & E). exists r. split; [|exact E].
      apply in_or_app. now left.
    + destruct (MealForm.food_items (sub_data s)) as [|item items]; [now contradiction N|].
      exists (food_item_row (Store.fresh_id db) item). split; [|reflexivity].
      apply in_or_app. right. now left.
Qed.

(** X17.  After any series of presses of [Log Meal], by whichever users
    and with whatever data, the two tables agree (inserts succeeding, as
    the store has them): every stored food row carries the id of a stored
    meal row, and every stored meal row has at least one food row. *)
Theorem X17_food_rows_and_meal_rows_agree :
  forall l : list submission,
    (forall r, In r (Store.meal_food_items (after_submissions l)) ->
       exists m, In m (Store.meal_logs (after_submissions l))
                 /\ Store.id m = Store.meal_log_id r)
    /\ (forall m, In m (Store.meal_logs (after_submissions l)) ->
          exists r, In r (Store.meal_food_items (after_submissions l))
                    /\ Store.meal_log_id r = Store.id m).
Proof.
  intro l. unfold after_submissions.
  assert (G : forall db,
    ((forall r, In r (Store.meal_food_items db) ->
        exists m, In m (Store.meal_logs db) /\ Store.id m = Store.meal_log_id r)
     /\ (forall m, In m (Store.meal_logs db) ->
           exists r, In r (Store.meal_food_items db) /\ Store.meal_log_id r = Store.id m)) ->
    (forall r, In r (Store.meal_food_items (fold_left submit l db)) ->
       exists m, In m (Store.meal_logs (fold_left submit l db))
                 /\ Store.id m = Store.meal_log_id r)
    /\ (forall m, In m (Store.meal_logs (fold_left submit l db)) ->
          exists r, In r (Store.meal_food_items (fold_left submit l db))
                    /\ Store.meal_log_id r = Store.id m)).
  { induction l as [|s l IH]; intros db H; cbn [fold_left]; [exact H|].
    apply IH. now apply submit_keeps_references. }
  apply G. split; intros x [].
Qed.

End StoredMeals.

Section RoundTrip.

Local Open Scope Z_scope.

Lemma civil_of_doe_day (era doe y m d : Z) :
  0 <= doe < 146097 ->
  civil_of_doe era doe = (y, m, d) ->
  d <= days_in_month y m.
Proof.
  intros H E. unfold civil_of_doe in E.
  set (yoe := (doe - doe / 1460 + doe / 36524 - doe / 146096) / 365) in *.
  set (doy := doe - (365 * yoe + yoe / 4 - yoe / 100)) in *.
  set (mp := (5 * doy + 2) / 153) in *.
  assert (Hy : 0 <= yoe <= 399) by (subst yoe; Z.div_mod_to_equations; lia).
  assert (Hd : 0 <= doy <= 365) by (subst doy yoe; Z.div_mod_to_equations; lia).
  assert (Hl : doy = 365 -> (yoe + 1) mod 4 = 0
                            /\ ((yoe + 1) mod 100 <> 0 \/ (yoe + 1) mod 400 = 0))
    by (subst doy yoe; Z.div_mod_to_equations; lia).
  assert (Hm : 0 <= mp <= 11) by (subst mp; Z.div_mod_to_equations; lia).
  assert (Hdm : 153 * mp <= 5 * doy + 2 < 153 * mp + 153)
    by (subst mp; Z.div_mod_to_equations; lia).
  clearbody mp doy yoe.
  assert (C : mp = 0 \/ mp = 1 \/ mp = 2 \/ mp = 3 \/ mp = 4 \/ mp = 5 \/ mp = 6
              \/ mp = 7 \/ mp = 8 \/ mp = 9 \/ mp = 10 \/ mp = 11) by lia.
  unfold days_in_month.
  destruct C as [-> | [-> | [-> | [-> | [-> | [-> | [-> | [-> | [-> | [-> | [-> | ->]]]]]]]]]]];
    cbn in E; injection E as <- <- <-; cbn; try lia.
  unfold is_leap.
  destruct (Z.eq_dec doy 365) as [D | D].
  - destruct (Hl D) as [L4 L].
    replace ((yoe + era * 400 + 1) mod 4) with ((yoe + 1) mod 4)
      by (Z.div_mod_to_equations; lia).
    replace ((yoe + era * 400 + 1) mod 100) with ((yoe + 1) mod 100)
      by (Z.div_mod_to_equations; lia).
    replace ((yoe + era * 400 + 1) mod 400) with ((yoe + 1) mod 400)
      by (Z.div_mod_to_equations; lia).
    rewrite L4. cbn [Z.eqb andb].
    destruct L as [L | L].
    + destruct ((yoe + 1) mod 100 =? 0) eqn:X; [apply Z.eqb_eq in X; contradiction|].
      cbn. lia.
    + rewrite L. cbn. rewrite orb_true_r. lia.
  - destruct (_ && _); lia.
Qed.

Lemma digit_digit_char (d : Z) : 0 <= d <= 9 -> digit (digit_char d) = Some d.
Proof.
  intro H. unfold digit. rewrite digit_char_code by exact H.
  rewrite Z2N.id by lia.
  replace ((48 <=? 48 + d) && (48 + d <=? 57)) with true
    by (symmetry; apply andb_true_intro; split; apply Z.leb_le; lia).
  f_equal. lia.
Qed.

Lemma digit_mod10 (n : Z) : digit (digit_char (n mod 10)) = Some (n mod 10).
Proof. apply digit_digit_char, mod10_range. Qed.

Lemma read_pad2 (n : Z) (k : string) :
  0 <= n <= 99 -> read_digits 2 0 (pad2 n k) = Some (n, k).
Proof.
  intro H. unfold pad2. cbn [read_digits]. rewrite !digit_mod10.
  do 2 f_equal. Z.div_mod_to_equations. lia.
Qed.

Lemma read_pad4 (n : Z) (k : string) :
  0 <= n <= 9999 -> read_digits 4 0 (pad4 n k) = Some (n, k).
Proof.
  intro H. unfold pad4, pad3, pad2. cbn [read_digits]. rewrite !digit_mod10.
  do 2 f_equal. Z.div_mod_to_equations. lia.
Qed.

Lemma read_fraction_pad3 (n : Z) :
  0 <= n <= 999 -> read_fraction (pad3 n "Z") = Some (n, "Z"%string).
Proof.
  intro H. unfold pad3, pad2. cbn [read_fraction]. rewrite !digit_mod10.
  cbn [skip_digits]. change (digit "Z") with (@None Z). cbv iota.
  do 2 f_equal. Z.div_mod_to_equations. lia.
Qed.

Lemma days_of_year_range (y m d : Z) :
  0 <= y <= 9999 -> 1 <= m <= 12 -> 1 <= d <= 31 ->
  -1000000 <= days_from_civil y m d <= 3000000.
Proof.
  intros Hy Hm Hd. unfold days_from_civil.
  destruct (m <=? 2); Z.div_mod_to_equations; lia.
Qed.

Lemma utc_date_day (t y m d : Z) :
  utc_date t = (y, m, d) ->
  1 <= m <= 12 /\ 1 <= d <= days_in_month y m /\ d <= 31
  /\ days_from_civil y m d = t / msPerDay.
Proof.
  intro E. unfold utc_date in E.
  pose proof (days_from_civil_from_days (t / msPerDay)) as R. rewrite E in R.
  unfold civil_from_days in E.
  assert (B : 0 <= (t / msPerDay + 719468) mod 146097 < 146097)
    by (apply Z.mod_pos_bound; lia).
  pose proof (civil_of_doe_range ((t / msPerDay + 719468) / 146097) _ B) as G.
  rewrite E in G.
  pose proof (civil_of_doe_day _ _ _ _ _ B E) as D.
  repeat split; lia.
Qed.

Lemma Date_parse_format_iso (t y m d : Z) :
  utc_date t = (y, m, d) -> 0 <= y <= 9999 ->
  Date_parse (format_iso t) = Some t.
Proof.
  intros E Hy. destruct (utc_date_day t y m d E) as (Hm & Hd & Hd31 & Hday).
  assert (Ht : t = (t / msPerDay) * msPerDay + t mod msPerDay)
    by (unfold msPerDay; Z.div_mod_to_equations; lia).
  assert (Htod : 0 <= t mod msPerDay < msPerDay)
    by (apply Z.mod_pos_bound; unfold msPerDay; lia).
  pose proof (days_of_year_range y m d Hy Hm ltac:(lia)) as Hrange.
  unfold format_iso. rewrite E. set (tod := t mod msPerDay) in *.
  unfold date_string, year_string.
  replace ((0 <=? y) && (y <=? 9999)) with true
    by (symmetry; apply andb_true_intro; split; apply Z.leb_le; lia).
  unfold Date_parse, opt_bind.
  rewrite read_pad4 by lia. cbn [fst snd expect Ascii.eqb Bool.eqb].
  rewrite read_pad2 by lia. cbn [fst snd expect Ascii.eqb Bool.eqb].
  rewrite read_pad2 by lia. cbn [fst snd].
  replace ((1 <=? m) && (m <=? 12) && (1 <=? d) && (d <=? days_in_month y m)) with true
    by (symmetry; repeat (apply andb_true_intro; split); apply Z.leb_le; lia).
  cbn [negb].
  assert (H1 : 0 <= tod / 3600000 <= 23)
    by (unfold msPerDay in *; Z.div_mod_to_equations; lia).
  assert (H2 : 0 <= tod / 60000 mod 60 <= 59)
    by (Z.div_mod_to_equations; lia).
  assert (H3 : 0 <= tod / 1000 mod 60 <= 59)
    by (Z.div_mod_to_equations; lia).
  assert (H4 : 0 <= tod mod 1000 <= 999)
    by (Z.div_mod_to_equations; lia).
  rewrite read_pad2 by lia. cbn [fst snd expect Ascii.eqb Bool.eqb].
  rewrite read_pad2 by lia. cbn [fst snd].
  unfold read_seconds, opt_bind.
  rewrite read_pad2 by lia. cbn [fst snd].
  rewrite read_fraction_pad3 by lia. cbn [fst snd read_offset].
  replace ((tod / 3600000 <=? 23) && (tod / 60000 mod 60 <=? 59)
           && (tod / 1000 mod 60 <=? 59)) with true
    by (symmetry; repeat (apply andb_true_intro; split); apply Z.leb_le; lia).
  rewrite Hday.
  replace (t / msPerDay * msPerDay + tod / 3600000 * 3600000
           + tod / 60000 mod 60 * 60000 + tod / 1000 mod 60 * 1000
           + tod mod 1000 - 0 * 60000) with t
    by (unfold msPerDay in *; Z.div_mod_to_equations; lia).
  unfold TimeClip, valid_time.
  replace (Z.abs t <=? maxTime) with true; [reflexivity|].
  symmetry. apply Z.leb_le. unfold maxTime, msPerDay in *. lia.
Qed.

(** X18.  The timestamps the meal logger writes are read back by the
    dashboards as the instant they were written at: for a time value [t]
    in the years 0 to 9999, [Date.parse] of [toISOString] of [t] is [t],
    so a row stamped at [t] is among today's rows exactly when [t] and the
    clock fall on the same UTC calendar date, and the filter never throws
    on it. *)
Theorem X18_written_timestamps_are_read_back :
  forall t y m d,
    utc_date t = (y, m, d) -> 0 <= y <= 9999 ->
    Date_parse (format_iso t) = Some t
    /\ forall now log,
         valid_time now = true ->
         MealLog.created_at log = format_iso t ->
         (is_today now log = Ok true <-> utc_date t = utc_date now)
         /\ (is_today now log = Ok false <-> utc_date t <> utc_date now).
Proof.
  intros t y m d E Hy.
  pose proof (Date_parse_format_iso t y m d E Hy) as P.
  split; [exact P|]. intros now log V C.
  pose proof (Date_parse_valid _ _ P) as Vt.
  unfold is_today, iso_day_of_string, today, iso_day_of_now. rewrite C, P.
  cbn [toISOString bind].
  destruct (String.eqb (split_T_0 (format_iso t)) (split_T_0 (format_iso now))) eqn:Q.
  - apply String.eqb_eq in Q. apply (iso_day_eq_iff t now Vt V) in Q.
    split; split; try reflexivity; try discriminate; intros; try assumption.
    contradiction.
  - apply String.eqb_neq in Q.
    assert (N : utc_date t <> utc_date now)
      by (intro K; apply Q; now apply (iso_day_eq_iff t now Vt V)).
    split; split; try reflexivity; try discriminate; intros; try assumption.
    contradiction.
Qed.

Lemma X18_written_timestamps_are_read_back_witness :
  Date_parse (format_iso Examples.noon_1_May_2024) = Some Examples.noon_1_May_2024
  /\ forall now log,
       valid_time now = true ->
       MealLog.created_at log = format_iso Examples.noon_1_May_2024 ->
       (is_today now log = Ok true <-> utc_date Examples.noon_1_May_2024 = utc_date now)
       /\ (is_today now log = Ok false
           <-> utc_date Examples.noon_1_May_2024 <> utc_date now).
Proof.
  apply (X18_written_timestamps_are_read_back Examples.noon_1_May_2024 2024 5 1).
  - reflexivity.
  - lia.
Defined.

End RoundTrip.

Section AfterOnboarding.

Import Onboarding ProfileCompletionCheck.

Variable name_format : string -> bool.

Lemma number_between_Fin (lo hi : Qc) (v : num) :
  number_between (Fin lo) (Fin hi) v = true ->
  exists q, v = Fin q /\ (lo <= q)%Qc /\ (q <= hi)%Qc.
Proof.
  unfold number_between, geb. destruct v as [q| | |]; cbn; try discriminate.
  intro H. apply andb_prop in H as [H1 H2].
  apply Qcleb_true_iff in H1, H2. now exists q.
Qed.

Lemma optional_number_between_Fin (lo hi : Qc) (v : num) :
  Validation.optional_number_between (Fin lo) (Fin hi) (Some v) = true ->
  exists q, v = Fin q /\ (lo <= q)%Qc /\ (q <= hi)%Qc.
Proof. exact (number_between_Fin lo hi v). Qed.

Lemma z_enum_truthy (values : list string) (s : string) :
  forallb (fun v => negb (String.eqb v "")) values = true ->
  z_enum values s = true -> truthy_str (Some s) = true.
Proof.
  intros Hv H. unfold z_enum in H. apply existsb_exists in H as (v & Hin & E).
  apply String.eqb_eq in E. subst v.
  rewrite forallb_forall in Hv. specialize (Hv s Hin).
  destruct s; [discriminate Hv|reflexivity].
Qed.

Lemma string_between_truthy (lo hi : nat) (s : string) :
  (1 <= lo)%nat -> string_between lo hi s = true -> truthy_str (Some s) = true.
Proof.
  intros Hlo H. unfold string_between in H. apply andb_prop in H as [H _].
  apply Nat.leb_le in H. destruct s; [cbn in H; lia|reflexivity].
Qed.

Lemma positive_truthy (lo q : Qc) : (0 < lo)%Qc -> (lo <= q)%Qc -> truthy (Fin q) = true.
Proof.
  intros Hlo H. apply truthy_Fin. intros ->.
  unfold Qclt, Qcle in *. lra.
Qed.

Lemma onboardingObject_fields (data : OnboardingForm.t) :
  onboardingObject name_format data = true ->
  truthy_str (Some (OnboardingForm.full_name data)) = true
  /\ truthy (OnboardingForm.age data) = true
  /\ truthy_str (Some (OnboardingForm.gender data)) = true
  /\ truthy_str (Some (OnboardingForm.profession data)) = true
  /\ truthy (OnboardingForm.height_cm data) = true
  /\ truthy_str (Some (OnboardingForm.activity_level data)) = true
  /\ truthy_str (Some (OnboardingForm.fitness_level data)) = true
  /\ truthy_str (Some (OnboardingForm.goal_type data)) = true
  /\ (exists w, OnboardingForm.weight_kg data = Fin w /\ (Q2Qc 20 <= w)%Qc)
  /\ (forall t, OnboardingForm.target_weight data = Some t ->
        exists q, t = Fin q /\ (Q2Qc 20 <= q)%Qc)
  /\ (forall s, OnboardingForm.sleep_goal data = Some s ->
        exists q, s = Fin q /\ (Q2Qc 4 <= q)%Qc).
Proof.
  unfold onboardingObject. intro H.
  repeat match type of H with
         | (_ && _) = true => let K := fresh "K" in apply andb_prop in H as [H K]
         end.
  assert (P20 : (0 < Q2Qc 20)%Qc) by (apply Qcltb_true_iff; reflexivity).
  assert (P10 : (0 < Q2Qc 10)%Qc) by (apply Qcltb_true_iff; reflexivity).
  assert (P50 : (0 < Q2Qc 50)%Qc) by (apply Qcltb_true_iff; reflexivity).
  repeat split.
  - apply (string_between_truthy 2 50); [lia|assumption].
  - match goal with
    | K : number_between 10 120 _ = true |- _ =>
        apply (number_between_Fin (Q2Qc 10) (Q2Qc 120)) in K as (q & -> & L & _)
    end.
    now apply (positive_truthy (Q2Qc 10)).
  - eapply z_enum_truthy; [|eassumption]. reflexivity.
  - apply (string_between_truthy 2 100); [lia|assumption].
  - match goal with
    | K : number_between 50 250 _ = true |- _ =>
        apply (number_between_Fin (Q2Qc 50) (Q2Qc 250)) in K as (q & -> & L & _)
    end.
    now apply (positive_truthy (Q2Qc 50)).
  - eapply z_enum_truthy; [|eassumption]. reflexivity.
  - eapply z_enum_truthy; [|eassumption]. reflexivity.
  - eapply z_enum_truthy; [|eassumption]. reflexivity.
  - match goal with
    | K : number_between 20 300 _ = true |- _ =>
        apply (number_between_Fin (Q2Qc 20) (Q2Qc 300)) in K as (q & -> & L & _)
    end.
    now exists q.
  - intros t E.
    match goal with
    | K : Validation.optional_number_between 20 300 _ = true |- _ =>
        rewrite E in K;
        apply (optional_number_between_Fin (Q2Qc 20) (Q2Qc 300)) in K as (q & -> & L & _)
    end.
    now exists q.
  - intros s E.
    match goal with
    | K : Validation.optional_number_between 4 12 _ = true |- _ =>
        rewrite E in K;
        apply (optional_number_between_Fin (Q2Qc 4) (Q2Qc 12)) in K as (q & -> & L & _)
    end.
    now exists q.
Qed.

Lemma Qcminus_nonpos (x y : Qc) : (x < y)%Qc -> (x + - y <= 0)%Qc.
Proof.
  unfold Qclt, Qcle. rewrite this_plus, this_opp. change (this 0%Qc) with 0%Q. lra.
Qed.

Lemma or_default_truthy (v : option num) (d : num) :
  truthy d = true -> truthy (or_default v d) = true.
Proof.
  intro H. unfold or_default. destruct v as [x|]; [|exact H].
  destruct (truthy x) eqn:E; [exact E|exact H].
Qed.

Lemma str_or_truthy (s d : string) : truthy_str (Some s) = true -> str_or s d = s.
Proof. unfold str_or. now intros ->. Qed.

(** X19.  A profile saved by the onboarding form is complete but for the
    work hours: for data that [onboardingSchema] accepts,
    [ProfileCompletionCheck] reports no missing field when the average
    work hours are a non-zero number, and exactly [Work Hours] when they
    are 0 or [NaN]. *)
Theorem X19_onboarded_profile_misses_only_work_hours :
  forall uid averageWorkHours now data,
    onboardingSchema name_format data = true ->
    missing (profileData uid averageWorkHours now data)
    = if truthy averageWorkHours then [] else ["Work Hours"].
Proof.
  intros uid avg now data H. unfold onboardingSchema in H.
  apply andb_prop in H as [H _].
  destruct (onboardingObject_fields data H)
    as (F1 & F2 & F3 & F4 & F5 & F6 & F7 & F8 & (w & Ew & Lw) & _ & _).
  unfold missing, profileData.
  cbn [ProfileRow.full_name ProfileRow.age ProfileRow.gender ProfileRow.profession
       ProfileRow.work_hours ProfileRow.height_cm ProfileRow.weight_kg
       ProfileRow.activity_level ProfileRow.dietary_restrictions ProfileRow.allergies
       ProfileRow.medical_conditions ProfileRow.fitness_level ProfileRow.goal_type
       ProfileRow.sleep_goal truthy_array truthy_opt].
  rewrite !str_or_truthy by assumption.
  rewrite F1, F2, F3, F4, F5, F6, F7, F8.
  rewrite (or_default_truthy _ 8) by reflexivity.
  rewrite Ew.
  assert (Tw : truthy (Fin w) = true).
  { apply (positive_truthy (Q2Qc 20)); [|exact Lw]. apply Qcltb_true_iff. reflexivity. }
  rewrite Tw. unfold unless. cbn [app].
  destruct (truthy avg); reflexivity.
Qed.

(** X20.  The onboarding form only lets a weight-loss goal through with a
    target below the current weight, and for the profile it then saves
    (no target weight among the goals) the progress tracker shows 0% and
    the recommendation card has no weight message. *)
Theorem X20_onboarded_weight_loss_starts_at_zero :
  forall uid averageWorkHours now data goals t,
    onboardingSchema name_format data = true ->
    OnboardingForm.goal_type data = "lose_weight" ->
    OnboardingForm.target_weight data = Some t ->
    goals ?. target_weight_kg = None ->
    ltb t (OnboardingForm.weight_kg data) = true
    /\ ProgressTracker.calculateWeightProgress
         (Some (as_profile (profileData uid averageWorkHours now data))) goals = 0
    /\ RecommendationCard.weight_rule
         (Some (as_profile (profileData uid averageWorkHours now data))) = [].
Proof.
  intros uid avg now data goals t H G T NG. unfold onboardingSchema in H.
  apply andb_prop in H as [H R].
  destruct (onboardingObject_fields data H)
    as (_ & _ & _ & _ & _ & _ & _ & _ & (w & Ew & Lw) & Ft & _).
  destruct (Ft t T) as (q & -> & Lq).
  assert (P20 : (0 < Q2Qc 20)%Qc) by (apply Qcltb_true_iff; reflexivity).
  assert (Tw : truthy (Fin w) = true) by now apply (positive_truthy (Q2Qc 20)).
  assert (Tq : truthy (Fin q) = true) by now apply (positive_truthy (Q2Qc 20)).
  unfold target_weight_refinement in R. rewrite T, G, Tq, Ew in R.
  cbn [String.eqb Ascii.eqb Bool.eqb andb] in R.
  assert (Lt : (q < w)%Qc) by now apply Qcltb_true_iff.
  split; [now rewrite Ew|].
  set (profile := as_profile (profileData uid avg now data)).
  assert (Pg : Some profile ?. goal_type = Some "lose_weight").
  { cbn. now rewrite G. }
  assert (Pw : Some profile ?. weight_kg = Some (Fin w)).
  { cbn. now rewrite Ew. }
  assert (Pt : Some profile ?. target_weight = Some (Fin q)).
  { cbn. rewrite T. unfold num_or_null. cbn [truthy_opt]. now rewrite Tq. }
  split.
  - apply (lose_weight_above_target (Some profile) goals w q).
    + unfold ProgressTracker.goalType. now rewrite Pg.
    + unfold ProgressTracker.currentWeight, or_default. now rewrite Pw, Tw.
    + unfold ProgressTracker.targetWeight, or_else. rewrite NG, Pt.
      cbn [truthy_opt]. unfold or_default. now rewrite Tq.
    + now apply truthy_Fin.
    + now apply truthy_Fin.
    + exact Lt.
  - unfold RecommendationCard.weight_rule. rewrite Pg, Pw, Pt, Tw, Tq.
    cbn [truthy_str andb String.eqb Ascii.eqb Bool.eqb].
    assert (N : gtb (Fin q - Fin w) 0 = false).
    { unfold gtb. cbn [sub neg add ltb]. apply Qcltb_false_iff.
      now apply Qcminus_nonpos. }
    now rewrite N.
Qed.

End AfterOnboarding.

Lemma X19_onboarded_profile_misses_only_work_hours_witness :
  ProfileCompletionCheck.missing
    (Onboarding.profileData "user-1" 0 Examples.noon_1_May_2024
       (Onboarding.onboarding_to_lose 80 70))
  = ["Work Hours"].
Proof.
  apply (X19_onboarded_profile_misses_only_work_hours Onboarding.name_format_ascii
           "user-1" 0 Examples.noon_1_May_2024 (Onboarding.onboarding_to_lose 80 70)).
  reflexivity.
Defined.

Lemma X20_onboarded_weight_loss_starts_at_zero_witness :
  ltb 70 80 = true
  /\ ProgressTracker.calculateWeightProgress
       (Some (Onboarding.as_profile
                (Onboarding.profileData "user-1" 2 Examples.noon_1_May_2024
                   (Onboarding.onboarding_to_lose 80 70)))) None = 0
  /\ RecommendationCard.weight_rule
       (Some (Onboarding.as_profile
                (Onboarding.profileData "user-1" 2 Examples.noon_1_May_2024
                   (Onboarding.onboarding_to_lose 80 70)))) = [].
Proof.
  apply (X20_onboarded_weight_loss_starts_at_zero Onboarding.name_format_ascii
           "user-1" 2 Examples.noon_1_May_2024 (Onboarding.onboarding_to_lose 80 70)
           None 70); reflexivity.
Defined.

Section DashboardGoals.

Import GoalSetting Dashboard.












End DashboardGoals.

Section DashboardNutrition.

Import MealLogger Dashboard.

Lemma nutrition_snoc (meals : list Store.meal_logs_row) (meal : Store.meal_logs_row) :
  nutrition (meals ++ [meal]) = add_meal (nutrition meals) meal.
Proof. unfold nutrition. now rewrite fold_left_app. Qed.

Lemma or_default_number (x : num) :
  Validation.number_min 0 x = true -> or_default (Some x) 0 = x.
Proof.
  unfold Validation.number_min, or_default, truthy.
  destruct x as [q| | |]; cbn; try discriminate; try reflexivity.
  intros _. destruct (Qceqb q 0) eqn:E; [|reflexivity].
  apply Qceqb_true_iff in E. now subst q.
Qed.

(** X23.  What the dashboard shows after a meal is logged.  For a
    signed-in user and a form that [mealLogFormSchema] accepts, with
    finite numbers, the nutrition the dashboard fetches grows by the
    totals of the meal when the form's [meal_date] is today's UTC date,
    and does not change otherwise; the nutrition of any other user does
    not change. *)
Theorem X23_dashboard_counts_meals_dated_today :
  forall uid now1 now2 data db now,
    signed_in (Some uid) = true ->
    MealSchemas.mealLogFormSchema data = true ->
    forallb Spec.finite_item (MealForm.food_items data) = true ->
    fetched_nutrition uid now (handleSubmit (Some uid) now1 now2 data db)
    = (if String.eqb (MealForm.meal_date data) (iso_day_of_now now)
       then add_totals (fetched_nutrition uid now db)
              (totalNutrition (MealForm.food_items data))
       else fetched_nutrition uid now db)
    /\ forall other,
         other <> uid ->
         fetched_nutrition other now (handleSubmit (Some uid) now1 now2 data db)
         = fetched_nutrition other now db.
Proof.
  intros uid now1 now2 data db now Hu Hf Hfin.
  pose proof (valid_form_is_accepted uid now1 now2 data Hu Hf Hfin) as V.
  rewrite (handleSubmit_stores uid now1 now2 data db Hu Hf Hfin).
  unfold fetched_nutrition, meals_of_today. cbn [Store.meal_logs].
  split.
  - rewrite filter_app. cbn [filter meal_log_row Store.user_id Store.meal_date
      completeMealData mealData_of MealLogData.user_id MealLogData.meal_date].
    rewrite String.eqb_refl. cbn [andb].
    destruct (String.eqb (MealForm.meal_date data) (iso_day_of_now now)).
    + rewrite nutrition_snoc. unfold add_meal, add_totals.
      cbn [meal_log_row Store.total_calories Store.total_protein Store.total_carbs
           Store.total_fat completeMealData mealData_of MealLogData.total_calories
           MealLogData.total_protein MealLogData.total_carbs MealLogData.total_fat].
      unfold MealSchemas.mealLogSchema in V.
      cbn [completeMealData mealData_of MealLogData.total_calories
           MealLogData.total_protein MealLogData.total_carbs MealLogData.total_fat] in V.
      repeat match type of V with
             | (_ && _) = true => let K := fresh "K" in apply andb_prop in V as [V K]
             end.
      rewrite !or_default_number by assumption. reflexivity.
    + now rewrite app_nil_r.
  - intros other N. rewrite filter_app.
    cbn [filter meal_log_row Store.user_id completeMealData mealData_of
         MealLogData.user_id].
    assert (E : String.eqb uid other = false) by (apply String.eqb_neq; congruence).
    rewrite E. cbn [andb]. now rewrite app_nil_r.
Qed.

Lemma X23_dashboard_counts_meals_dated_today_witness :
  fetched_nutrition "user-1" Examples.noon_1_May_2024
    (handleSubmit (Some "user-1") Examples.noon_1_May_2024 Examples.noon_1_May_2024
       Examples.meal_A_B Store.empty)
  = (if String.eqb (MealForm.meal_date Examples.meal_A_B)
          (iso_day_of_now Examples.noon_1_May_2024)
     then add_totals (fetched_nutrition "user-1" Examples.noon_1_May_2024 Store.empty)
            (totalNutrition (MealForm.food_items Examples.meal_A_B))
     else fetched_nutrition "user-1" Examples.noon_1_May_2024 Store.empty)
  /\ forall other,
       other <> "user-1" ->
       fetched_nutrition other Examples.noon_1_May_2024
         (handleSubmit (Some "user-1") Examples.noon_1_May_2024
            Examples.noon_1_May_2024 Examples.meal_A_B Store.empty)
       = fetched_nutrition other Examples.noon_1_May_2024 Store.empty.
Proof.
  apply (X23_dashboard_counts_meals_dated_today "user-1" Examples.noon_1_May_2024
           Examples.noon_1_May_2024 Examples.meal_A_B Store.empty
           Examples.noon_1_May_2024); reflexivity.
Defined.

End DashboardNutrition.

Section SearchedFoods.

Import MealLogger FoodList FoodSearch.





End SearchedFoods.

Section UniquePreviousFoods.

Import FoodSearch.

Variable toLowerCase : string -> string.

Lemma same_name_In (current : PreviousFoodItem.t) (acc : list PreviousFoodItem.t) :
  existsb (same_name toLowerCase current) acc = true
  <-> In (lower_name toLowerCase current) (map (lower_name toLowerCase) acc).
Proof.
  rewrite existsb_exists, in_map_iff. unfold same_name, lower_name.
  split; intros (x & A & B).
  - exists x. apply String.eqb_eq in B. now split.
  - exists x. split; [exact B|]. now apply String.eqb_eq.
Qed.

Lemma keep_first_NoDup (acc : list PreviousFoodItem.t) (current : PreviousFoodItem.t) :
  NoDup (map (lower_name toLowerCase) acc) ->
  NoDup (map (lower_name toLowerCase) (keep_first toLowerCase acc current)).
Proof.
  intro H. unfold keep_first.
  destruct (existsb (same_name toLowerCase current) acc) eqn:E; [exact H|].
  rewrite map_app. cbn [map]. apply NoDup_app; [exact H| |].
  - constructor; [intros []|constructor].
  - intros k K [<- | []]. apply same_name_In in K. congruence.
Qed.

Lemma keep_first_In (acc : list PreviousFoodItem.t) (current x : PreviousFoodItem.t) :
  (In x (keep_first toLowerCase acc current) -> In x acc \/ x = current)
  /\ (In x acc -> In x (keep_first toLowerCase acc current))
  /\ In (lower_name toLowerCase current)
       (map (lower_name toLowerCase) (keep_first toLowerCase acc current)).
Proof.
  unfold keep_first.
  destruct (existsb (same_name toLowerCase current) acc) eqn:E.
  - repeat split; auto. now apply same_name_In.
  - repeat split.
    + intro H. apply in_app_or in H as [H | [<- | []]]; auto.
    + intro H. apply in_or_app. now left.
    + rewrite map_app. apply in_or_app. right. now left.
Qed.

Lemma fold_keep_first (l acc : list PreviousFoodItem.t) :
  (NoDup (map (lower_name toLowerCase) acc) ->
   NoDup (map (lower_name toLowerCase) (fold_left (keep_first toLowerCase) l acc)))
  /\ (forall x, In x (fold_left (keep_first toLowerCase) l acc) -> In x acc \/ In x l)
  /\ (forall x, In x acc -> In x (fold_left (keep_first toLowerCase) l acc))
  /\ (forall x, In x l ->
        In (lower_name toLowerCase x)
          (map (lower_name toLowerCase) (fold_left (keep_first toLowerCase) l acc))).
Proof.
  revert acc. induction l as [|a l IH]; intro acc; cbn [fold_left].
  - repeat split; auto. intros x [].
  - destruct (IH (keep_first toLowerCase acc a)) as (I1 & I2 & I3 & I4). repeat split.
    + intro H. apply I1. now apply keep_first_NoDup.
    + intros x H. apply I2 in H as [H | H]; [|right; now right].
      apply (keep_first_In acc a x) in H as [H | ->]; [now left|right; now left].
    + intros x H. apply I3. now apply (keep_first_In acc a x).
    + intros x [<- | H]; [|now apply I4].
      destruct (keep_first_In acc a a) as (_ & _ & K).
      apply in_map_iff in K as (y & E & Hy). apply in_map_iff. exists y.
      split; [exact E|]. now apply I3.
Qed.

(** X26.  The list of previous foods offered by the search holds every
    name once, whatever its letter case: no two of its items have the same
    name in lower case, each of its items is one of the fetched items, and
    the name of every fetched item is among its names. *)
Theorem X26_previous_foods_are_unique_by_name :
  forall transformedData : list PreviousFoodItem.t,
    NoDup (map (lower_name toLowerCase) (uniqueFoodItems toLowerCase transformedData))
    /\ (forall x, In x (uniqueFoodItems toLowerCase transformedData) ->
                  In x transformedData)
    /\ (forall x, In x transformedData ->
                  In (lower_name toLowerCase x)
                    (map (lower_name toLowerCase)
                       (uniqueFoodItems toLowerCase transformedData))).
Proof.
  intro l. unfold uniqueFoodItems.
  destruct (fold_keep_first l []) as (I1 & I2 & _ & I4). repeat split.
  - apply I1. constructor.
  - intros x H. apply I2 in H as [[] | H]. exact H.
  - exact I4.
Qed.

End UniquePreviousFoods.

Section FetchedMeals.

Import MealLogger.

Local Open Scope Z_scope.

Lemma utc_year_range (t y m d : Z) :
  0 <= t < 253402300800000 -> utc_date t = (y, m, d) -> 0 <= y <= 9999.
Proof.
  intros Ht E. destruct (utc_date_day t y m d E) as (Hm & _ & Hd31 & Hday).
  assert (Hd1 : 1 <= d).
  { unfold utc_date, civil_from_days in E.
    assert (B : 0 <= (t / msPerDay + 719468) mod 146097 < 146097)
      by (apply Z.mod_pos_bound; lia).
    pose proof (civil_of_doe_range ((t / msPerDay + 719468) / 146097) _ B) as G.
    rewrite E in G. lia. }
  assert (Hz : 0 <= t / msPerDay <= 2932896)
    by (unfold msPerDay; Z.div_mod_to_equations; lia).
  rewrite <- Hday in Hz. unfold days_from_civil in Hz.
  destruct (m <=? 2) eqn:M; [apply Z.leb_le in M|apply Z.leb_gt in M];
    Z.div_mod_to_equations; lia.
Qed.

Lemma stamped_row_is_parsed (t : Z) :
  0 <= t < 253402300800000 -> Date_parse (format_iso t) = Some t.
Proof.
  intro Ht. destruct (utc_date t) as [[y m] d] eqn:E.
  apply (Date_parse_format_iso t y m d E). now apply (utc_year_range t y m d).
Qed.

Lemma stored_rows_are_stamped (l : list submission) (db : Store.t) (row : Store.meal_logs_row) :
  In row (Store.meal_logs (fold_left submit l db)) ->
  In row (Store.meal_logs db)
  \/ exists s, In s l /\ Store.created_at row = format_iso (sub_now2 s).
Proof.
  revert db. induction l as [|s l IH]; intros db H; cbn [fold_left] in H; [now left|].
  apply IH in H as [H | (s' & Hs & E)].
  - unfold submit in H.
    destruct (handleSubmit_cases (sub_user s) (sub_now1 s) (sub_now2 s) (sub_data s) db)
      as [K | (uid & _ & _ & K)]; rewrite K in H; [now left|].
    cbn [Store.meal_logs] in H. apply in_app_or in H as [H | [<- | []]]; [now left|].
    right. exists s. split; [now left|reflexivity].
  - right. exists s'. split; [now right|exact E].
Qed.

(** X27.  [fetchMealLogs] asks for the rows created at or after the
    moment of the call, so it returns none of the meals logged before:
    whatever was logged at earlier readings of the clock, by whomever, the
    list it returns is empty. *)
Theorem X27_fetchMealLogs_returns_no_earlier_meal :
  forall (l : list submission) user now rows,
    (forall s, In s l -> 0 <= sub_now2 s < now) ->
    now < 253402300800000 ->
    fetchMealLogs user now (after_submissions l) = Some rows ->
    rows = [].
Proof.
  intros l user now rows Hl Hnow H. unfold fetchMealLogs in H.
  destruct user as [uid|]; [|discriminate].
  destruct (negb (signed_in (Some uid))); [discriminate|].
  injection H as <-.
  match goal with |- filter ?p ?x = [] => destruct (filter p x) as [|row rest] eqn:E end;
    [reflexivity|].
  exfalso.
  assert (Hin : In row (filter
                 (fun row => String.eqb (Store.user_id row) uid
                             && match Date_parse (Store.created_at row) with
                                | Some t => now <=? t
                                | None => false
                                end)
                 (Store.meal_logs (after_submissions l))))
    by (rewrite E; now left).
  apply filter_In in Hin as [Hin P]. apply andb_prop in P as [_ P].
  apply stored_rows_are_stamped in Hin as [[] | (s & Hs & C)].
  rewrite C in P. specialize (Hl s Hs).
  rewrite stamped_row_is_parsed in P by lia.
  apply Z.leb_le in P. lia.
Qed.

End FetchedMeals.

Lemma X27_fetchMealLogs_returns_no_earlier_meal_witness :
  fetchMealLogs (Some "user-1") Examples.early_2_May_2024
    (after_submissions
       [{| sub_user := Some "user-1"; sub_now1 := Examples.noon_1_May_2024;
           sub_now2 := Examples.noon_1_May_2024; sub_data := Examples.meal_A_B |}])
  = Some []
  /\ @nil Store.meal_logs_row = [].
Proof.
  split; [reflexivity|].
  apply (X27_fetchMealLogs_returns_no_earlier_meal
           [{| sub_user := Some "user-1"; sub_now1 := Examples.noon_1_May_2024;
               sub_now2 := Examples.noon_1_May_2024; sub_data := Examples.meal_A_B |}]
           (Some "user-1") Examples.early_2_May_2024 []).
  - intros s [<- | []]. cbn. unfold Examples.noon_1_May_2024, Examples.early_2_May_2024.
    lia.
  - unfold Examples.early_2_May_2024. lia.
  - reflexivity.
Defined.

Section ProfileBMI.

Import UserProfileForm.

Variable name_format : string -> bool.
Variable toLowerCase : string -> string.




End ProfileBMI.


Section ChatSessions.

Import SaveChat.










(** Two sessions started one after the other: four rows, of which the
    last two are open, carrying the second session id. *)
Example two_sessions_in_a_row :
  List.length (after_requests [hello_request "user-1" 1714564800000;
                               hello_request "user-1" 1714564860000]) = 4%nat
  /\ map session_id
       (open_rows "user-1"
          (after_requests [hello_request "user-1" 1714564800000;
                           hello_request "user-1" 1714564860000]))
     = [Some "1714564860000"; Some "1714564860000"].
Proof. split; reflexivity. Qed.

End ChatSessions.
